(** * rc-report: weekly recent-changes digest of a MediaWiki wiki

    A shallow embedding of [rc-report.py] and the properties of its
    report formatter and of its orchestrator [main].

    Conventions of the model.
    - A Python [str] is a [string] holding its UTF-8 bytes.  Every character
      the program inspects is ASCII, [urllib.parse.quote] works on the UTF-8
      bytes anyway, and byte-wise order of UTF-8 agrees with Python's
      code-point order, which is what [list.sort] compares.
    - A Python [int] is a [Z].
    - A raised exception that nothing catches is [None] in the pure
      functions and [Uncaught] in the model of [main].
    - The logger is left out: no claim is about log lines. *)

From Stdlib Require Import String Ascii List ZArith Lia Bool Arith.
From Stdlib Require Import DecimalString Permutation Sorted.
Import ListNotations.

Open Scope string_scope.
Open Scope list_scope.
Open Scope Z_scope.

(** ** Option as the exception monad of the pure functions *)

Definition obind {A B : Type} (o : option A) (f : A -> option B) : option B :=
  match o with
  | Some a => f a
  | None => None
  end.

Notation "x <- c ;; k" := (obind c (fun x => k))
  (at level 61, c at next level, right associativity).

(** ** Characters and decimal text *)

Definition code (c : ascii) : Z := Z.of_N (N_of_ascii c).

Definition chr (z : Z) : ascii := ascii_of_N (Z.to_N z).

Definition is_digit (c : ascii) : bool := (48 <=? code c) && (code c <=? 57).

Definition is_upper (c : ascii) : bool := (65 <=? code c) && (code c <=? 90).

Definition is_lower (c : ascii) : bool := (97 <=? code c) && (code c <=? 122).

Definition in_range (lo hi : ascii) (c : ascii) : bool :=
  (code lo <=? code c) && (code c <=? code hi).

(** The decimal digit of [d mod 10]. *)
Definition digit (d : Z) : ascii := chr (48 + d mod 10).

(** [int(s)] on what a field of the timestamp format matched: decimal
    digits, for the day possibly after one blank, which [int] strips. *)
Definition digit_val (c : ascii) : Z := code c - 48.

Fixpoint int_digits (acc : Z) (s : string) : Z :=
  match s with
  | EmptyString => acc
  | String c r => if is_digit c then int_digits (acc * 10 + digit_val c) r
                  else int_digits acc r
  end.

Definition int (s : string) : Z := int_digits 0 s.

(** [str(n)] for a Python int. *)
Definition str_int (n : Z) : string := NilZero.string_of_int (Z.to_int n).

(** [%02d] and [%04d] as [strftime] prints day, month, hour, minute, second
    and year. *)
Definition pad2 (n : Z) : string :=
  String (digit (n / 10)) (String (digit n) EmptyString).

Definition pad4 (n : Z) : string :=
  String (digit (n / 1000)) (String (digit (n / 100)) (pad2 n)).

(** ** The [datetime] module, as far as the program uses it *)

Module datetime.

(** A [datetime.date] is represented by its proleptic Gregorian ordinal
    ([date.toordinal()]: 1 is 0001-01-01).  [date - timedelta(days=k)] is
    subtraction of ordinals and raises [OverflowError] outside
    [date.min .. date.max]. *)
Definition date := Z.

Definition MAXORDINAL : Z := 3652059.

Definition date_sub (d : date) (days : Z) : option date :=
  let o := d - days in
  if (1 <=? o) && (o <=? MAXORDINAL) then Some o else None.

(** [date.weekday()]: Monday is 0 and Sunday is 6. *)
Definition weekday (d : date) : Z := (d + 6) mod 7.

Definition is_leap (year : Z) : bool :=
  (year mod 4 =? 0) && (negb (year mod 100 =? 0) || (year mod 400 =? 0)).

Definition DAYS_IN_MONTH (month : Z) : Z :=
  match month with
  | 1 => 31 | 2 => 28 | 3 => 31 | 4 => 30 | 5 => 31 | 6 => 30
  | 7 => 31 | 8 => 31 | 9 => 30 | 10 => 31 | 11 => 30 | 12 => 31
  | _ => -1
  end.

Definition DAYS_BEFORE_MONTH (month : Z) : Z :=
  match month with
  | 1 => 0 | 2 => 31 | 3 => 59 | 4 => 90 | 5 => 120 | 6 => 151
  | 7 => 181 | 8 => 212 | 9 => 243 | 10 => 273 | 11 => 304 | 12 => 334
  | _ => -1
  end.

Definition days_before_year (year : Z) : Z :=
  let y := year - 1 in y * 365 + y / 4 - y / 100 + y / 400.

Definition days_in_month (year month : Z) : Z :=
  if (month =? 2) && is_leap year then 29 else DAYS_IN_MONTH month.

Definition days_before_month (year month : Z) : Z :=
  DAYS_BEFORE_MONTH month + (if (2 <? month) && is_leap year then 1 else 0).

Definition ymd2ord (year month day : Z) : Z :=
  days_before_year year + days_before_month year month + day.

Definition DI400Y : Z := 146097.
Definition DI100Y : Z := 36524.
Definition DI4Y : Z := 1461.

(** [_ord2ymd]: ordinal to (year, month, day). *)
Definition ord2ymd (n : Z) : Z * Z * Z :=
  let n := n - 1 in
  let n400 := n / DI400Y in let n := n mod DI400Y in
  let year := n400 * 400 + 1 in
  let n100 := n / DI100Y in let n := n mod DI100Y in
  let n4 := n / DI4Y in let n := n mod DI4Y in
  let n1 := n / 365 in let n := n mod 365 in
  let year := year + (n100 * 100 + n4 * 4 + n1) in
  if (n1 =? 4) || (n100 =? 4) then (year - 1, 12, 31)
  else
    let leapyear := (n1 =? 3) && (negb (n4 =? 24) || (n100 =? 3)) in
    let month := Z.shiftr (n + 50) 5 in
    let preceding :=
      DAYS_BEFORE_MONTH month + (if (2 <? month) && leapyear then 1 else 0) in
    if n <? preceding then
      let month := month - 1 in
      let preceding :=
        preceding
        - (DAYS_IN_MONTH month + (if (month =? 2) && leapyear then 1 else 0)) in
      (year, month, n - preceding + 1)
    else (year, month, n - preceding + 1).

(** A [datetime.datetime]; every one the program builds is in UTC. *)
Record t : Type := mk {
  year : Z; month : Z; day : Z;
  hour : Z; minute : Z; second : Z; microsecond : Z
}.

(** [datetime.time.min] and [datetime.time.max] as (h, m, s, us). *)
Definition time_min : Z * Z * Z * Z := (0, 0, 0, 0).
Definition time_max : Z * Z * Z * Z := (23, 59, 59, 999999).

(** [datetime.datetime.combine(d, tm, tzinfo=utc)]. *)
Definition combine (d : date) (tm : Z * Z * Z * Z) : t :=
  let '(y, m, dd) := ord2ymd d in
  let '(h, mi, s, us) := tm in
  mk y m dd h mi s us.

Definition toordinal (dt : t) : Z := ymd2ord (year dt) (month dt) (day dt).

Definition day_name (wd : Z) : string :=
  match wd with
  | 0 => "Monday" | 1 => "Tuesday" | 2 => "Wednesday" | 3 => "Thursday"
  | 4 => "Friday" | 5 => "Saturday" | _ => "Sunday"
  end.

Definition month_abbr (m : Z) : string :=
  match m with
  | 1 => "Jan" | 2 => "Feb" | 3 => "Mar" | 4 => "Apr" | 5 => "May"
  | 6 => "Jun" | 7 => "Jul" | 8 => "Aug" | 9 => "Sep" | 10 => "Oct"
  | 11 => "Nov" | _ => "Dec"
  end.

(** [strftime('%Y-%m-%d')] *)
Definition strftime_Ymd (dt : t) : string :=
  pad4 (year dt) ++ "-" ++ pad2 (month dt) ++ "-" ++ pad2 (day dt).

(** [strftime('%A')] *)
Definition strftime_A (dt : t) : string :=
  day_name (weekday (toordinal dt)).

(** [strftime('%H:%M')] *)
Definition strftime_HM (dt : t) : string :=
  pad2 (hour dt) ++ ":" ++ pad2 (minute dt).

(** [strftime('%b %d')] *)
Definition strftime_bd (dt : t) : string :=
  month_abbr (month dt) ++ " " ++ pad2 (day dt).

(** [strftime('%Y-%m-%dT%H:%M:%SZ')] *)
Definition strftime_iso (dt : t) : string :=
  strftime_Ymd dt ++ "T" ++ strftime_HM dt ++ ":" ++ pad2 (second dt) ++ "Z".

(** *** [strptime(s, '%Y-%m-%dT%H:%M:%SZ')]

    [_strptime] turns the format into a regular expression, compiled with
    IGNORECASE, matches it at the start of the text with the backtracking
    matcher, rejects text left over after the match, and then builds the
    date and the datetime, whose constructors reject year 0, a day the
    month does not have and a second above 59.  A regular expression is
    run here as a list-of-successes parser, the successes in the order in
    which the backtracking matcher tries them.  Only the ASCII digits
    stand for the class of digits: the wiki writes its timestamps in
    ASCII. *)

Definition parser (A : Type) : Type := string -> list (A * string).

Definition p_bind {A B : Type} (p : parser A) (f : A -> parser B)
  : parser B :=
  fun s => flat_map (fun ar => f (fst ar) (snd ar)) (p s).

Definition p_ret {A : Type} (a : A) : parser A := fun s => [(a, s)].

Definition p_alt {A : Type} (p q : parser A) : parser A :=
  fun s => p s ++ q s.

(** One character satisfying [ok]. *)
Definition p_char (ok : ascii -> bool) : parser string :=
  fun s =>
    match s with
    | String c r => if ok c then [(String c EmptyString, r)] else []
    | EmptyString => []
    end.

(** Two character classes in sequence. *)
Definition p_two (ok1 ok2 : ascii -> bool) : parser string :=
  p_bind (p_char ok1) (fun a =>
  p_bind (p_char ok2) (fun b => p_ret (a ++ b)%string)).

(** A literal character, matched without regard to case. *)
Definition p_lit (c : ascii) : parser string :=
  p_char (fun x => Ascii.eqb x c
                   || (is_upper c && Ascii.eqb x (chr (code c + 32)))
                   || (is_lower c && Ascii.eqb x (chr (code c - 32)))).

Definition only (c : ascii) : ascii -> bool := fun x => Ascii.eqb x c.

(** [(?P<Y>\d\d\d\d)] *)
Definition re_Y : parser string :=
  p_bind (p_two is_digit is_digit) (fun a =>
  p_bind (p_two is_digit is_digit) (fun b => p_ret (a ++ b)%string)).

(** [(?P<m>1[0-2]|0[1-9]|[1-9])] *)
Definition re_m : parser string :=
  p_alt (p_two (only "1") (in_range "0" "2"))
 (p_alt (p_two (only "0") (in_range "1" "9"))
        (p_char (in_range "1" "9"))).

(** [(?P<d>3[0-1]|[1-2]\d|0[1-9]|[1-9]| [1-9])] *)
Definition re_d : parser string :=
  p_alt (p_two (only "3") (in_range "0" "1"))
 (p_alt (p_two (in_range "1" "2") is_digit)
 (p_alt (p_two (only "0") (in_range "1" "9"))
 (p_alt (p_char (in_range "1" "9"))
        (p_two (only " ") (in_range "1" "9"))))).

(** [(?P<H>2[0-3]|[0-1]\d|\d)] *)
Definition re_H : parser string :=
  p_alt (p_two (only "2") (in_range "0" "3"))
 (p_alt (p_two (in_range "0" "1") is_digit)
        (p_char is_digit)).

(** [(?P<M>[0-5]\d|\d)] *)
Definition re_M : parser string :=
  p_alt (p_two (in_range "0" "5") is_digit) (p_char is_digit).

(** [(?P<S>6[0-1]|[0-5]\d|\d)] *)
Definition re_S : parser string :=
  p_alt (p_two (only "6") (in_range "0" "1"))
 (p_alt (p_two (in_range "0" "5") is_digit)
        (p_char is_digit)).

Definition format_regex : parser t :=
  p_bind re_Y (fun Y =>
  p_bind (p_lit "-") (fun _ =>
  p_bind re_m (fun m =>
  p_bind (p_lit "-") (fun _ =>
  p_bind re_d (fun d =>
  p_bind (p_lit "T") (fun _ =>
  p_bind re_H (fun H =>
  p_bind (p_lit ":") (fun _ =>
  p_bind re_M (fun M =>
  p_bind (p_lit ":") (fun _ =>
  p_bind re_S (fun S =>
  p_bind (p_lit "Z") (fun _ =>
  p_ret (mk (int Y) (int m) (int d) (int H) (int M) (int S) 0))))))))))))).

Definition strptime (data_string : string) : option t :=
  match format_regex data_string with
  | [] => None                                  (* does not match format *)
  | (dt, rest) :: _ =>
      if negb (rest =? "")%string then None     (* unconverted data remains *)
      else if (1 <=? year dt)
              && (day dt <=? days_in_month (year dt) (month dt))
              && (second dt <=? 59)
      then Some dt
      else None                                 (* out of range *)
  end.

End datetime.

(** ** Text helpers: [str.replace], [str.join], [html.escape], [quote] *)

Definition c_amp : ascii := "&".
Definition c_lt : ascii := "<".
Definition c_gt : ascii := ">".
Definition c_dquote : ascii := Eval cbv in chr 34.
Definition c_squote : ascii := "'".
Definition c_newline : ascii := Eval cbv in chr 10.
Definition newline : string := String c_newline EmptyString.

(** [s.replace(old, new)] for a one-character [old]. *)
Fixpoint replace (old : ascii) (new : string) (s : string) : string :=
  match s with
  | EmptyString => EmptyString
  | String c r =>
      if Ascii.eqb c old then new ++ replace old new r
      else String c (replace old new r)
  end.

(** [sep.join(lines)] *)
Definition join (sep : string) (lines : list string) : string :=
  String.concat sep lines.

Module html.

(** [html.escape(s)], with its default [quote=True]: five replacements,
    the ampersand first. *)
Definition escape (s : string) : string :=
  let s := replace c_amp "&amp;" s in
  let s := replace c_lt "&lt;" s in
  let s := replace c_gt "&gt;" s in
  let s := replace c_dquote "&quot;" s in
  let s := replace c_squote "&#x27;" s in
  s.

End html.

(** [urllib.parse.quote(s)] with its default [safe='/']: letters, digits
    and [_.-~] are always kept, every other byte becomes [%XX]. *)
Definition always_safe (c : ascii) : bool :=
  is_upper c || is_lower c || is_digit c
  || Ascii.eqb c "_" || Ascii.eqb c "." || Ascii.eqb c "-" || Ascii.eqb c "~".

Definition hex_digit (n : Z) : ascii :=
  if n <? 10 then chr (48 + n) else chr (55 + n).

Definition quoter (c : ascii) : string :=
  if always_safe c || Ascii.eqb c "/" then String c EmptyString
  else String "%" (String (hex_digit (code c / 16))
                  (String (hex_digit (code c mod 16)) EmptyString)).

Fixpoint quote (s : string) : string :=
  match s with
  | EmptyString => EmptyString
  | String c r => quoter c ++ quote r
  end.

(** ** Edit records *)

(** One entry of the recent-changes feed, as the wiki's JSON gives it:
    [comment] and [old_revid] may be missing from the dict, the other keys
    are read with [rc[...]]. *)
Record EditRecord : Type := mkEdit {
  title : string;
  timestamp : string;
  user : string;
  comment : option string;
  revid : Z;
  old_revid : option Z
}.

(** [rc.get(key, default)] *)
Definition get {A : Type} (field : option A) (default : A) : A :=
  match field with
  | Some v => v
  | None => default
  end.

(** ** [changes.sort(key=lambda x: x['timestamp'], reverse=True)]

    Python's sort is stable, also with [reverse=True]: records come out by
    descending key and records with equal keys keep their order.  A list
    has exactly one such arrangement; it is computed here by insertion. *)

Definition key (x : EditRecord) : string := timestamp x.

Fixpoint insert_desc (x : EditRecord) (l : list EditRecord)
  : list EditRecord :=
  match l with
  | [] => [x]
  | y :: l' =>
      if String.ltb (key x) (key y) then y :: insert_desc x l'
      else x :: y :: l'
  end.

Fixpoint sort_changes (changes : list EditRecord) : list EditRecord :=
  match changes with
  | [] => []
  | x :: l => insert_desc x (sort_changes l)
  end.

(** ** [format_group] *)

Definition last_error {A : Type} (l : list A) : option A :=
  match l with
  | [] => None
  | x :: l' => Some (last l' x)
  end.

(** One [<li>] line of the list of edits. *)
Definition edit_entry (base_url : string) (rc : EditRecord) : option string :=
  ts <- datetime.strptime (timestamp rc) ;;
  let time_str := datetime.strftime_HM ts in
  let comment := html.escape (get (comment rc) "") in
  let diff_link :=
    (base_url ++ "/w/index.php?diff=" ++ str_int (revid rc)
              ++ "&oldid=" ++ str_int (get (old_revid rc) 0))%string in
  Some ("<li>"
        ++ "[<a href='" ++ diff_link ++ "'>diff</a>] "
        ++ "[" ++ time_str ++ "] "
        ++ "('" ++ comment ++ "') "
        ++ "</li>")%string.

(** The [for rc in group] loop of [format_group]. *)
Fixpoint edit_entries (base_url : string) (group : list EditRecord)
  : option (list string) :=
  match group with
  | [] => Some []
  | rc :: rest =>
      entry <- edit_entry base_url rc ;;
      entries <- edit_entries base_url rest ;;
      Some (entry :: entries)
  end.

(** The header line of a group, from its first and last edit. *)
Definition group_header (base_url : string) (first_edit last_edit : EditRecord)
  : option string :=
  first_ts <- datetime.strptime (timestamp first_edit) ;;
  last_ts <- datetime.strptime (timestamp last_edit) ;;
  let time_range :=
    ("[" ++ datetime.strftime_HM last_ts ++ " - "
         ++ datetime.strftime_HM first_ts ++ "]")%string in
  let page_title := title first_edit in
  let username := user first_edit in
  let page_title_encoded := quote (replace " " "_" page_title) in
  let page_url := (base_url ++ "/wiki/" ++ page_title_encoded)%string in
  let user_url := (base_url ++ "/wiki/User:" ++ quote username)%string in
  Some ("<p><strong>" ++ time_range ++ " "
        ++ "<a href='" ++ page_url ++ "'><strong>"
        ++ html.escape page_title ++ "</strong></a> "
        ++ "[<a href='" ++ user_url ++ "'>"
        ++ html.escape username ++ "</a>]</strong></p>")%string.

Definition format_group (group : list EditRecord) (base_url : string)
  : option (list string) :=
  first_edit <- hd_error group ;;
  last_edit <- last_error group ;;
  header <- group_header base_url first_edit last_edit ;;
  entries <- edit_entries base_url group ;;
  Some ([header; "<ul>"] ++ entries ++ ["</ul>"]).

(** ** [format_changes] *)

Definition opt_eqb (a b : option string) : bool :=
  match a, b with
  | Some x, Some y => String.eqb x y
  | None, None => true
  | _, _ => false
  end.

(** The scan over the sorted changes.  It is written once, over the two
    things it emits: the line of a date heading and the lines of a flushed
    group.  [format_changes] runs it with the HTML of both; the report
    structure is read off the same scan run with the emitted pieces kept as
    they are. *)
Section Scan.

Variable O : Type.
Variable emit_heading : string -> string -> O.
Variable emit_group : list EditRecord -> option (list O).

(** The variables of the loop. *)
Record state : Type := mkState {
  current_date : option string;
  last_user : option string;
  last_page : option string;
  group : list EditRecord;
  output_lines : list O
}.

(** [if group: output_lines.extend(format_group(group, base_url));
    group = []] *)
Definition flush (st : state) : option state :=
  match group st with
  | [] => Some st
  | _ :: _ =>
      lines <- emit_group (group st) ;;
      Some (mkState (current_date st) (last_user st) (last_page st)
                    [] (output_lines st ++ lines))
  end.

(** The body of [for idx, rc in enumerate(changes)]. *)
Definition scan_step (st : state) (rc : EditRecord) : option state :=
  ts <- datetime.strptime (timestamp rc) ;;
  let date_str := datetime.strftime_Ymd ts in
  let day_of_week := datetime.strftime_A ts in
  st <- (if negb (opt_eqb (current_date st) (Some date_str)) then
           st <- flush (mkState (Some date_str) (last_user st) (last_page st)
                                (group st) (output_lines st)) ;;
           Some (mkState (current_date st) None None (group st)
                         (output_lines st
                          ++ [emit_heading date_str day_of_week]))
         else Some st) ;;
  if opt_eqb (Some (user rc)) (last_user st)
     && opt_eqb (Some (title rc)) (last_page st)
  then
    Some (mkState (current_date st) (last_user st) (last_page st)
                  (group st ++ [rc]) (output_lines st))
  else
    st <- flush st ;;
    Some (mkState (current_date st) (Some (user rc)) (Some (title rc))
                  (group st ++ [rc]) (output_lines st)).

Fixpoint scan (st : state) (changes : list EditRecord) : option state :=
  match changes with
  | [] => Some st
  | rc :: rest => st <- scan_step st rc ;; scan st rest
  end.

(** The loop and the flush after it, from the given first lines. *)
Definition scan_all (first_lines : list O) (changes : list EditRecord)
  : option (list O) :=
  st <- scan (mkState None None None [] first_lines) changes ;;
  st <- flush st ;;
  Some (output_lines st).

End Scan.

Arguments mkState {O}.
Arguments current_date {O}.
Arguments last_user {O}.
Arguments last_page {O}.
Arguments group {O}.
Arguments output_lines {O}.
Arguments flush {O}.
Arguments scan_step {O}.
Arguments scan {O}.
Arguments scan_all {O}.

Definition heading_line (current_date day_of_week : string) : string :=
  "<h2>" ++ current_date ++ " (" ++ day_of_week ++ ")</h2>".

Definition header_lines (start_date end_date : datetime.t) (title : string)
  : list string :=
  let start_str := datetime.strftime_bd start_date in
  let end_str := datetime.strftime_bd end_date in
  let header :=
    ("<h1>Weekly " ++ title ++ " report: " ++ start_str ++ " - " ++ end_str
                   ++ "</h1>")%string in
  [header;
   ("<p>Here are the recent changes on " ++ title
      ++ " for the past week:</p>")%string].

(** [format_changes] sorts the list it is given in place, so it is a
    function from the caller's list to that list after the call and the
    HTML it returns ([None] when it raises). *)
Definition format_changes (changes : list EditRecord) (base_url : string)
    (start_date end_date : datetime.t) (title : string)
  : list EditRecord * option string :=
  let output_lines := header_lines start_date end_date title in
  let changes := sort_changes changes in
  (changes,
   output_lines <- scan_all heading_line (fun g => format_group g base_url)
                            output_lines changes ;;
   Some (join newline output_lines)).

(** ** The report as a structure

    [format_changes] builds no structure, it appends lines.  The groups it
    hands to [format_group] and the date headings it writes are read off the
    same scan, run with the emitted pieces kept: a [Heading] for a heading
    line, a [Group] for a flushed group. *)

Inductive block : Type :=
| Heading (date_str day_of_week : string)
| Group (records : list EditRecord).

Definition emit_block (g : list EditRecord) : option (list block) :=
  Some [Group g].

Definition blocks_of (changes : list EditRecord) : option (list block) :=
  scan_all Heading emit_block [] (sort_changes changes).

(** The lines [format_changes] writes for a block. *)
Definition render_block (base_url : string) (b : block) : list string :=
  match b with
  | Heading d w => [heading_line d w]
  | Group g => get (format_group g base_url) []
  end.

(** A date section: a heading and the groups up to the next heading. *)
Record DateSection : Type := mkSection {
  section_date : string;
  section_day : string;
  groups : list (list EditRecord)
}.

Fixpoint leading_groups (bs : list block) : list (list EditRecord) :=
  match bs with
  | Group g :: rest => g :: leading_groups rest
  | _ => []
  end.

(** Groups that no heading precedes belong to no section. *)
Fixpoint sections (bs : list block) : list DateSection :=
  match bs with
  | [] => []
  | Heading d w :: rest => mkSection d w (leading_groups rest) :: sections rest
  | Group _ :: rest => sections rest
  end.

Definition section_records (s : DateSection) : list EditRecord :=
  concat (groups s).

Definition report_records (secs : list DateSection) : list EditRecord :=
  flat_map section_records secs.

(** The calendar date of a record, as the scan computes [date_str]. *)
Definition date_of (rc : EditRecord) : option string :=
  option_map datetime.strftime_Ymd (datetime.strptime (timestamp rc)).

(** Every group among the blocks, in order. *)
Fixpoint all_groups (bs : list block) : list (list EditRecord) :=
  match bs with
  | [] => []
  | Group g :: rest => g :: all_groups rest
  | Heading _ _ :: rest => all_groups rest
  end.

(** What a flush of the pending group [g] appends to the blocks. *)
Definition flushed (g : list EditRecord) : list block :=
  match g with
  | [] => []
  | _ :: _ => [Group g]
  end.

Definition parses (rc : EditRecord) : Prop :=
  datetime.strptime (timestamp rc) <> None.

(** [a] may stand before [b] in descending order: the key of [a] is not
    below the key of [b]. *)
Definition desc (a b : EditRecord) : Prop :=
  String.ltb (key a) (key b) = false.

(** A well-formed group of the section dated [d]: not empty, one user and
    one page, every record on the date [d]. *)
Definition group_ok (d : string) (g : list EditRecord) : Prop :=
  g <> []
  /\ exists u p, forall r, In r g ->
       date_of r = Some d /\ user r = u /\ title r = p.

Definition section_ok (s : DateSection) : Prop :=
  Forall (group_ok (section_date s)) (groups s).

(** A flush of the pending group [g] with [emit_group] appends [fl g]. *)
Definition flushes {O : Type} (emit_group : list EditRecord -> option (list O))
    (fl : list EditRecord -> list O) (g : list EditRecord) : Prop :=
  (g = [] -> fl g = []) /\ (g <> [] -> emit_group g = Some (fl g)).

(** The state after one step of the scan on a record whose timestamp parses
    to [ts], when a flush of the pending group [g] appends [fl g]. *)
Definition step_result {O : Type} (emit_heading : string -> string -> O)
    (fl : list EditRecord -> list O) (st : state O) (rc : EditRecord)
    (ts : datetime.t) : state O :=
  let d := datetime.strftime_Ymd ts in
  let w := datetime.strftime_A ts in
  if opt_eqb (current_date st) (Some d) then
    if opt_eqb (Some (user rc)) (last_user st)
       && opt_eqb (Some (title rc)) (last_page st)
    then mkState (current_date st) (last_user st) (last_page st)
                 (group st ++ [rc]) (output_lines st)
    else mkState (current_date st) (Some (user rc)) (Some (title rc))
                 [rc] (output_lines st ++ fl (group st))
  else mkState (Some d) (Some (user rc)) (Some (title rc))
               [rc] (output_lines st ++ fl (group st) ++ [emit_heading d w]).

(** The lines a flush of the pending group [g] appends. *)
Definition rendered (base_url : string) (g : list EditRecord) : list string :=
  flat_map (render_block base_url) (flushed g).

(** The state of [format_changes] that goes with a state of the scan over
    blocks: the same variables, the blocks rendered after the lines [pre]. *)
Definition to_lines (base_url : string) (pre : list string) (st : state block)
  : state string :=
  mkState (current_date st) (last_user st) (last_page st) (group st)
          (pre ++ flat_map (render_block base_url) (output_lines st)).

(** The blocks once the pending group of [st] is flushed. *)
Definition finish (st : state block) : list block :=
  output_lines st ++ flushed (group st).

(** The pending group belongs to the current date and to the current key. *)
Definition pending_ok (st : state block) : Prop :=
  (forall r, In r (group st) ->
     date_of r = current_date st
     /\ Some (user r) = last_user st /\ Some (title r) = last_page st)
  /\ (current_date st = None -> group st = []).

(** ** Instants and raw markup characters *)

(** Seconds from the start of the proleptic calendar. *)
Definition epoch (dt : datetime.t) : Z :=
  ((datetime.toordinal dt * 24 + datetime.hour dt) * 60
   + datetime.minute dt) * 60 + datetime.second dt.

Definition epoch_of (rc : EditRecord) : Z :=
  match datetime.strptime (timestamp rc) with
  | Some ts => epoch ts
  | None => 0
  end.

(** Members in descending order of time: each is no earlier than the
    next. *)
Definition descending (g : list EditRecord) : Prop :=
  Sorted (fun a b => epoch_of b <= epoch_of a) g.

(** The characters that [html.escape] replaces. *)
Definition special (c : ascii) : bool :=
  Ascii.eqb c c_amp || Ascii.eqb c c_lt || Ascii.eqb c c_gt
  || Ascii.eqb c c_dquote || Ascii.eqb c c_squote.

Fixpoint starts_with (p s : string) : bool :=
  match p with
  | EmptyString => true
  | String a p' =>
      match s with
      | EmptyString => false
      | String b s' => Ascii.eqb a b && starts_with p' s'
      end
  end.

(** What follows the ampersand in the five entities of [html.escape]. *)
Definition entities : list string := ["amp;"; "lt;"; "gt;"; "quot;"; "#x27;"].

Definition starts_entity (s : string) : bool :=
  existsb (fun e => starts_with e s) entities.

(** The raw occurrences of [c] in [s]: all of them, except that an
    ampersand which begins one of the five entities is not raw. *)
Fixpoint raw_count (c : ascii) (s : string) : nat :=
  match s with
  | EmptyString => 0%nat
  | String x r =>
      ((if Ascii.eqb x c && negb (Ascii.eqb x c_amp && starts_entity r)
        then 1 else 0)
       + raw_count c r)%nat
  end.

(** No special character at all. *)
Fixpoint clean (s : string) : bool :=
  match s with
  | EmptyString => true
  | String x r => negb (special x) && clean r
  end.

Fixpoint amp_free (s : string) : bool :=
  match s with
  | EmptyString => true
  | String x r => negb (Ascii.eqb x c_amp) && amp_free r
  end.

Fixpoint slash_free (s : string) : bool :=
  match s with
  | EmptyString => true
  | String x r => negb (Ascii.eqb x "/") && slash_free r
  end.

(** The raw occurrences of [c] in a URL prefix [u], up to the slash that
    follows it. *)
Definition slash_count (c : ascii) (u : string) : nat :=
  raw_count c (u ++ "/").

(** The record with its title, user and comment emptied. *)
Definition blank (rc : EditRecord) : EditRecord :=
  mkEdit "" (timestamp rc) "" None (revid rc) (old_revid rc).

(** ** The process: environment, network, exit *)

(** A JSON object or a [params]/[data] dict of strings, in insertion
    order. *)
Definition dict : Type := list (string * string).

Fixpoint dict_get (d : dict) (k : string) : option string :=
  match d with
  | [] => None
  | (k', v) :: rest => if String.eqb k' k then Some v else dict_get rest k
  end.

Fixpoint dict_set (d : dict) (k v : string) : dict :=
  match d with
  | [] => [(k, v)]
  | (k', v') :: rest =>
      if String.eqb k' k then (k', v) :: rest else (k', v') :: dict_set rest k v
  end.

(** [d.update(other)] *)
Definition dict_update (d other : dict) : dict :=
  fold_left (fun d kv => dict_set d (fst kv) (snd kv)) other d.

(** What the process does to the outside, in order.  A call of
    [format_changes] is recorded too. *)
Inductive event : Type :=
| Get (url : string) (params : dict)
| Post (url : string) (auth : option (string * string)) (data : dict)
| Call_format_changes.

Inductive outcome : Type :=
| Exit (status : Z)                 (* sys.exit(status) *)
| Uncaught (exception : string).    (* traceback; the exit status is 1 *)

(** The answers of the wiki and of the mail provider, given in advance.
    [None] stands for a request that raises [RequestException] or an answer
    in which the code finds a key missing ([KeyError]); both are caught by
    the same handler.  Beyond the last scripted page the transport fails. *)
Record world : Type := mkWorld {
  (* data['query']['tokens']['logintoken'] *)
  token_reply : option string;
  (* data['login']['result'] *)
  login_reply : option string;
  (* per page: data['query']['recentchanges'] and data.get('continue') *)
  pages : list (option (list EditRecord * option dict));
  (* response.status_code of the mail provider; None: the post raises *)
  mail_reply : option Z
}.

(** A run: the events so far and either the end of the process or a value. *)
Definition proc (A : Type) : Type := list event * (outcome + A).

Definition ret {A : Type} (a : A) : proc A := ([], inr a).

Definition bind {A B : Type} (m : proc A) (f : A -> proc B) : proc B :=
  match m with
  | (t, inl o) => (t, inl o)
  | (t, inr a) => let (t', r) := f a in (t ++ t', r)
  end.

Definition emit (e : event) : proc unit := ([e], inr tt).

Definition sys_exit {A : Type} (status : Z) : proc A := ([], inl (Exit status)).

Definition raise {A : Type} (exception : string) : proc A :=
  ([], inl (Uncaught exception)).

Declare Scope proc_scope.
Delimit Scope proc_scope with proc.
Notation "x <~ c ;; k" := (bind c (fun x => k))
  (at level 61, c at next level, right associativity) : proc_scope.
Notation "c ;;; k" := (bind c (fun _ => k))
  (at level 61, right associativity) : proc_scope.

Definition trace {A : Type} (m : proc A) : list event := fst m.

(** How the process ends: falling off the end of [main] is exit status 0. *)
Definition result (m : proc unit) : outcome :=
  match snd m with
  | inl o => o
  | inr _ => Exit 0
  end.

Definition environ : Type := string -> option string.

(** [os.getenv(name)] *)
Definition getenv (env : environ) (name : string) : option string := env name.

(** The value when it is truthy: set and not empty. *)
Definition truthy (v : option string) : option string :=
  match v with
  | Some EmptyString => None
  | Some s => Some s
  | None => None
  end.

(** How an f-string prints a value that may be [None]. *)
Definition fstr (v : option string) : string := get v "None".

(** [s.split('.')[0]] *)
Fixpoint before_dot (s : string) : string :=
  match s with
  | EmptyString => EmptyString
  | String c r => if Ascii.eqb c "." then EmptyString else String c (before_dot r)
  end.

Local Open Scope proc_scope.

Definition get_login_token (w : world) (url : string) : proc string :=
  let params :=
    [("action", "query"); ("meta", "tokens"); ("type", "login");
     ("format", "json")] in
  emit (Get url params) ;;;
  match token_reply w with
  | Some logintoken => ret logintoken
  | None => sys_exit 1
  end.

Definition login (w : world) (url login_token username password : string)
  : proc unit :=
  let params :=
    [("action", "login"); ("lgname", username); ("lgpassword", password);
     ("format", "json"); ("lgtoken", login_token)] in
  emit (Post url None params) ;;;
  match login_reply w with
  | Some r => if negb (r =? "Success")%string then sys_exit 1 else ret tt
  | None => sys_exit 1
  end.

(** The [while True] loop of [get_recent_changes] over the scripted pages. *)
Fixpoint fetch_pages (pages : list (option (list EditRecord * option dict)))
    (url : string) (params : dict) (changes : list EditRecord)
  : proc (list EditRecord) :=
  emit (Get url params) ;;;
  match pages with
  | Some (recentchanges, continue) :: rest =>
      let changes := changes ++ recentchanges in
      match continue with
      | Some c => fetch_pages rest url (dict_update params c) changes
      | None => ret changes
      end
  | None :: _ => sys_exit 1
  | [] => sys_exit 1
  end.

Definition get_recent_changes (w : world) (url : string)
    (start_date end_date : datetime.t) : proc (list EditRecord) :=
  let rcstart := datetime.strftime_iso start_date in
  let rcend := datetime.strftime_iso end_date in
  let params :=
    [("action", "query"); ("list", "recentchanges");
     ("rcprop", "title|timestamp|user|comment|ids"); ("rclimit", "max");
     ("rcstart", rcstart); ("rcend", rcend); ("rcdir", "older");
     ("format", "json")] in
  fetch_pages (pages w) url params [].

Definition send_email (env : environ) (w : world)
    (subject html_content recipient_email : string) : proc Z :=
  match truthy (getenv env "MAILGUN_API_KEY"),
        truthy (getenv env "MAILGUN_DOMAIN"),
        truthy (getenv env "SENDER_EMAIL") with
  | Some MAILGUN_API_KEY, Some MAILGUN_DOMAIN, Some SENDER_EMAIL =>
      emit (Post ("https://api.mailgun.net/v3/" ++ MAILGUN_DOMAIN ++ "/messages")
                 (Some ("api", MAILGUN_API_KEY))
                 [("from", SENDER_EMAIL); ("to", recipient_email);
                  ("subject", subject); ("html", html_content)]) ;;;
      match mail_reply w with
      | Some status_code => ret status_code
      | None => raise "RequestException"
      end
  | _, _, _ => sys_exit 1
  end.

(** Step 3 of [main]: the Saturday and the Sunday of the window. *)
Definition last_saturday (today : datetime.date) : option datetime.date :=
  datetime.date_sub today (datetime.weekday today + 2).

Definition last_sunday (today : datetime.date) : option datetime.date :=
  sat <- last_saturday today ;; datetime.date_sub sat 6.

Definition lift {A : Type} (exception : string) (o : option A) : proc A :=
  match o with
  | Some a => ret a
  | None => raise exception
  end.

(** [main] from the test of the fetched changes on: nothing to report, or
    steps 5 and 6. *)
Definition report (env : environ) (w : world) (BASE_DOMAIN : option string)
    (start_date end_date : datetime.t) (recipient_email : string)
    (changes : list EditRecord) : proc unit :=
  let BASE_URL := ("https://" ++ fstr BASE_DOMAIN)%string in
  match changes with
  | [] => sys_exit 0
  | _ :: _ =>
    title <~ lift "AttributeError" (option_map before_dot BASE_DOMAIN) ;;
    emit Call_format_changes ;;;
    html_output <~ lift "ValueError"
      (snd (format_changes changes BASE_URL end_date start_date title)) ;;
    let subject :=
      ("Weekly " ++ fstr BASE_DOMAIN ++ " report: "
         ++ datetime.strftime_bd start_date ++ " - "
         ++ datetime.strftime_bd end_date)%string in
    status_code <~ send_email env w subject html_output recipient_email ;;
    if status_code =? 200 then ret tt else sys_exit 1
  end.

(** The address of the wiki API, [URL] in [main]. *)
Definition api_url (env : environ) : string :=
  "https://" ++ fstr (getenv env "BASE_DOMAIN") ++ "/w/api.php".

(** [main], run with the environment variables [env], on the UTC date
    [today], against the answers [w]. *)
Definition main (env : environ) (today : datetime.date) (w : world)
  : proc unit :=
  let username := getenv env "MW_USERNAME" in
  let password := getenv env "MW_PASSWORD" in
  let recipient_email := getenv env "RECIPIENT_EMAIL" in
  match truthy username, truthy password with
  | Some username, Some password =>
    match truthy recipient_email with
    | Some recipient_email =>
      let BASE_DOMAIN := getenv env "BASE_DOMAIN" in
      let URL := api_url env in
      login_token <~ get_login_token w URL ;;
      login w URL login_token username password ;;;
      last_saturday <~ lift "OverflowError" (last_saturday today) ;;
      last_sunday <~ lift "OverflowError" (last_sunday today) ;;
      let start_date := datetime.combine last_sunday datetime.time_min in
      let end_date := datetime.combine last_saturday datetime.time_max in
      changes <~ get_recent_changes w URL end_date start_date ;;
      report env w BASE_DOMAIN start_date end_date recipient_email changes
    | None => sys_exit 1
    end
  | _, _ => sys_exit 1
  end.

Local Close Scope proc_scope.

(** ** Vocabulary for the properties of [main] *)

(** A post to the mail provider: the only request with credentials. *)
Definition is_mail (e : event) : bool :=
  match e with
  | Post _ (Some _) _ => true
  | _ => false
  end.

Definition is_format (e : event) : bool :=
  match e with
  | Call_format_changes => true
  | _ => false
  end.

(** Only traffic with the wiki. *)
Definition quiet (t : list event) : Prop :=
  existsb is_mail t = false /\ existsb is_format t = false.

(** The run logs in and the fetch returns [changes] for the window
    [sun .. sat]. *)
Definition fetched (env : environ) (today : datetime.date) (w : world)
    (sat sun : datetime.date) (recipient_email : string)
    (changes : list EditRecord) : Prop :=
  exists username password login_token,
    truthy (getenv env "MW_USERNAME") = Some username
    /\ truthy (getenv env "MW_PASSWORD") = Some password
    /\ truthy (getenv env "RECIPIENT_EMAIL") = Some recipient_email
    /\ token_reply w = Some login_token
    /\ login_reply w = Some "Success"
    /\ last_saturday today = Some sat
    /\ last_sunday today = Some sun
    /\ snd (get_recent_changes w (api_url env)
              (datetime.combine sat datetime.time_max)
              (datetime.combine sun datetime.time_min))
       = inr changes.

(** A required value is absent: unset or empty. *)
Definition absent (env : environ) (name : string) : Prop :=
  truthy (getenv env name) = None.

(** [s] is the Saturday of the most recently completed Sunday-to-Saturday
    week on the day [today]: the last Saturday before today. *)
Definition completed_saturday (today s : datetime.date) : Prop :=
  datetime.weekday s = 5
  /\ s < today
  /\ forall s', datetime.weekday s' = 5 -> s' < today -> s' <= s.

(** ** Inputs of the examples *)

(** The three records of the scenario. *)
Definition rcA1 : EditRecord :=
  mkEdit "Page1" "2024-01-02T10:00:00Z" "A" (Some "fix <b>") 12 (Some 11).
Definition rcA2 : EditRecord :=
  mkEdit "Page1" "2024-01-02T09:30:00Z" "A" None 11 (Some 10).
Definition rcB : EditRecord :=
  mkEdit "Page2" "2024-01-02T09:00:00Z" "B" (Some "") 7 None.

(** An edit by the same user on the same page late on the day before. *)
Definition rcA0 : EditRecord :=
  mkEdit "Page1" "2024-01-01T23:50:00Z" "A" (Some "typo") 9 (Some 8).

Definition jan06 : datetime.t := datetime.combine 738891 datetime.time_max.
Definition dec31 : datetime.t := datetime.combine 738885 datetime.time_min.

Definition env_of (d : dict) : environ := dict_get d.

Definition full_env : environ :=
  env_of [("MW_USERNAME", "bot"); ("MW_PASSWORD", "secret");
          ("RECIPIENT_EMAIL", "ops@example.org");
          ("BASE_DOMAIN", "w.example.org");
          ("MAILGUN_API_KEY", "key-1"); ("MAILGUN_DOMAIN", "mg.example.org");
          ("SENDER_EMAIL", "bot@example.org")].

(** Wednesday 2024-01-10 and Sunday 2024-01-07. *)
Definition wed_2024_01_10 : datetime.date := 738895.
Definition sun_2024_01_07 : datetime.date := 738892.

Definition good_world (changes : list EditRecord) : world :=
  mkWorld (Some "tok") (Some "Success") [Some (changes, None)] (Some 200).

(** The environment without one of its variables. *)
Definition without (name : string) (env : environ) : environ :=
  fun k => if String.eqb k name then None else env k.

(** The form that [main] posts to the mail provider for the changes
    [rcB], [rcA1] on Wednesday 2024-01-10. *)
Definition posted_data : dict :=
  [("from", "bot@example.org"); ("to", "ops@example.org");
   ("subject", "Weekly w.example.org report: Dec 31 - Jan 06");
   ("html",
    get (snd (format_changes [rcB; rcA1] "https://w.example.org"
                jan06 dec31 "w")) "")].

(** ** Further vocabulary: the shape of the report *)

(** The user and the page of a group: those of its first record. *)
Definition group_key (g : list EditRecord) : option (string * string) :=
  match g with
  | r :: _ => Some (user r, title r)
  | [] => None
  end.

Definition diff_key (g1 g2 : list EditRecord) : Prop :=
  group_key g1 <> group_key g2.

Definition diff_date (s1 s2 : DateSection) : Prop :=
  section_date s1 <> section_date s2.

(** Once a date is current, a group is pending. *)
Definition pending_started (st : state block) : Prop :=
  current_date st <> None -> group st <> [].

(** A line of the list of edits. *)
Definition is_li (line : string) : bool := starts_with "<li>" line.

(** A date heading. *)
Definition is_h2 (line : string) : bool := starts_with "<h2>" line.

(** The first line of a group. *)
Definition is_group_header (line : string) : bool :=
  starts_with "<p><strong>" line.

(** ** Further vocabulary: the pages of the fetch *)

(** A page that announces another one: its records and its [continue]. *)
Definition cont_page (p : list EditRecord * dict)
  : option (list EditRecord * option dict) :=
  Some (fst p, Some (snd p)).

(** The parameters of the successive requests: each [continue] is merged
    into the parameters of the request before. *)
Fixpoint params_seq (params : dict) (continues : list dict) : list dict :=
  params :: match continues with
            | [] => []
            | c :: cs => params_seq (dict_update params c) cs
            end.

(** The [continue] dicts among scripted pages. *)
Fixpoint continues_of (pages : list (option (list EditRecord * option dict)))
  : list dict :=
  match pages with
  | [] => []
  | Some (_, Some c) :: rest => c :: continues_of rest
  | _ :: rest => continues_of rest
  end.

(** The parameters of the first request of [get_recent_changes]. *)
Definition first_params (start_date end_date : datetime.t) : dict :=
  [("action", "query"); ("list", "recentchanges");
   ("rcprop", "title|timestamp|user|comment|ids"); ("rclimit", "max");
   ("rcstart", datetime.strftime_iso start_date);
   ("rcend", datetime.strftime_iso end_date); ("rcdir", "older");
   ("format", "json")].

(** A wiki that answers the fetch in two pages. *)
Definition two_page_world : world :=
  mkWorld (Some "tok") (Some "Success")
          [Some ([rcA1], Some [("rccontinue", "20240102093000|11");
                               ("continue", "-||")]);
           Some ([rcA2; rcB], None)]
          (Some 200).

(** ** Further vocabulary: the run *)

(** The parameters of the token request and of the login. *)
Definition token_params : dict :=
  [("action", "query"); ("meta", "tokens"); ("type", "login");
   ("format", "json")].

Definition login_params (username password login_token : string) : dict :=
  [("action", "login"); ("lgname", username); ("lgpassword", password);
   ("format", "json"); ("lgtoken", login_token)].

(** The report can be sent: the domain is set, the formatter returns
    [html_output] and the three settings of the mail provider are there. *)
Definition sendable (env : environ) (sat sun : datetime.date)
    (changes : list EditRecord) (html_output : string) : Prop :=
  exists domain,
    getenv env "BASE_DOMAIN" = Some domain
    /\ snd (format_changes changes ("https://" ++ domain)
              (datetime.combine sat datetime.time_max)
              (datetime.combine sun datetime.time_min) (before_dot domain))
       = Some html_output
    /\ ~ absent env "MAILGUN_API_KEY"
    /\ ~ absent env "MAILGUN_DOMAIN"
    /\ ~ absent env "SENDER_EMAIL".

(** ** Further vocabulary: timestamps *)

(** The fields of a date and time of the calendar. *)
Definition valid_datetime (dt : datetime.t) : Prop :=
  1 <= datetime.year dt <= 9999
  /\ 1 <= datetime.month dt <= 12
  /\ 1 <= datetime.day dt
       <= datetime.days_in_month (datetime.year dt) (datetime.month dt)
  /\ 0 <= datetime.hour dt <= 23
  /\ 0 <= datetime.minute dt <= 59
  /\ 0 <= datetime.second dt <= 59.

(** A timestamp as the wiki writes it: [YYYY-MM-DDTHH:MM:SSZ]. *)
Definition canonical (rc : EditRecord) : Prop :=
  exists dt, valid_datetime dt /\ timestamp rc = datetime.strftime_iso dt.

(** The date-time without its microseconds. *)
Definition seconds_only (dt : datetime.t) : datetime.t :=
  datetime.mk (datetime.year dt) (datetime.month dt) (datetime.day dt)
              (datetime.hour dt) (datetime.minute dt) (datetime.second dt) 0.

(** * Properties *)

(** ** The model on concrete inputs *)

Example ymd2ord_2024_01_02 : datetime.ymd2ord 2024 1 2 = 738887.
Proof. reflexivity. Qed.

Example ord2ymd_738887 : datetime.ord2ymd 738887 = (2024, 1, 2).
Proof. reflexivity. Qed.

Example strptime_canonical :
  datetime.strptime "2024-01-02T09:30:00Z"
  = Some (datetime.mk 2024 1 2 9 30 0 0).
Proof. vm_compute. reflexivity. Qed.

Example strptime_lenient :
  datetime.strptime "2024-1-2t9:3:0z" = Some (datetime.mk 2024 1 2 9 3 0 0).
Proof. vm_compute. reflexivity. Qed.

Example strptime_rejects :
  datetime.strptime "2024-02-30T09:30:00Z" = None
  /\ datetime.strptime "2024-01-02T09:30:60Z" = None
  /\ datetime.strptime "2024-01-02T09:30:00Z " = None
  /\ datetime.strptime "2024-01-02 09:30:00" = None
  /\ datetime.strptime "0000-01-02T09:30:00Z" = None.
Proof. vm_compute. repeat split. Qed.

Example strftime_examples :
  let dt := datetime.mk 2024 1 2 9 30 0 0 in
  datetime.strftime_Ymd dt = "2024-01-02"
  /\ datetime.strftime_A dt = "Tuesday"
  /\ datetime.strftime_HM dt = "09:30"
  /\ datetime.strftime_bd dt = "Jan 02"
  /\ datetime.strftime_iso dt = "2024-01-02T09:30:00Z".
Proof. vm_compute. repeat split. Qed.

Example str_int_examples :
  str_int 0 = "0" /\ str_int 1207 = "1207" /\ str_int (-5) = "-5".
Proof. vm_compute. repeat split. Qed.

Example escape_script : html.escape "<script>" = "&lt;script&gt;".
Proof. reflexivity. Qed.

Example quote_title :
  quote (replace " " "_" "Tom & Jerry <b>/x") = "Tom_%26_Jerry_%3Cb%3E/x".
Proof. reflexivity. Qed.

Example format_changes_scenario :
  snd (format_changes [rcB; rcA1; rcA2] "https://w.example.org" jan06 dec31 "w")
  = Some (join newline
     ["<h1>Weekly w report: Jan 06 - Dec 31</h1>";
      "<p>Here are the recent changes on w for the past week:</p>";
      "<h2>2024-01-02 (Tuesday)</h2>";
      "<p><strong>[09:30 - 10:00] <a href='https://w.example.org/wiki/Page1'><strong>Page1</strong></a> [<a href='https://w.example.org/wiki/User:A'>A</a>]</strong></p>";
      "<ul>";
      "<li>[<a href='https://w.example.org/w/index.php?diff=12&oldid=11'>diff</a>] [10:00] ('fix &lt;b&gt;') </li>";
      "<li>[<a href='https://w.example.org/w/index.php?diff=11&oldid=10'>diff</a>] [09:30] ('') </li>";
      "</ul>";
      "<p><strong>[09:00 - 09:00] <a href='https://w.example.org/wiki/Page2'><strong>Page2</strong></a> [<a href='https://w.example.org/wiki/User:B'>B</a>]</strong></p>";
      "<ul>";
      "<li>[<a href='https://w.example.org/w/index.php?diff=7&oldid=0'>diff</a>] [09:00] ('') </li>";
      "</ul>"]).
Proof. vm_compute. reflexivity. Qed.

Lemma obind_some {A B : Type} (o : option A) (f : A -> option B) (b : B) :
  obind o f = Some b -> exists a, o = Some a /\ f a = Some b.
Proof.
  destruct o as [a|]; simpl; intros H; [exists a; auto | discriminate].
Qed.


(** ** Strings *)

Lemma append_assoc (a b c : string) : ((a ++ b) ++ c = a ++ (b ++ c))%string.
Proof.
  induction a as [|x a IH]; simpl; [reflexivity | now rewrite IH].
Qed.

Lemma append_nil_r (a : string) : (a ++ "" = a)%string.
Proof.
  induction a as [|x a IH]; simpl; [reflexivity | now rewrite IH].
Qed.

Lemma ltb_irrefl (s : string) : String.ltb s s = false.
Proof.
  unfold String.ltb.
  assert (H : String.compare s s = Eq).
  { induction s as [|c s IH]; simpl; [reflexivity|].
    unfold Ascii.compare. now rewrite N.compare_refl. }
  now rewrite H.
Qed.

Lemma ltb_asym (a b : string) :
  String.ltb a b = true -> String.ltb b a = false.
Proof.
  unfold String.ltb. rewrite (String.compare_antisym b a).
  destruct (String.compare a b); simpl; congruence.
Qed.

Lemma compare_trans_lt (a b c : string) :
  String.compare a b = Lt -> String.compare b c = Lt ->
  String.compare a c = Lt.
Proof.
  revert b c.
  induction a as [|x a IH]; intros [|y b] [|z c]; simpl; try congruence.
  unfold Ascii.compare.
  destruct (N.compare_spec (N_of_ascii x) (N_of_ascii y)) as [E1|L1|G1];
    destruct (N.compare_spec (N_of_ascii y) (N_of_ascii z)) as [E2|L2|G2];
    try congruence; intros H1 H2.
  - rewrite E1, E2, N.compare_refl. eauto.
  - rewrite E1. now apply N.compare_lt_iff in L2 as ->.
  - rewrite <- E2. now apply N.compare_lt_iff in L1 as ->.
  - assert (L : (N_of_ascii x < N_of_ascii z)%N) by lia.
    now apply N.compare_lt_iff in L as ->.
Qed.

(** ** The sort *)

Lemma desc_trans (a b c : EditRecord) : desc a b -> desc b c -> desc a c.
Proof.
  unfold desc, String.ltb. intros H1 H2.
  destruct (String.compare (key a) (key c)) eqn:E; try reflexivity.
  exfalso.
  destruct (String.compare (key a) (key b)) eqn:E1; try discriminate.
  - apply String.compare_eq_iff in E1. rewrite E1 in E. now rewrite E in H2.
  - destruct (String.compare (key b) (key c)) eqn:E2; try discriminate.
    + apply String.compare_eq_iff in E2. rewrite <- E2 in E. congruence.
    + assert (G : String.compare (key c) (key a) = Gt).
      { rewrite String.compare_antisym, E. reflexivity. }
      assert (L1 : String.compare (key c) (key b) = Lt).
      { rewrite String.compare_antisym, E2. reflexivity. }
      assert (L2 : String.compare (key b) (key a) = Lt).
      { rewrite String.compare_antisym, E1. reflexivity. }
      rewrite (compare_trans_lt _ _ _ L1 L2) in G. discriminate.
Qed.

Lemma insert_desc_perm (x : EditRecord) (l : list EditRecord) :
  Permutation (x :: l) (insert_desc x l).
Proof.
  induction l as [|y l IH]; simpl; [reflexivity|].
  destruct (String.ltb (key x) (key y)); [|reflexivity].
  rewrite perm_swap. now apply perm_skip.
Qed.

Lemma sort_changes_perm (l : list EditRecord) :
  Permutation l (sort_changes l).
Proof.
  induction l as [|x l IH]; simpl; [constructor|].
  rewrite <- insert_desc_perm. now apply perm_skip.
Qed.

Lemma insert_desc_sorted (x : EditRecord) (l : list EditRecord) :
  Sorted desc l -> Sorted desc (insert_desc x l).
Proof.
  induction 1 as [|y l Hl IH Hd]; simpl; [repeat constructor|].
  destruct (String.ltb (key x) (key y)) eqn:E.
  - constructor; [exact IH|].
    destruct l as [|z l]; simpl.
    + constructor. now apply ltb_asym.
    + destruct (String.ltb (key x) (key z)).
      * constructor. now inversion Hd.
      * constructor. now apply ltb_asym.
  - constructor; [now constructor | now constructor].
Qed.

Lemma sort_changes_sorted (l : list EditRecord) : Sorted desc (sort_changes l).
Proof.
  induction l as [|x l IH]; simpl; [constructor | now apply insert_desc_sorted].
Qed.

(** Records with one key keep the order they came in. *)
Lemma insert_desc_stable (k : string) (x : EditRecord) (l : list EditRecord) :
  filter (fun r => String.eqb (key r) k) (insert_desc x l)
  = filter (fun r => String.eqb (key r) k) (x :: l).
Proof.
  induction l as [|y l IH]; [reflexivity|].
  cbn [insert_desc].
  destruct (String.ltb (key x) (key y)) eqn:E; [|reflexivity].
  cbn [filter] in *. rewrite IH.
  destruct (String.eqb_spec (key x) k) as [Hx|Hx]; [|reflexivity].
  destruct (String.eqb_spec (key y) k) as [Hy|Hy]; [|reflexivity].
  rewrite Hx, Hy, ltb_irrefl in E. discriminate.
Qed.

Lemma sort_changes_stable (k : string) (l : list EditRecord) :
  filter (fun r => String.eqb (key r) k) (sort_changes l)
  = filter (fun r => String.eqb (key r) k) l.
Proof.
  induction l as [|x l IH]; [reflexivity|].
  cbn [sort_changes]. rewrite insert_desc_stable. cbn [filter].
  now rewrite IH.
Qed.

(** A list already in descending order is left as it is. *)
Lemma sort_changes_sorted_id (l : list EditRecord) :
  Sorted desc l -> sort_changes l = l.
Proof.
  induction 1 as [|x l Hl IH Hd]; [reflexivity|].
  cbn [sort_changes]. rewrite IH.
  destruct Hd as [|y l' Hxy]; [reflexivity|].
  cbn [insert_desc]. unfold desc in Hxy. now rewrite Hxy.
Qed.

Lemma sort_changes_idem (l : list EditRecord) :
  sort_changes (sort_changes l) = sort_changes l.
Proof. apply sort_changes_sorted_id, sort_changes_sorted. Qed.

(** ** The scan *)

Lemma opt_eqb_eq (a b : option string) : opt_eqb a b = true <-> a = b.
Proof.
  destruct a as [x|], b as [y|]; simpl; try (split; congruence).
  rewrite String.eqb_eq. split; congruence.
Qed.

Lemma opt_eqb_refl (a : option string) : opt_eqb a a = true.
Proof. now apply opt_eqb_eq. Qed.

Section ScanFacts.

Context {O : Type}.
Variable emit_heading : string -> string -> O.
Variable emit_group : list EditRecord -> option (list O).
Variable fl : list EditRecord -> list O.
Hypothesis fl_nil : fl [] = [].

Lemma flushes_nil : flushes emit_group fl [].
Proof. split; [auto | congruence]. Qed.

Lemma flush_eq (st : state O) :
  flushes emit_group fl (group st) ->
  flush emit_group st
  = Some (mkState (current_date st) (last_user st) (last_page st) []
                  (output_lines st ++ fl (group st))).
Proof.
  intros [Hnil Hcons]. destruct st as [cd lu lp g out]. unfold flush.
  cbn [group current_date last_user last_page output_lines] in *.
  destruct g as [|r g].
  - now rewrite Hnil, app_nil_r.
  - now rewrite Hcons.
Qed.

Lemma scan_step_eq (st : state O) (rc : EditRecord) (ts : datetime.t) :
  flushes emit_group fl (group st) ->
  datetime.strptime (timestamp rc) = Some ts ->
  scan_step emit_heading emit_group st rc
  = Some (step_result emit_heading fl st rc ts).
Proof.
  intros Hfl Hts. unfold scan_step, step_result. rewrite Hts.
  cbn [obind].
  destruct (opt_eqb (current_date st) (Some (datetime.strftime_Ymd ts)));
    cbn [negb obind].
  - destruct (opt_eqb (Some (user rc)) (last_user st)
              && opt_eqb (Some (title rc)) (last_page st)); [reflexivity|].
    now rewrite flush_eq.
  - rewrite flush_eq by exact Hfl.
    cbn [obind current_date last_user last_page group output_lines opt_eqb
         andb].
    rewrite flush_eq by apply flushes_nil.
    cbn [obind current_date last_user last_page group output_lines app].
    now rewrite fl_nil, app_nil_r, <- app_assoc.
Qed.

Lemma scan_step_none (st : state O) (rc : EditRecord) :
  datetime.strptime (timestamp rc) = None ->
  scan_step emit_heading emit_group st rc = None.
Proof. intros Hts. unfold scan_step. now rewrite Hts. Qed.

Lemma step_result_parses (st : state O) (rc : EditRecord) (ts : datetime.t) :
  parses rc -> Forall parses (group st) ->
  Forall parses (group (step_result emit_heading fl st rc ts)).
Proof.
  intros Hrc Hg. unfold step_result.
  repeat match goal with |- context [if ?b then _ else _] => destruct b end;
    cbn [group]; auto using Forall_app, Forall_cons, Forall_nil.
  apply Forall_app. auto.
Qed.

End ScanFacts.

(** *** The scan over blocks *)

Lemma flushes_block (g : list EditRecord) : flushes emit_block flushed g.
Proof.
  split; [now intros -> |]. destruct g; [congruence | reflexivity].
Qed.

Lemma all_groups_app (a b : list block) :
  all_groups (a ++ b) = all_groups a ++ all_groups b.
Proof.
  induction a as [|[d w|g] a IH]; simpl; [reflexivity | exact IH |].
  now rewrite IH.
Qed.

(** The groups of a list of blocks: those before its first heading, then
    those of its sections. *)
Lemma all_groups_sections (bs : list block) :
  all_groups bs = leading_groups bs ++ flat_map groups (sections bs).
Proof.
  induction bs as [|[d w|g] bs IH]; simpl; [reflexivity | exact IH |].
  now rewrite IH.
Qed.

Lemma report_records_concat (secs : list DateSection) :
  report_records secs = concat (flat_map groups secs).
Proof.
  unfold report_records, section_records.
  induction secs as [|s secs IH]; simpl; [reflexivity|].
  now rewrite IH, concat_app.
Qed.

Lemma date_of_parsed (rc : EditRecord) (ts : datetime.t) :
  datetime.strptime (timestamp rc) = Some ts ->
  date_of rc = Some (datetime.strftime_Ymd ts).
Proof. intros H. unfold date_of. now rewrite H. Qed.

Lemma step_result_pending (st : state block) (rc : EditRecord)
    (ts : datetime.t) :
  datetime.strptime (timestamp rc) = Some ts ->
  pending_ok st -> pending_ok (step_result Heading flushed st rc ts).
Proof.
  intros Hts [Hk Hd]. apply date_of_parsed in Hts. unfold step_result.
  destruct (opt_eqb (current_date st) (Some (datetime.strftime_Ymd ts))) eqn:Ed.
  - apply opt_eqb_eq in Ed.
    destruct (opt_eqb (Some (user rc)) (last_user st)
              && opt_eqb (Some (title rc)) (last_page st)) eqn:Ek.
    + apply andb_true_iff in Ek as [Eu Et].
      apply opt_eqb_eq in Eu, Et.
      split; cbn [group current_date last_user last_page].
      * intros r [Hr|Hr]%in_app_or; [now apply Hk|].
        destruct Hr as [<-|[]]. now rewrite Hts, Ed.
      * congruence.
    + split; cbn [group current_date last_user last_page].
      * intros r [<-|[]]. now rewrite Hts, Ed.
      * congruence.
  - split; cbn [group current_date last_user last_page].
    + intros r [<-|[]]. now rewrite Hts.
    + congruence.
Qed.

Lemma pending_group_ok (st : state block) (d : string) :
  pending_ok st -> current_date st = Some d -> group st <> [] ->
  group_ok d (group st).
Proof.
  intros [Hk _] Hd Hne. split; [exact Hne|].
  destruct (group st) as [|r0 g] eqn:G; [congruence|].
  exists (user r0), (title r0). intros r Hr.
  destruct (Hk r0 (or_introl eq_refl)) as (_ & Hu0 & Ht0).
  destruct (Hk r Hr) as (Hdr & Hu & Ht).
  rewrite Hdr, Hd. split; [reflexivity|]. split; congruence.
Qed.

Lemma leading_flushed_ok (st : state block) (d : string)
    (ext : list block) :
  pending_ok st -> current_date st = Some d ->
  Forall (group_ok d) (leading_groups ext) ->
  Forall (group_ok d) (leading_groups (flushed (group st) ++ ext)).
Proof.
  intros Hp Hd Hext.
  destruct (group st) as [|r g] eqn:G; [exact Hext|].
  cbn [flushed app leading_groups]. constructor; [|exact Hext].
  rewrite <- G. apply pending_group_ok; congruence.
Qed.

Lemma sections_flushed (g : list EditRecord) (ext : list block) :
  sections (flushed g ++ ext) = sections ext.
Proof. now destruct g. Qed.

Lemma all_groups_flushed (g : list EditRecord) :
  concat (all_groups (flushed g)) = g.
Proof. destruct g; simpl; [reflexivity | now rewrite app_nil_r]. Qed.

(** What the scan appends from a state on, the flush after the loop
    included. *)
Lemma scan_blocks_ext (l : list EditRecord) :
  forall st st' : state block,
    pending_ok st ->
    scan Heading emit_block st l = Some st' ->
    exists ext,
      finish st' = output_lines st ++ ext
      /\ concat (all_groups ext) = group st ++ l
      /\ (forall d, current_date st = Some d ->
            Forall (group_ok d) (leading_groups ext))
      /\ (current_date st = None -> leading_groups ext = [])
      /\ Forall section_ok (sections ext).
Proof.
  induction l as [|rc l IH]; intros st st' Hp Hs.
  - injection Hs as <-. exists (flushed (group st)).
    split; [reflexivity|]. split; [now rewrite all_groups_flushed, app_nil_r|].
    split; [|split].
    + intros d Hd. rewrite <- (app_nil_r (flushed _)).
      apply leading_flushed_ok; auto.
    + intros Hd. destruct Hp as [_ Hn]. now rewrite (Hn Hd).
    + rewrite <- (app_nil_r (flushed _)), sections_flushed. constructor.
  - cbn [scan] in Hs. apply obind_some in Hs as (st1 & H1 & H2).
    destruct (datetime.strptime (timestamp rc)) as [ts|] eqn:Hts;
      [|now rewrite scan_step_none in H1].
    rewrite (scan_step_eq Heading emit_block flushed eq_refl st rc ts
               (flushes_block _) Hts) in H1.
    injection H1 as <-.
    pose proof (step_result_pending st rc ts Hts Hp) as Hp1.
    destruct (IH _ _ Hp1 H2) as (ext1 & E & C & L & N & S).
    clear IH H2 Hp1. unfold step_result in *.
    destruct (opt_eqb (current_date st) (Some (datetime.strftime_Ymd ts)))
      eqn:Ed.
    + apply opt_eqb_eq in Ed.
      destruct (opt_eqb (Some (user rc)) (last_user st)
                && opt_eqb (Some (title rc)) (last_page st));
        cbn [group current_date output_lines] in *.
      * exists ext1. rewrite <- app_assoc in C. repeat split; auto.
      * exists (flushed (group st) ++ ext1).
        rewrite <- app_assoc in E. split; [exact E|].
        split; [now rewrite all_groups_app, concat_app, all_groups_flushed, C|].
        split; [|split].
        -- intros d Hd. apply leading_flushed_ok; auto.
        -- congruence.
        -- now rewrite sections_flushed.
    + cbn [group current_date output_lines] in *.
      set (h := Heading (datetime.strftime_Ymd ts) (datetime.strftime_A ts)) in *.
      exists (flushed (group st) ++ h :: ext1).
      split; [now rewrite E, <- !app_assoc|].
      split.
      { rewrite all_groups_app, concat_app, all_groups_flushed.
        cbn [all_groups h]. now rewrite C. }
      split; [|split].
      * intros d Hd. rewrite <- (app_nil_r (leading_groups _)).
        replace (leading_groups (flushed (group st) ++ h :: ext1))
          with (leading_groups (flushed (group st) ++ [])).
        -- rewrite app_nil_r. apply leading_flushed_ok; auto.
        -- now destruct (group st).
      * intros Hd. destruct Hp as [_ Hn]. now rewrite (Hn Hd).
      * rewrite sections_flushed. cbn [sections h]. constructor; [|exact S].
        apply L. reflexivity.
Qed.

Lemma scan_blocks_parses (l : list EditRecord) :
  forall st st' : state block,
    Forall parses (group st) ->
    scan Heading emit_block st l = Some st' ->
    Forall parses (group st').
Proof.
  induction l as [|rc l IH]; intros st st' Hg Hs.
  - now injection Hs as <-.
  - cbn [scan] in Hs. apply obind_some in Hs as (st1 & H1 & H2).
    destruct (datetime.strptime (timestamp rc)) as [ts|] eqn:Hts;
      [|now rewrite scan_step_none in H1].
    rewrite (scan_step_eq Heading emit_block flushed eq_refl st rc ts
               (flushes_block _) Hts) in H1.
    injection H1 as <-.
    apply (IH (step_result Heading flushed st rc ts) st'); [|exact H2].
    apply step_result_parses; [|exact Hg]. unfold parses. now rewrite Hts.
Qed.

(** The scan stops with an exception exactly on a timestamp that
    [strptime] rejects. *)
Lemma scan_blocks_none (l : list EditRecord) :
  forall st : state block,
    scan Heading emit_block st l = None ->
    Exists (fun rc => datetime.strptime (timestamp rc) = None) l.
Proof.
  induction l as [|rc l IH]; intros st Hs; [discriminate|].
  cbn [scan] in Hs.
  destruct (datetime.strptime (timestamp rc)) as [ts|] eqn:Hts;
    [|now constructor].
  rewrite (scan_step_eq Heading emit_block flushed eq_refl st rc ts
             (flushes_block _) Hts) in Hs.
  apply Exists_cons_tl, (IH _ Hs).
Qed.

Lemma scan_blocks_some (l : list EditRecord) :
  Forall parses l ->
  forall st : state block, exists st', scan Heading emit_block st l = Some st'.
Proof.
  induction 1 as [|rc l Hrc Hl IH]; intros st; [now exists st|].
  cbn [scan]. unfold parses in Hrc.
  destruct (datetime.strptime (timestamp rc)) as [ts|] eqn:Hts; [|congruence].
  rewrite (scan_step_eq Heading emit_block flushed eq_refl st rc ts
             (flushes_block _) Hts).
  apply IH.
Qed.

(** *** [format_group] on a group whose timestamps parse *)

Lemma last_in {A : Type} (l : list A) (d : A) : In (last l d) (d :: l).
Proof.
  induction l as [|b l IH]; [now left|].
  destruct l as [|c l]; [right; now left|].
  change (last (b :: c :: l) d) with (last (c :: l) d).
  destruct IH as [IH|IH]; [now left | right; now right].
Qed.

Lemma last_error_in {A : Type} (l : list A) (x : A) :
  last_error l = Some x -> In x l.
Proof.
  destruct l as [|a l]; [discriminate|]. intros [= <-]. apply last_in.
Qed.

Lemma hd_error_in {A : Type} (l : list A) (x : A) :
  hd_error l = Some x -> In x l.
Proof. destruct l; [discriminate|]. intros [= <-]. now left. Qed.

Lemma edit_entries_some (base_url : string) (g : list EditRecord) :
  Forall parses g -> exists entries, edit_entries base_url g = Some entries.
Proof.
  induction 1 as [|rc g Hrc Hg [entries IH]]; [now exists []|].
  cbn [edit_entries]. unfold edit_entry, parses in *.
  destruct (datetime.strptime (timestamp rc)); [|congruence].
  cbn [obind]. rewrite IH. cbn [obind]. eauto.
Qed.

Lemma format_group_some (base_url : string) (g : list EditRecord) :
  g <> [] -> Forall parses g -> exists lines, format_group g base_url = Some lines.
Proof.
  intros Hne Hg. unfold format_group.
  destruct g as [|r0 g']; [congruence|].
  cbn [hd_error last_error obind].
  assert (H0 : parses r0) by now inversion Hg.
  assert (Hl : parses (last g' r0)).
  { rewrite Forall_forall in Hg. apply Hg.
    now apply (last_error_in (r0 :: g')). }
  unfold group_header, parses in *.
  destruct (datetime.strptime (timestamp r0)); [|congruence].
  destruct (datetime.strptime (timestamp (last g' r0))); [|congruence].
  cbn [obind].
  destruct (edit_entries_some base_url (r0 :: g') Hg) as [entries ->].
  cbn [obind]. eauto.
Qed.

(** *** [format_changes] writes the lines of the blocks *)

Lemma flushes_lines (base_url : string) (g : list EditRecord) :
  Forall parses g ->
  flushes (fun g => format_group g base_url) (rendered base_url) g.
Proof.
  intros Hg. split; [now intros ->|]. intros Hne.
  destruct (format_group_some base_url g Hne Hg) as [lines E].
  unfold rendered. destruct g; [congruence|].
  cbn [flushed flat_map render_block]. now rewrite E, app_nil_r.
Qed.

Lemma step_result_lines (base_url : string) (pre : list string)
    (st : state block) (rc : EditRecord) (ts : datetime.t) :
  step_result heading_line (rendered base_url) (to_lines base_url pre st) rc ts
  = to_lines base_url pre (step_result Heading flushed st rc ts).
Proof.
  unfold step_result, to_lines.
  cbn [current_date last_user last_page group output_lines].
  repeat match goal with |- context [if ?b then _ else _] => destruct b end;
    cbn [current_date last_user last_page group output_lines];
    f_equal; unfold rendered;
    rewrite ?flat_map_app, <- ?app_assoc; reflexivity.
Qed.

Lemma scan_lines (base_url : string) (pre : list string)
    (l : list EditRecord) :
  forall st : state block,
    Forall parses (group st) ->
    scan heading_line (fun g => format_group g base_url)
         (to_lines base_url pre st) l
    = option_map (to_lines base_url pre) (scan Heading emit_block st l).
Proof.
  induction l as [|rc l IH]; intros st Hg; [reflexivity|].
  cbn [scan].
  destruct (datetime.strptime (timestamp rc)) as [ts|] eqn:Hts.
  - rewrite (scan_step_eq Heading emit_block flushed eq_refl st rc ts
               (flushes_block _) Hts).
    rewrite (scan_step_eq heading_line _ (rendered base_url) eq_refl
               (to_lines base_url pre st) rc ts (flushes_lines _ _ Hg) Hts).
    cbn [obind]. rewrite step_result_lines. apply IH.
    apply step_result_parses; [|exact Hg]. unfold parses. now rewrite Hts.
  - now rewrite !scan_step_none.
Qed.

(** The lines after the header are the rendered blocks, and
    [format_changes] raises exactly when the scan over blocks does. *)
Lemma scan_all_lines (base_url : string) (pre : list string)
    (l : list EditRecord) :
  scan_all heading_line (fun g => format_group g base_url) pre l
  = option_map (fun bs => pre ++ flat_map (render_block base_url) bs)
               (scan_all Heading emit_block [] l).
Proof.
  unfold scan_all.
  pose proof (scan_lines base_url pre l (mkState None None None [] [])
                (Forall_nil _)) as H.
  unfold to_lines at 1 in H.
  cbn [current_date last_user last_page group output_lines flat_map] in H.
  rewrite app_nil_r in H. rewrite H. clear H.
  destruct (scan Heading emit_block (mkState None None None [] []) l)
    as [st|] eqn:Hs; [|reflexivity].
  cbn [option_map obind].
  assert (Hg : Forall parses (group st)).
  { apply (scan_blocks_parses l (mkState None None None [] []) st);
      [constructor | exact Hs]. }
  rewrite (flush_eq emit_block flushed st (flushes_block _)).
  rewrite (flush_eq _ (rendered base_url) (to_lines base_url pre st)
             (flushes_lines _ _ Hg)).
  cbn [obind option_map output_lines to_lines current_date last_user last_page
       group].
  unfold rendered. now rewrite flat_map_app, <- app_assoc.
Qed.

Lemma blocks_of_finish (changes : list EditRecord) (bs : list block) :
  blocks_of changes = Some bs ->
  exists st,
    scan Heading emit_block (mkState None None None [] []) (sort_changes changes)
    = Some st /\ bs = finish st.
Proof.
  unfold blocks_of, scan_all. intros H.
  apply obind_some in H as (st & Hs & H). exists st. split; [exact Hs|].
  rewrite (flush_eq emit_block flushed st (flushes_block _)) in H.
  now injection H as <-.
Qed.

(** The structure of the report: every group lies in a section, the
    sections hold the sorted changes, and all groups are well formed. *)
Lemma blocks_of_spec (changes : list EditRecord) (bs : list block) :
  blocks_of changes = Some bs ->
  all_groups bs = flat_map groups (sections bs)
  /\ report_records (sections bs) = sort_changes changes
  /\ Forall section_ok (sections bs).
Proof.
  intros H. apply blocks_of_finish in H as (st & Hs & ->).
  assert (Hp : pending_ok (mkState (O := block) None None None [] [])).
  { split; [intros r []|reflexivity]. }
  destruct (scan_blocks_ext _ _ _ Hp Hs) as (ext & E & C & _ & N & S).
  cbn [output_lines group current_date app] in *.
  rewrite E. specialize (N eq_refl).
  assert (A : all_groups ext = flat_map groups (sections ext)).
  { now rewrite all_groups_sections, N. }
  split; [exact A|]. split; [|exact S].
  now rewrite report_records_concat, <- A.
Qed.

(** ** The formatter: records, groups, repetition, the caller's list *)

Lemma sort_changes_strongly_sorted (l : list EditRecord) :
  StronglySorted desc (sort_changes l).
Proof.
  apply Sorted_StronglySorted; [|apply sort_changes_sorted].
  intros a b c. apply desc_trans.
Qed.

(** C1.  For every input, the HTML that [format_changes] returns is the
    header followed by the rendering of a sequence of date headings and
    groups in which every group lies in a date section and in which the
    records of all groups of all sections, concatenated in order, are
    exactly the input sorted by descending timestamp (stable): a
    permutation of the input, nothing added, dropped, duplicated or moved
    across groups.  When a timestamp does not parse there is no output:
    [format_changes] raises. *)
Theorem format_changes_preserves_records (changes : list EditRecord)
    (base_url : string) (start_date end_date : datetime.t) (title : string) :
  match blocks_of changes with
  | Some bs =>
      snd (format_changes changes base_url start_date end_date title)
      = Some (join newline (header_lines start_date end_date title
                            ++ flat_map (render_block base_url) bs))
      /\ all_groups bs = flat_map groups (sections bs)
      /\ report_records (sections bs) = sort_changes changes
      /\ Permutation changes (report_records (sections bs))
      /\ StronglySorted desc (report_records (sections bs))
      /\ (forall k,
            filter (fun r => String.eqb (key r) k) (report_records (sections bs))
            = filter (fun r => String.eqb (key r) k) changes)
  | None =>
      snd (format_changes changes base_url start_date end_date title) = None
      /\ Exists (fun rc => datetime.strptime (timestamp rc) = None) changes
  end.
Proof.
  unfold format_changes. cbn [snd]. rewrite scan_all_lines.
  fold (blocks_of changes).
  destruct (blocks_of changes) as [bs|] eqn:Hb.
  - destruct (blocks_of_spec _ _ Hb) as (A & R & _).
    split; [reflexivity|]. split; [exact A|]. split; [exact R|].
    rewrite R. split; [apply sort_changes_perm|].
    split; [apply sort_changes_strongly_sorted|].
    intros k. apply sort_changes_stable.
  - split; [reflexivity|].
    unfold blocks_of, scan_all in Hb.
    destruct (scan Heading emit_block (mkState None None None [] [])
                (sort_changes changes)) as [st|] eqn:Hs.
    + cbn [obind] in Hb.
      now rewrite (flush_eq emit_block flushed st (flushes_block _)) in Hb.
    + apply scan_blocks_none in Hs.
      apply Exists_exists in Hs as (rc & Hin & Hrc).
      apply Exists_exists. exists rc. split; [|exact Hrc].
      apply Permutation_in with (l := sort_changes changes); [|exact Hin].
      symmetry. apply sort_changes_perm.
Qed.

(** C3.  Every group that the formatter hands to [format_group] is not
    empty, its records share one user and one page title and fall on one
    calendar date, which is the date of the section the group stands in;
    so two records of different dates are never in one group, whatever
    their user and title. *)
Theorem groups_well_formed (changes : list EditRecord) (bs : list block) :
  blocks_of changes = Some bs ->
  all_groups bs = flat_map groups (sections bs)
  /\ Forall section_ok (sections bs)
  /\ (forall g, In g (all_groups bs) ->
        g <> []
        /\ forall r1 r2, In r1 g -> In r2 g ->
             user r1 = user r2 /\ title r1 = title r2
             /\ date_of r1 = date_of r2 /\ date_of r1 <> None)
  /\ (forall r1 r2 g, date_of r1 <> date_of r2 ->
        In g (all_groups bs) -> ~ (In r1 g /\ In r2 g)).
Proof.
  intros Hb. destruct (blocks_of_spec _ _ Hb) as (A & _ & S).
  assert (G : forall g, In g (all_groups bs) ->
            g <> []
            /\ forall r1 r2, In r1 g -> In r2 g ->
                 user r1 = user r2 /\ title r1 = title r2
                 /\ date_of r1 = date_of r2 /\ date_of r1 <> None).
  { intros g Hg. rewrite A in Hg.
    apply in_flat_map in Hg as (s & Hs & Hg).
    rewrite Forall_forall in S. specialize (S s Hs).
    unfold section_ok in S. rewrite Forall_forall in S.
    destruct (S g Hg) as (Hne & u & p & Hall).
    split; [exact Hne|]. intros r1 r2 H1 H2.
    destruct (Hall r1 H1) as (D1 & U1 & P1).
    destruct (Hall r2 H2) as (D2 & U2 & P2).
    repeat split; congruence. }
  split; [exact A|]. split; [exact S|]. split; [exact G|].
  intros r1 r2 g Hd Hg [H1 H2].
  destruct (G g Hg) as (_ & Hall).
  destruct (Hall r1 r2 H1 H2) as (_ & _ & D & _). contradiction.
Qed.

(** The scenario of two dates: the edits of user A to Page1 just before
    and just after midnight stand in two groups of two sections. *)
Lemma groups_well_formed_witness :
  blocks_of [rcA0; rcA1; rcB; rcA2]
  = Some [Heading "2024-01-02" "Tuesday"; Group [rcA1; rcA2]; Group [rcB];
          Heading "2024-01-01" "Monday"; Group [rcA0]]
  /\ Forall section_ok
       (sections [Heading "2024-01-02" "Tuesday"; Group [rcA1; rcA2];
                  Group [rcB]; Heading "2024-01-01" "Monday"; Group [rcA0]]).
Proof.
  split; [vm_compute; reflexivity|].
  apply (groups_well_formed [rcA0; rcA1; rcB; rcA2]). vm_compute. reflexivity.
Defined.

(** C8.  Formatting twice gives the same HTML: the second call, which is
    handed the list as the first call left it, returns what the first
    returned and leaves the list as it found it. *)
Theorem format_changes_idempotent (changes : list EditRecord)
    (base_url : string) (start_date end_date : datetime.t) (title : string) :
  let first := format_changes changes base_url start_date end_date title in
  let second :=
    format_changes (fst first) base_url start_date end_date title in
  snd second = snd first /\ fst second = fst first.
Proof.
  unfold format_changes. cbn [fst snd]. now rewrite sort_changes_idem.
Qed.

(** C9 fails as stated: the list of the caller comes back reordered. *)
Lemma format_changes_reorders_input :
  fst (format_changes [rcA2; rcA1] "https://w.example.org" jan06 dec31 "w")
  <> [rcA2; rcA1].
Proof. vm_compute. discriminate. Qed.

(** C9, amended.  After [format_changes] the caller's list holds the same
    records with the same fields, none added or removed, in stable
    descending order of timestamp; it is unchanged exactly when it was in
    descending order already. *)
Theorem format_changes_sorts_in_place (changes : list EditRecord)
    (base_url : string) (start_date end_date : datetime.t) (title : string) :
  let after :=
    fst (format_changes changes base_url start_date end_date title) in
  after = sort_changes changes
  /\ Permutation changes after
  /\ (after = changes <-> Sorted desc changes).
Proof.
  unfold format_changes. cbn [fst].
  split; [reflexivity|]. split; [apply sort_changes_perm|].
  split.
  - intros <-. apply sort_changes_sorted.
  - apply sort_changes_sorted_id.
Qed.

(** ** [format_group]: the time range *)

Lemma last_cons {A : Type} (l : list A) (a x : A) :
  last (a :: l) x = last l a.
Proof.
  revert a x. induction l as [|b l IH]; intros a x; [reflexivity|].
  change (last (a :: b :: l) x) with (last (b :: l) x).
  now rewrite !IH.
Qed.

Lemma descending_bounds (l : list EditRecord) :
  forall x y,
    descending (x :: l) -> In y (x :: l) ->
    epoch_of (last l x) <= epoch_of y <= epoch_of x.
Proof.
  unfold descending.
  induction l as [|b l IH]; intros x y Hs Hy.
  - destruct Hy as [<-|[]]. cbn [last]. lia.
  - apply Sorted_inv in Hs as [Hs Hd]. apply HdRel_inv in Hd.
    rewrite last_cons.
    destruct Hy as [<-|Hy].
    + specialize (IH b b Hs (or_introl eq_refl)). lia.
    + specialize (IH b y Hs Hy). lia.
Qed.

(** C5.  The header of a non-empty group whose timestamps parse opens with
    the range [[time of the last member - time of the first member]]; when
    the members are in descending order of time the last is the earliest
    and the first the latest.  For the three records of the scenario the
    scan makes the groups {A, Page1} and {B, Page2} under one date and the
    range of the first group is [[09:30 - 10:00]]. *)
Theorem time_range_last_first :
  (forall (first_edit : EditRecord) (others : list EditRecord)
          (base_url : string),
      let group := first_edit :: others in
      let last_edit := last others first_edit in
      Forall parses group ->
      exists first_ts last_ts rest entries,
        datetime.strptime (timestamp first_edit) = Some first_ts
        /\ datetime.strptime (timestamp last_edit) = Some last_ts
        /\ format_group group base_url
           = Some ((("<p><strong>"
                     ++ ("[" ++ datetime.strftime_HM last_ts ++ " - "
                             ++ datetime.strftime_HM first_ts ++ "]")
                     ++ " " ++ rest)%string
                    :: "<ul>" :: entries) ++ ["</ul>"])
        /\ (descending group ->
            forall rc, In rc group ->
              epoch_of last_edit <= epoch_of rc <= epoch_of first_edit))
  /\ blocks_of [rcA1; rcA2; rcB]
     = Some [Heading "2024-01-02" "Tuesday"; Group [rcA1; rcA2]; Group [rcB]]
  /\ format_group [rcA1; rcA2] "https://w.example.org"
     = Some ["<p><strong>[09:30 - 10:00] <a href='https://w.example.org/wiki/Page1'><strong>Page1</strong></a> [<a href='https://w.example.org/wiki/User:A'>A</a>]</strong></p>";
             "<ul>";
             "<li>[<a href='https://w.example.org/w/index.php?diff=12&oldid=11'>diff</a>] [10:00] ('fix &lt;b&gt;') </li>";
             "<li>[<a href='https://w.example.org/w/index.php?diff=11&oldid=10'>diff</a>] [09:30] ('') </li>";
             "</ul>"].
Proof.
  split; [|split].
  - intros first_edit others base_url group last_edit Hg.
    assert (H0 : parses first_edit) by now inversion Hg.
    assert (Hl : parses last_edit).
    { rewrite Forall_forall in Hg. apply Hg. apply last_in. }
    destruct (edit_entries_some base_url group Hg) as [entries He].
    unfold parses in H0, Hl.
    destruct (datetime.strptime (timestamp first_edit)) as [first_ts|] eqn:E0;
      [|congruence].
    destruct (datetime.strptime (timestamp last_edit)) as [last_ts|] eqn:El;
      [|congruence].
    exists first_ts, last_ts. eexists. exists entries.
    split; [reflexivity|]. split; [reflexivity|]. split.
    + unfold format_group.
      change (hd_error group) with (Some first_edit).
      change (last_error group) with (Some last_edit).
      cbn [obind]. unfold group_header. rewrite E0, El. cbn [obind].
      rewrite He. cbn [obind app]. reflexivity.
    + intros Hd rc Hrc. now apply descending_bounds.
  - vm_compute. reflexivity.
  - vm_compute. reflexivity.
Qed.

Lemma time_range_last_first_witness :
  Forall parses [rcA1; rcA2]
  /\ exists first_ts last_ts rest entries,
       datetime.strptime (timestamp rcA1) = Some first_ts
       /\ datetime.strptime (timestamp rcA2) = Some last_ts
       /\ format_group [rcA1; rcA2] "https://w.example.org"
          = Some ((("<p><strong>"
                    ++ ("[" ++ datetime.strftime_HM last_ts ++ " - "
                            ++ datetime.strftime_HM first_ts ++ "]")
                    ++ " " ++ rest)%string
                   :: "<ul>" :: entries) ++ ["</ul>"])
       /\ (descending [rcA1; rcA2] ->
           forall rc, In rc [rcA1; rcA2] ->
             epoch_of rcA2 <= epoch_of rc <= epoch_of rcA1).
Proof.
  assert (H : Forall parses [rcA1; rcA2]).
  { repeat constructor; unfold parses; vm_compute; discriminate. }
  split; [exact H|].
  exact (proj1 time_range_last_first rcA1 [rcA2] "https://w.example.org" H).
Defined.

(** ** [format_group]: escaping *)

Lemma special_cases (c : ascii) :
  special c = true ->
  c = c_amp \/ c = c_lt \/ c = c_gt \/ c = c_dquote \/ c = c_squote.
Proof.
  unfold special. rewrite !orb_true_iff, !Ascii.eqb_eq. tauto.
Qed.

Lemma not_special_neq (c x : ascii) :
  special c = true -> special x = false -> Ascii.eqb x c = false.
Proof.
  intros Hc Hx. apply Ascii.eqb_neq. intros ->. congruence.
Qed.

Lemma replace_app (old : ascii) (new a b : string) :
  replace old new (a ++ b) = (replace old new a ++ replace old new b)%string.
Proof.
  induction a as [|x a IH]; [reflexivity|]. cbn [append replace].
  rewrite IH. destruct (Ascii.eqb x old); [|reflexivity].
  now rewrite append_assoc.
Qed.

Lemma escape_app (a b : string) :
  html.escape (a ++ b) = (html.escape a ++ html.escape b)%string.
Proof. unfold html.escape. now rewrite !replace_app. Qed.

Lemma escape_cons (x : ascii) (r : string) :
  html.escape (String x r)
  = (html.escape (String x EmptyString) ++ html.escape r)%string.
Proof. now rewrite <- escape_app. Qed.

Lemma clean_app (a b : string) : clean (a ++ b) = clean a && clean b.
Proof.
  induction a as [|x a IH]; [reflexivity|]. cbn [append clean].
  now rewrite IH, andb_assoc.
Qed.

Lemma raw_clean_app (c : ascii) (a b : string) :
  special c = true -> clean a = true ->
  raw_count c (a ++ b) = raw_count c b.
Proof.
  intros Hc. induction a as [|x a IH]; [reflexivity|].
  cbn [clean append raw_count]. intros [Hx Ha]%andb_true_iff.
  apply negb_true_iff in Hx.
  now rewrite (not_special_neq c x Hc Hx), IH.
Qed.

Lemma raw_clean (c : ascii) (a : string) :
  special c = true -> clean a = true -> raw_count c a = 0%nat.
Proof.
  intros Hc Ha. rewrite <- (append_nil_r a). now rewrite raw_clean_app.
Qed.

(** A piece without ampersand is counted on its own. *)
Lemma raw_lit_app (c : ascii) (a b : string) :
  amp_free a = true ->
  raw_count c (a ++ b) = (raw_count c a + raw_count c b)%nat.
Proof.
  induction a as [|x a IH]; [reflexivity|].
  cbn [amp_free append raw_count]. intros [Hx Ha]%andb_true_iff.
  apply negb_true_iff in Hx. rewrite Hx, IH by exact Ha.
  cbn [andb negb]. now rewrite Nat.add_assoc.
Qed.

Lemma raw_oldid (c : ascii) (b : string) :
  special c = true ->
  raw_count c ("&oldid=" ++ b)
  = (raw_count c "&oldid=" + raw_count c b)%nat.
Proof.
  intros Hc.
  destruct (special_cases c Hc) as [-> | [-> | [-> | [-> | ->]]]]; reflexivity.
Qed.

(** An escaped text holds no raw special character, whatever follows. *)
Lemma raw_escape_char (c x : ascii) (b : string) :
  special c = true ->
  raw_count c (html.escape (String x EmptyString) ++ b) = raw_count c b.
Proof.
  intros Hc.
  destruct (special_cases c Hc) as [-> | [-> | [-> | [-> | ->]]]];
    destruct x as [[] [] [] [] [] [] [] []]; reflexivity.
Qed.

Lemma raw_escape_app (c : ascii) (s b : string) :
  special c = true ->
  raw_count c (html.escape s ++ b) = raw_count c b.
Proof.
  intros Hc. induction s as [|x s IH]; [reflexivity|].
  now rewrite escape_cons, append_assoc, raw_escape_char.
Qed.

Lemma raw_escape (c : ascii) (s : string) :
  special c = true -> raw_count c (html.escape s) = 0%nat.
Proof.
  intros Hc. rewrite <- (append_nil_r (html.escape s)).
  now rewrite raw_escape_app.
Qed.

Lemma clean_quoter (x : ascii) : clean (quoter x) = true.
Proof. destruct x as [[] [] [] [] [] [] [] []]; reflexivity. Qed.

Lemma clean_quote (s : string) : clean (quote s) = true.
Proof.
  induction s as [|x s IH]; [reflexivity|].
  cbn [quote]. now rewrite clean_app, clean_quoter, IH.
Qed.

Lemma special_digit (d : Z) : special (digit d) = false.
Proof.
  unfold digit.
  assert (H : 0 <= d mod 10 < 10) by (apply Z.mod_pos_bound; lia).
  set (k := d mod 10) in *. clearbody k.
  assert (E : k = 0 \/ k = 1 \/ k = 2 \/ k = 3 \/ k = 4 \/ k = 5 \/ k = 6
              \/ k = 7 \/ k = 8 \/ k = 9) by lia.
  repeat (destruct E as [->|E]; [reflexivity|]). now subst.
Qed.

Lemma clean_pad2 (n : Z) : clean (pad2 n) = true.
Proof. unfold pad2. cbn [clean]. now rewrite !special_digit. Qed.

Lemma clean_HM (ts : datetime.t) : clean (datetime.strftime_HM ts) = true.
Proof.
  unfold datetime.strftime_HM. now rewrite !clean_app, !clean_pad2.
Qed.

Lemma clean_uint (u : Decimal.uint) :
  clean (NilEmpty.string_of_uint u) = true.
Proof. induction u; cbn; auto. Qed.

Lemma clean_uint_zero (u : Decimal.uint) :
  clean (NilZero.string_of_uint u) = true.
Proof.
  destruct u; try reflexivity; cbn [NilZero.string_of_uint]; apply clean_uint.
Qed.

Lemma clean_str_int (n : Z) : clean (str_int n) = true.
Proof.
  unfold str_int, NilZero.string_of_int.
  destruct (Z.to_int n) as [u|u]; [apply clean_uint_zero|].
  change (String "-" (NilZero.string_of_uint u))
    with ("-" ++ NilZero.string_of_uint u)%string.
  now rewrite clean_app, clean_uint_zero.
Qed.

(** A slash ends the look-ahead of an ampersand: no entity holds one. *)
Lemma starts_with_slash (e u r : string) :
  slash_free e = true ->
  starts_with e (u ++ String "/" r) = starts_with e (u ++ "/").
Proof.
  revert u. induction e as [|a e IH]; intros u He; [reflexivity|].
  cbn [slash_free] in He. apply andb_true_iff in He as [Ha He].
  apply negb_true_iff in Ha.
  destruct u as [|x u]; cbn [append starts_with].
  - now rewrite Ha.
  - now rewrite IH.
Qed.

Lemma starts_entity_slash (u r : string) :
  starts_entity (u ++ String "/" r) = starts_entity (u ++ "/").
Proof.
  unfold starts_entity, entities. cbn [existsb].
  now rewrite !(starts_with_slash _ u r) by reflexivity.
Qed.

Lemma raw_slash (c : ascii) (u p r : string) :
  special c = true ->
  raw_count c (u ++ (String "/" p ++ r))
  = (slash_count c u + raw_count c (p ++ r))%nat.
Proof.
  intros Hc. unfold slash_count. cbn [append].
  induction u as [|x u IH]; cbn [append raw_count].
  - now rewrite (not_special_neq c "/" Hc eq_refl).
  - now rewrite IH, starts_entity_slash, Nat.add_assoc.
Qed.

Create HintDb clean_pieces.
#[local] Hint Resolve clean_HM clean_str_int clean_quote clean_pad2
  : clean_pieces.

(** Split the count of a line over its pieces, from the left: an escaped
    text and a clean piece count nothing, a URL prefix counts up to its
    slash, a literal counts for itself. *)
Ltac split_raw Hc :=
  rewrite ?append_assoc;
  repeat first
    [ rewrite (raw_escape_app _ _ _ Hc)
    | rewrite (raw_slash _ _ _ _ Hc)
    | rewrite (raw_oldid _ _ Hc)
    | rewrite (raw_clean_app _ _ _ Hc) by auto with clean_pieces
    | rewrite raw_lit_app by reflexivity ].

Lemma raw_group_header (c : ascii) (base_url : string)
    (first_edit last_edit : EditRecord) :
  special c = true ->
  option_map (raw_count c) (group_header base_url first_edit last_edit)
  = option_map (raw_count c)
      (group_header base_url (blank first_edit) (blank last_edit)).
Proof.
  intros Hc. unfold group_header. cbn [blank timestamp title user].
  destruct (datetime.strptime (timestamp first_edit)) as [first_ts|];
    [|reflexivity].
  destruct (datetime.strptime (timestamp last_edit)) as [last_ts|];
    [|reflexivity].
  cbn [obind option_map]. f_equal.
  cbn [replace quote html.escape].
  split_raw Hc. reflexivity.
Qed.

Lemma raw_edit_entry (c : ascii) (base_url : string) (rc : EditRecord) :
  special c = true ->
  option_map (raw_count c) (edit_entry base_url rc)
  = option_map (raw_count c) (edit_entry base_url (blank rc)).
Proof.
  intros Hc. unfold edit_entry.
  cbn [blank timestamp comment revid old_revid get].
  destruct (datetime.strptime (timestamp rc)) as [ts|]; [|reflexivity].
  cbn [obind option_map]. f_equal.
  cbn [replace html.escape].
  split_raw Hc. reflexivity.
Qed.

Lemma raw_edit_entries (c : ascii) (base_url : string)
    (g : list EditRecord) :
  special c = true ->
  option_map (map (raw_count c)) (edit_entries base_url g)
  = option_map (map (raw_count c)) (edit_entries base_url (map blank g)).
Proof.
  intros Hc. induction g as [|rc g IH]; [reflexivity|].
  cbn [map edit_entries].
  pose proof (raw_edit_entry c base_url rc Hc) as H.
  destruct (edit_entry base_url rc) as [e1|],
           (edit_entry base_url (blank rc)) as [e2|];
    cbn [option_map obind] in *; try discriminate; [|reflexivity].
  injection H as H.
  destruct (edit_entries base_url g) as [l1|],
           (edit_entries base_url (map blank g)) as [l2|];
    cbn [option_map obind map] in *; try discriminate; [|reflexivity].
  injection IH as IH. now rewrite H, IH.
Qed.

Lemma last_map {A B : Type} (f : A -> B) (l : list A) (d : A) :
  last (map f l) (f d) = f (last l d).
Proof.
  induction l as [|a l IH]; [reflexivity|].
  destruct l as [|b l]; [reflexivity|]. exact IH.
Qed.

(** C4.  For each of the characters [&], [<], [>], the double quote and
    the apostrophe: an escaped text and a percent-encoded text hold no raw
    occurrence of it, and the lines of a group hold exactly as many raw
    occurrences of it as the lines of the same group with every title,
    username and comment emptied.  So no raw occurrence in the output
    stems from a title, a username or a comment: each of their special
    characters comes out as an entity or as [%XX]. *)
Theorem format_group_escapes (c : ascii) (group : list EditRecord)
    (base_url : string) :
  special c = true ->
  (forall s, raw_count c (html.escape s) = 0%nat
             /\ raw_count c (quote s) = 0%nat
             /\ raw_count c (quote (replace " " "_" s)) = 0%nat)
  /\ option_map (map (raw_count c)) (format_group group base_url)
     = option_map (map (raw_count c)) (format_group (map blank group) base_url).
Proof.
  intros Hc. split.
  - intros s. split; [now apply raw_escape|].
    split; apply raw_clean; auto using clean_quote.
  - unfold format_group. destruct group as [|r0 g]; [reflexivity|].
    cbn [map hd_error last_error obind]. rewrite last_map.
    pose proof (raw_group_header c base_url r0 (last g r0) Hc) as H.
    destruct (group_header base_url r0 (last g r0)) as [h1|],
             (group_header base_url (blank r0) (blank (last g r0))) as [h2|];
      cbn [option_map obind] in *; try discriminate; [|reflexivity].
    injection H as H.
    pose proof (raw_edit_entries c base_url (r0 :: g) Hc) as E.
    cbn [map] in E.
    destruct (edit_entries base_url (r0 :: g)) as [l1|],
             (edit_entries base_url (blank r0 :: map blank g)) as [l2|];
      cbn [option_map obind] in *; try discriminate; [|reflexivity].
    injection E as E.
    cbn [app map]. now rewrite !map_app, H, E.
Qed.

(** A title, a user name and a comment that hold all four characters. *)
Lemma format_group_escapes_witness :
  special "<" = true
  /\ option_map (map (raw_count "<"))
       (format_group
          [mkEdit "a<b>&" "2024-01-02T10:00:00Z" "<i>&" (Some "<script>&")
                  12 (Some 11)]
          "https://w.example.org")
     = Some [10%nat; 1%nat; 4%nat; 1%nat].
Proof.
  split; [reflexivity|].
  rewrite (proj2 (format_group_escapes "<" _ "https://w.example.org" eq_refl)).
  vm_compute. reflexivity.
Defined.

(** ** The report window *)

Lemma last_saturday_eq (today s : datetime.date) :
  last_saturday today = Some s ->
  s = today - (datetime.weekday today + 2) /\ 1 <= s.
Proof.
  unfold last_saturday, datetime.date_sub.
  destruct (_ && _) eqn:E; [|discriminate]. intros [= <-].
  apply andb_true_iff in E as [E _]. apply Z.leb_le in E. auto.
Qed.

(** The day [last_saturday] is a Saturday, and [last_sunday] the Sunday six
    days before it. *)
Lemma window_weekdays (today sat sun : datetime.date) :
  last_saturday today = Some sat -> last_sunday today = Some sun ->
  datetime.weekday sat = 5 /\ sun = sat - 6 /\ datetime.weekday sun = 6.
Proof.
  intros Hsat Hsun. unfold last_sunday in Hsun. rewrite Hsat in Hsun.
  cbn [obind] in Hsun. apply last_saturday_eq in Hsat as [-> _].
  unfold datetime.date_sub in Hsun.
  destruct (_ && _); [|discriminate]. injection Hsun as <-.
  unfold datetime.weekday. repeat split; Z.div_mod_to_equations; lia.
Qed.

(** From Monday to Saturday the window is the last completed week. *)
Lemma window_monday_to_saturday (today sat : datetime.date) :
  datetime.weekday today <> 6 ->
  last_saturday today = Some sat -> completed_saturday today sat.
Proof.
  intros Hwd Hsat. apply last_saturday_eq in Hsat as [-> _].
  unfold completed_saturday, datetime.weekday in *.
  split; [Z.div_mod_to_equations; lia|].
  split; [Z.div_mod_to_equations; lia|].
  intros s' Hs' Hlt. Z.div_mod_to_equations. lia.
Qed.

(** On a Sunday the last completed week ended the day before, and the
    window is the week before that one. *)
Lemma window_on_sunday (today sat : datetime.date) :
  datetime.weekday today = 6 ->
  last_saturday today = Some sat ->
  sat = today - 8 /\ completed_saturday today (today - 1).
Proof.
  intros Hwd Hsat. apply last_saturday_eq in Hsat as [-> _].
  rewrite Hwd. split; [lia|].
  unfold completed_saturday, datetime.weekday in *.
  split; [Z.div_mod_to_equations; lia|].
  split; [lia|].
  intros s' Hs' Hlt. Z.div_mod_to_equations. lia.
Qed.

(** C2 fails on Sundays.  Run on Sunday 2024-01-07, [main] takes the week
    from Sunday 2023-12-24 to Saturday 2023-12-30, although the week that
    ended on Saturday 2024-01-06, the day before, is the most recently
    completed one. *)
Theorem window_on_sunday_2024_01_07 :
  datetime.ord2ymd sun_2024_01_07 = (2024, 1, 7)
  /\ datetime.weekday sun_2024_01_07 = 6
  /\ last_saturday sun_2024_01_07 = Some 738884
  /\ last_sunday sun_2024_01_07 = Some 738878
  /\ datetime.ord2ymd 738884 = (2023, 12, 30)
  /\ datetime.ord2ymd 738878 = (2023, 12, 24)
  /\ completed_saturday sun_2024_01_07 738891
  /\ datetime.ord2ymd 738891 = (2024, 1, 6)
  /\ ~ completed_saturday sun_2024_01_07 738884.
Proof.
  repeat (split; [reflexivity|]).
  split; [|split; [reflexivity|]].
  - apply (window_on_sunday sun_2024_01_07 738884); reflexivity.
  - intros (_ & _ & H). specialize (H 738891 eq_refl eq_refl). lia.
Qed.

(** ** The run of [main] *)

Lemma trace_bind {A B : Type} (m : proc A) (f : A -> proc B) :
  trace (bind m f)
  = trace m ++ match snd m with
               | inr a => trace (f a)
               | inl _ => []
               end.
Proof.
  destruct m as [t [o|a]]; cbn; [now rewrite app_nil_r|].
  now destruct (f a).
Qed.

Lemma snd_bind {A B : Type} (m : proc A) (f : A -> proc B) :
  snd (bind m f) = match snd m with
                   | inr a => snd (f a)
                   | inl o => inl o
                   end.
Proof. destruct m as [t [o|a]]; cbn; [reflexivity|]. now destruct (f a). Qed.

Lemma bind_pair {A B : Type} (t : list event) (a : A) (f : A -> proc B) :
  bind (t, inr a) f = (t ++ trace (f a), snd (f a)).
Proof. cbn. now destruct (f a). Qed.

Lemma quiet_app (a b : list event) : quiet a -> quiet b -> quiet (a ++ b).
Proof.
  unfold quiet. intros [Ha1 Ha2] [Hb1 Hb2].
  now rewrite !existsb_app, Ha1, Ha2, Hb1, Hb2.
Qed.

Lemma fetch_pages_quiet (pages : list (option (list EditRecord * option dict))) :
  forall url params changes,
    quiet (trace (fetch_pages pages url params changes)).
Proof.
  induction pages as [|[[recentchanges [c|]]|] rest IH]; intros url params changes;
    cbn [fetch_pages]; rewrite trace_bind; cbn [emit trace fst snd];
    apply quiet_app; try (split; reflexivity).
  apply IH.
Qed.

Lemma get_recent_changes_quiet (w : world) (url : string)
    (start_date end_date : datetime.t) :
  quiet (trace (get_recent_changes w url start_date end_date)).
Proof. apply fetch_pages_quiet. Qed.

Lemma fetch_pages_fails (pages : list (option (list EditRecord * option dict))) :
  forall url params changes o,
    snd (fetch_pages pages url params changes) = inl o -> o = Exit 1.
Proof.
  induction pages as [|[[recentchanges [c|]]|] rest IH];
    intros url params changes o; cbn [fetch_pages]; rewrite snd_bind;
    cbn [emit snd sys_exit ret]; try congruence.
  apply IH.
Qed.

Lemma get_recent_changes_fails (w : world) (url : string)
    (start_date end_date : datetime.t) (o : outcome) :
  snd (get_recent_changes w url start_date end_date) = inl o -> o = Exit 1.
Proof. apply fetch_pages_fails. Qed.

(** Either the run logs in and fetches, and goes on with [report], or it
    has ended before with nothing but wiki traffic and not with status 0. *)
Lemma main_cases (env : environ) (today : datetime.date) (w : world) :
  (exists sat sun recipient_email changes t,
      fetched env today w sat sun recipient_email changes
      /\ quiet t
      /\ main env today w
         = bind (t, inr changes)
             (report env w (getenv env "BASE_DOMAIN")
                (datetime.combine sun datetime.time_min)
                (datetime.combine sat datetime.time_max) recipient_email))
  \/ (exists t o,
        main env today w = (t, inl o) /\ quiet t /\ o <> Exit 0
        /\ forall sat sun recipient_email changes,
             ~ fetched env today w sat sun recipient_email changes).
Proof.
  unfold main, fetched.
  destruct (truthy (getenv env "MW_USERNAME")) as [username|] eqn:Hu.
  2:{ right. exists [], (Exit 1). repeat split; try discriminate.
      intros ? ? ? ? (? & ? & ? & ? & _); discriminate. }
  destruct (truthy (getenv env "MW_PASSWORD")) as [password|] eqn:Hp.
  2:{ right. exists [], (Exit 1). repeat split; try discriminate.
      intros ? ? ? ? (? & ? & ? & _ & ? & _); discriminate. }
  destruct (truthy (getenv env "RECIPIENT_EMAIL")) as [recipient|] eqn:Hr.
  2:{ right. exists [], (Exit 1). repeat split; try discriminate.
      intros ? ? ? ? (? & ? & ? & _ & _ & ? & _); discriminate. }
  unfold get_login_token, login.
  destruct (token_reply w) as [token|] eqn:Ht.
  2:{ right. eexists. exists (Exit 1). split; [reflexivity|].
      repeat split; try discriminate.
      intros ? ? ? ? (? & ? & ? & _ & _ & _ & ? & _); discriminate. }
  destruct (login_reply w) as [r|] eqn:Hl.
  2:{ right. eexists. exists (Exit 1). split; [reflexivity|].
      repeat split; try discriminate.
      intros ? ? ? ? (? & ? & ? & _ & _ & _ & _ & ? & _); discriminate. }
  destruct (String.eqb_spec r "Success") as [->|Hne].
  2:{ right. eexists. exists (Exit 1). split; [reflexivity|].
      repeat split; try discriminate.
      intros ? ? ? ? (? & ? & ? & _ & _ & _ & _ & ? & _); congruence. }
  destruct (last_saturday today) as [sat|] eqn:Hsat.
  2:{ right. eexists. exists (Uncaught "OverflowError").
      split; [reflexivity|]. repeat split; try discriminate.
      intros ? ? ? ? (? & ? & ? & _ & _ & _ & _ & _ & ? & _); discriminate. }
  destruct (last_sunday today) as [sun|] eqn:Hsun.
  2:{ right. eexists. exists (Uncaught "OverflowError").
      split; [reflexivity|]. repeat split; try discriminate.
      intros ? ? ? ? (? & ? & ? & _ & _ & _ & _ & _ & _ & ? & _);
        discriminate. }
  cbn [negb bind emit ret lift app].
  pose proof (get_recent_changes_quiet w (api_url env)
                (datetime.combine sat datetime.time_max)
                (datetime.combine sun datetime.time_min)) as Hq.
  destruct (get_recent_changes w (api_url env)
              (datetime.combine sat datetime.time_max)
              (datetime.combine sun datetime.time_min))
    as [t [o|changes]] eqn:Hf; cbn [trace fst] in Hq.
  - right. eexists. exists o. cbn [bind app]. split; [reflexivity|].
    split; [apply (quiet_app [_; _]); [split; reflexivity | exact Hq]|].
    split.
    + assert (E : snd (get_recent_changes w (api_url env)
                         (datetime.combine sat datetime.time_max)
                         (datetime.combine sun datetime.time_min)) = inl o)
        by now rewrite Hf.
      apply get_recent_changes_fails in E as ->. discriminate.
    + intros ? ? ? ? (? & ? & ? & _ & _ & _ & _ & _ & E1 & E2 & F).
      injection E1 as <-. injection E2 as <-. now rewrite Hf in F.
  - left. exists sat, sun, recipient, changes. eexists (_ :: _ :: t).
    split; [exists username, password, token; rewrite ?Hf; auto 10|].
    split; [|cbn [bind app];
             destruct (report _ _ _ _ _ _ _); reflexivity].
    apply (quiet_app [_; _]); [split; reflexivity | exact Hq].
Qed.

Lemma fetched_unique (env : environ) (today : datetime.date) (w : world)
    (sat sat' sun sun' : datetime.date) (r r' : string)
    (changes changes' : list EditRecord) :
  fetched env today w sat sun r changes ->
  fetched env today w sat' sun' r' changes' ->
  sat = sat' /\ sun = sun' /\ r = r' /\ changes = changes'.
Proof.
  intros (u & p & tok & _ & _ & Hr & _ & _ & Hsat & Hsun & Hf)
         (u' & p' & tok' & _ & _ & Hr' & _ & _ & Hsat' & Hsun' & Hf').
  rewrite Hsat in Hsat'. injection Hsat' as <-.
  rewrite Hsun in Hsun'. injection Hsun' as <-.
  rewrite Hr in Hr'. injection Hr' as <-.
  rewrite Hf in Hf'. injection Hf' as <-. auto.
Qed.

Lemma main_fetched (env : environ) (today : datetime.date) (w : world)
    (sat sun : datetime.date) (recipient_email : string)
    (changes : list EditRecord) :
  fetched env today w sat sun recipient_email changes ->
  exists t,
    quiet t
    /\ main env today w
       = bind (t, inr changes)
           (report env w (getenv env "BASE_DOMAIN")
              (datetime.combine sun datetime.time_min)
              (datetime.combine sat datetime.time_max) recipient_email).
Proof.
  intros Hf.
  destruct (main_cases env today w)
    as [(sat' & sun' & r' & changes' & t & Hf' & Hq & E)
       |(t & o & _ & _ & _ & Hno)].
  - destruct (fetched_unique _ _ _ _ _ _ _ _ _ _ _ Hf Hf')
      as (<- & <- & <- & <-).
    now exists t.
  - now destruct (Hno _ _ _ _ Hf).
Qed.

(** Without one of its three settings [send_email] ends the run before it
    posts. *)
Lemma send_email_absent (env : environ) (w : world)
    (subject html_content recipient_email : string) :
  absent env "MAILGUN_API_KEY" \/ absent env "MAILGUN_DOMAIN"
  \/ absent env "SENDER_EMAIL" ->
  send_email env w subject html_content recipient_email = ([], inl (Exit 1)).
Proof.
  unfold absent, send_email. intros [H|[H|H]]; rewrite H.
  - reflexivity.
  - now destruct (truthy (getenv env "MAILGUN_API_KEY")).
  - now destruct (truthy (getenv env "MAILGUN_API_KEY")),
                 (truthy (getenv env "MAILGUN_DOMAIN")).
Qed.

(** The events of [send_email]: at most the one post, with the subject and
    the HTML it was given. *)
Lemma send_email_trace (env : environ) (w : world)
    (subject html_content recipient_email : string) (e : event) :
  In e (trace (send_email env w subject html_content recipient_email)) ->
  exists url auth data,
    e = Post url (Some auth) data
    /\ dict_get data "subject" = Some subject
    /\ dict_get data "html" = Some html_content.
Proof.
  unfold send_email.
  destruct (truthy (getenv env "MAILGUN_API_KEY")) as [k|]; [|intros []].
  destruct (truthy (getenv env "MAILGUN_DOMAIN")) as [d|]; [|intros []].
  destruct (truthy (getenv env "SENDER_EMAIL")) as [s|]; [|intros []].
  rewrite trace_bind. cbn [emit trace fst snd].
  intros [[<-|[]]|H]%in_app_or.
  - eexists. eexists. eexists. split; [reflexivity|]. split; reflexivity.
  - now destruct (mail_reply w).
Qed.

Lemma quiet_no_mail (t : list event) (url : string) (auth : string * string)
    (data : dict) :
  quiet t -> ~ In (Post url (Some auth) data) t.
Proof.
  intros [Hm _] Hin.
  assert (E : existsb is_mail t = true).
  { apply existsb_exists. eexists. split; [exact Hin | reflexivity]. }
  congruence.
Qed.

Lemma join_cons (sep a b : string) (l : list string) :
  join sep (a :: b :: l) = (a ++ sep ++ join sep (b :: l))%string.
Proof. reflexivity. Qed.

(** The first line of the HTML is the [<h1>] header, with the range in the
    order of the parameters [start_date], [end_date]. *)
Lemma format_changes_header (changes : list EditRecord) (base_url : string)
    (start_date end_date : datetime.t) (title html_output : string) :
  snd (format_changes changes base_url start_date end_date title)
  = Some html_output ->
  exists body,
    html_output
    = ("<h1>Weekly " ++ title ++ " report: "
         ++ datetime.strftime_bd start_date ++ " - "
         ++ datetime.strftime_bd end_date ++ "</h1>"
         ++ newline ++ body)%string.
Proof.
  unfold format_changes. cbn [snd]. rewrite scan_all_lines.
  destruct (scan_all Heading emit_block [] (sort_changes changes)) as [bs|];
    [|discriminate].
  cbn [option_map obind]. intros E.
  assert (E' : html_output
               = join newline (header_lines start_date end_date title
                               ++ flat_map (render_block base_url) bs))
    by congruence.
  rewrite E'. clear E E'.
  unfold header_lines. cbv zeta. cbn [app]. rewrite join_cons.
  eexists. rewrite !append_assoc. reflexivity.
Qed.

(** C7.  When the fetch returns no change, the run ends with exit status 0,
    [format_changes] is not called and nothing is posted to the mail
    provider. *)
Theorem empty_change_set_exits_0 (env : environ) (today : datetime.date)
    (w : world) (sat sun : datetime.date) (recipient_email : string) :
  fetched env today w sat sun recipient_email [] ->
  result (main env today w) = Exit 0
  /\ existsb is_format (trace (main env today w)) = false
  /\ existsb is_mail (trace (main env today w)) = false.
Proof.
  intros Hf. destruct (main_fetched _ _ _ _ _ _ _ Hf) as (t & [Hm Hc] & ->).
  cbn. rewrite app_nil_r. auto.
Qed.

Lemma empty_change_set_exits_0_witness :
  fetched full_env wed_2024_01_10 (good_world []) 738891 738885
          "ops@example.org" []
  /\ result (main full_env wed_2024_01_10 (good_world [])) = Exit 0
  /\ existsb is_format (trace (main full_env wed_2024_01_10 (good_world [])))
     = false
  /\ existsb is_mail (trace (main full_env wed_2024_01_10 (good_world [])))
     = false.
Proof.
  assert (H : fetched full_env wed_2024_01_10 (good_world []) 738891 738885
                      "ops@example.org" []).
  { exists "bot", "secret", "tok". repeat split; reflexivity. }
  split; [exact H|].
  exact (empty_change_set_exits_0 _ _ _ _ _ _ H).
Defined.

(** C10.  When the run posts the report, the subject gives the window
    earlier date first, Sunday - Saturday, and the [<h1>] header of the
    HTML of the same post gives it later date first, Saturday - Sunday:
    [main] hands [end_date] to the parameter [start_date] of
    [format_changes] and [start_date] to its [end_date]. *)
Theorem header_and_subject_ranges (env : environ) (today : datetime.date)
    (w : world) (sat sun : datetime.date) (recipient_email : string)
    (changes : list EditRecord) (url : string) (auth : string * string)
    (data : dict) :
  fetched env today w sat sun recipient_email changes ->
  changes <> [] ->
  In (Post url (Some auth) data) (trace (main env today w)) ->
  let start_date := datetime.combine sun datetime.time_min in
  let end_date := datetime.combine sat datetime.time_max in
  sun = sat - 6
  /\ exists domain body,
       getenv env "BASE_DOMAIN" = Some domain
       /\ dict_get data "subject"
          = Some ("Weekly " ++ domain ++ " report: "
                    ++ datetime.strftime_bd start_date ++ " - "
                    ++ datetime.strftime_bd end_date)%string
       /\ dict_get data "html"
          = Some ("<h1>Weekly " ++ before_dot domain ++ " report: "
                    ++ datetime.strftime_bd end_date ++ " - "
                    ++ datetime.strftime_bd start_date ++ "</h1>"
                    ++ newline ++ body)%string.
Proof.
  intros Hf Hne Hin start_date end_date.
  split.
  { destruct Hf as (_ & _ & _ & _ & _ & _ & _ & _ & Hsat & Hsun & _).
    now destruct (window_weekdays _ _ _ Hsat Hsun) as (_ & -> & _). }
  destruct (main_fetched _ _ _ _ _ _ _ Hf) as (t & Hq & E).
  rewrite E, bind_pair in Hin. cbn [trace fst] in Hin.
  apply in_app_or in Hin as [Hin|Hin];
    [now apply quiet_no_mail in Hin|].
  destruct changes as [|rc rest]; [congruence|].
  unfold report in Hin.
  destruct (getenv env "BASE_DOMAIN") as [domain|]; [|destruct Hin].
  cbn [option_map lift fstr get] in Hin.
  rewrite trace_bind in Hin. cbn [ret trace fst snd app] in Hin.
  rewrite trace_bind in Hin. cbn [emit trace fst snd app] in Hin.
  destruct Hin as [Hin|Hin]; [discriminate|].
  fold start_date end_date in Hin.
  destruct (snd (format_changes (rc :: rest) ("https://" ++ domain)
                   end_date start_date (before_dot domain)))
    as [html_output|] eqn:Hh; [|destruct Hin].
  cbn [lift] in Hin.
  rewrite trace_bind in Hin. cbn [ret trace fst snd app] in Hin.
  rewrite trace_bind in Hin.
  apply in_app_or in Hin as [Hin|Hin].
  - apply send_email_trace in Hin as (url' & auth' & data' & [= -> -> ->] & Hs & Hb).
    destruct (format_changes_header _ _ _ _ _ _ Hh) as [body ->].
    exists domain, body. auto.
  - destruct (snd (send_email _ _ _ _ _)) as [o|status]; [destruct Hin|].
    now destruct (status =? 200).
Qed.

Lemma header_and_subject_ranges_witness :
  fetched full_env wed_2024_01_10 (good_world [rcB; rcA1]) 738891 738885
          "ops@example.org" [rcB; rcA1]
  /\ [rcB; rcA1] <> []
  /\ In (Post "https://api.mailgun.net/v3/mg.example.org/messages"
              (Some ("api", "key-1")) posted_data)
        (trace (main full_env wed_2024_01_10 (good_world [rcB; rcA1])))
  /\ 738885 = 738891 - 6
  /\ exists domain body,
       getenv full_env "BASE_DOMAIN" = Some domain
       /\ dict_get posted_data "subject"
          = Some ("Weekly " ++ domain ++ " report: "
                    ++ datetime.strftime_bd dec31 ++ " - "
                    ++ datetime.strftime_bd jan06)%string
       /\ dict_get posted_data "html"
          = Some ("<h1>Weekly " ++ before_dot domain ++ " report: "
                    ++ datetime.strftime_bd jan06 ++ " - "
                    ++ datetime.strftime_bd dec31 ++ "</h1>"
                    ++ newline ++ body)%string.
Proof.
  assert (H : fetched full_env wed_2024_01_10 (good_world [rcB; rcA1])
                      738891 738885 "ops@example.org" [rcB; rcA1]).
  { exists "bot", "secret", "tok". repeat split; reflexivity. }
  assert (Hne : [rcB; rcA1] <> []) by discriminate.
  assert (Hin : In (Post "https://api.mailgun.net/v3/mg.example.org/messages"
                         (Some ("api", "key-1")) posted_data)
                   (trace (main full_env wed_2024_01_10
                             (good_world [rcB; rcA1])))).
  { vm_compute. do 4 right. left. reflexivity. }
  split; [exact H|]. split; [exact Hne|]. split; [exact Hin|].
  exact (header_and_subject_ranges _ _ _ _ _ _ _ _ _ _ H Hne Hin).
Defined.

(** ** Configuration *)

Lemma quiet_no_format (t : list event) :
  quiet t -> existsb is_format t = false.
Proof. now intros [_ H]. Qed.

(** C6 fails as stated: with every setting but the API key of the mail
    provider, and no change in the window, the run logs in, fetches and
    ends with exit status 0. *)
Lemma missing_mail_key_exits_0 :
  absent (without "MAILGUN_API_KEY" full_env) "MAILGUN_API_KEY"
  /\ result (main (without "MAILGUN_API_KEY" full_env) wed_2024_01_10
               (good_world []))
     = Exit 0
  /\ length (trace (main (without "MAILGUN_API_KEY" full_env) wed_2024_01_10
                      (good_world [])))
     = 3%nat.
Proof. repeat split; reflexivity. Qed.

(** C6, amended.  When the wiki user name, the password or the recipient
    address is absent, the run ends with exit status 1 before any network
    call.  When the API key, the sending domain or the sender address of
    the mail provider is absent, [send_email] ends the run with exit status
    1 before it posts: no run posts to the mail provider, and a run that
    gets as far as formatting the report does not end with status 0. *)
Theorem config_checks (env : environ) (today : datetime.date) (w : world) :
  (absent env "MW_USERNAME" \/ absent env "MW_PASSWORD"
   \/ absent env "RECIPIENT_EMAIL" ->
   main env today w = ([], inl (Exit 1)))
  /\ (absent env "MAILGUN_API_KEY" \/ absent env "MAILGUN_DOMAIN"
      \/ absent env "SENDER_EMAIL" ->
      (forall subject html_content recipient_email,
          send_email env w subject html_content recipient_email
          = ([], inl (Exit 1)))
      /\ existsb is_mail (trace (main env today w)) = false
      /\ (existsb is_format (trace (main env today w)) = true ->
          result (main env today w) <> Exit 0)).
Proof.
  split.
  - unfold absent, main. intros [H|[H|H]]; rewrite H.
    + reflexivity.
    + now destruct (truthy (getenv env "MW_USERNAME")).
    + now destruct (truthy (getenv env "MW_USERNAME")),
                   (truthy (getenv env "MW_PASSWORD")).
  - intros Habs.
    split; [intros; now apply send_email_absent|].
    destruct (main_cases env today w)
      as [(sat & sun & r & changes & t & Hf & Hq & ->)
         |(t & o & -> & Hq & Ho & _)].
    + rewrite bind_pair. cbn [trace result fst snd].
      rewrite !existsb_app. destruct Hq as [Hm Hc]. rewrite Hm, Hc.
      cbn [orb]. unfold report.
      destruct changes as [|rc rest]; [split; [reflexivity|discriminate]|].
      destruct (getenv env "BASE_DOMAIN") as [domain|];
        [|split; [reflexivity|discriminate]].
      cbn [option_map lift fstr get].
      rewrite !trace_bind, !snd_bind. cbn [ret emit trace fst snd app].
      destruct (snd (format_changes _ _ _ _ _)) as [html_output|];
        cbn [lift]; [|split; [reflexivity|discriminate]].
      rewrite !trace_bind, !snd_bind. cbn [ret emit trace fst snd app].
      rewrite send_email_absent by exact Habs.
      cbn [trace fst snd app existsb is_mail is_format orb].
      split; [reflexivity|discriminate].
    + cbn [trace result fst snd]. destruct Hq as [Hm Hc].
      split; [exact Hm|]. congruence.
Qed.

Lemma config_checks_witness :
  absent (without "MW_PASSWORD" full_env) "MW_PASSWORD"
  /\ main (without "MW_PASSWORD" full_env) wed_2024_01_10 (good_world [rcB])
     = ([], inl (Exit 1))
  /\ absent (without "SENDER_EMAIL" full_env) "SENDER_EMAIL"
  /\ existsb is_mail
       (trace (main (without "SENDER_EMAIL" full_env) wed_2024_01_10
                 (good_world [rcB])))
     = false
  /\ existsb is_format
       (trace (main (without "SENDER_EMAIL" full_env) wed_2024_01_10
                 (good_world [rcB])))
     = true
  /\ result (main (without "SENDER_EMAIL" full_env) wed_2024_01_10
               (good_world [rcB]))
     <> Exit 0.
Proof.
  assert (H1 : absent (without "MW_PASSWORD" full_env) "MW_PASSWORD")
    by reflexivity.
  assert (H2 : absent (without "SENDER_EMAIL" full_env) "SENDER_EMAIL")
    by reflexivity.
  assert (H3 : existsb is_format
                 (trace (main (without "SENDER_EMAIL" full_env) wed_2024_01_10
                           (good_world [rcB])))
               = true) by (vm_compute; reflexivity).
  split; [exact H1|].
  split.
  { apply (proj1 (config_checks (without "MW_PASSWORD" full_env)
                    wed_2024_01_10 (good_world [rcB]))).
    right. left. exact H1. }
  split; [exact H2|].
  destruct (proj2 (config_checks (without "SENDER_EMAIL" full_env)
                     wed_2024_01_10 (good_world [rcB]))
              (or_intror (or_intror H2))) as (_ & Hm & Hr).
  split; [exact Hm|]. split; [exact H3|]. exact (Hr H3).
Defined.

(** The target domain is not checked at all: without it the run calls the
    host [None]. *)
Example main_without_base_domain :
  hd_error (trace (main (without "BASE_DOMAIN" full_env) wed_2024_01_10
                     (good_world [rcB])))
  = Some (Get "https://None/w/api.php"
              [("action", "query"); ("meta", "tokens"); ("type", "login");
               ("format", "json")])
  /\ result (main (without "BASE_DOMAIN" full_env) wed_2024_01_10
               (good_world [rcB]))
     = Uncaught "AttributeError".
Proof. split; reflexivity. Qed.

(** * Further properties of the code *)

(** ** When [format_changes] raises *)




(** X2.  On the empty list [format_changes] returns the two header lines
    and nothing else, and leaves the list empty. *)
Theorem format_changes_nil (base_url : string)
    (start_date end_date : datetime.t) (title : string) :
  format_changes [] base_url start_date end_date title
  = ([],
     Some ("<h1>Weekly " ++ title ++ " report: "
             ++ datetime.strftime_bd start_date ++ " - "
             ++ datetime.strftime_bd end_date ++ "</h1>"
             ++ newline
             ++ "<p>Here are the recent changes on " ++ title
             ++ " for the past week:</p>")%string).
Proof.
  unfold format_changes, scan_all, header_lines. cbn [sort_changes scan obind flush group output_lines].
  rewrite join_cons. cbn [join String.concat].
  now rewrite !append_assoc.
Qed.

(** ** The grouping is maximal *)

Lemma step_result_started (st : state block) (rc : EditRecord)
    (ts : datetime.t) :
  group (step_result Heading flushed st rc ts) <> [].
Proof.
  unfold step_result.
  repeat match goal with |- context [if ?b then _ else _] => destruct b end;
    cbn [group]; try discriminate.
  destruct (group st); discriminate.
Qed.

Lemma pending_key (st : state block) (r : EditRecord) (g : list EditRecord) :
  pending_ok st -> group st = r :: g ->
  last_user st = Some (user r) /\ last_page st = Some (title r).
Proof.
  intros [Hk _] G. destruct (Hk r) as (_ & Hu & Ht); [rewrite G; now left|].
  auto.
Qed.

Lemma group_key_app (g tail : list EditRecord) :
  g <> [] -> group_key (g ++ tail) = group_key g.
Proof. destruct g; [congruence | reflexivity]. Qed.

(** What the scan appends from a state on: the pending group comes first,
    however it grows; neighbouring groups of a section differ in their
    key, neighbouring sections in their date, and no section is empty. *)
Lemma scan_blocks_shape (l : list EditRecord) :
  forall st st' : state block,
    pending_ok st -> pending_started st ->
    scan Heading emit_block st l = Some st' ->
    exists ext,
      finish st' = output_lines st ++ ext
      /\ (group st <> [] ->
          exists tail rest,
            leading_groups ext = (group st ++ tail) :: rest)
      /\ Sorted diff_key (leading_groups ext)
      /\ Forall (fun s => groups s <> [] /\ Sorted diff_key (groups s))
                (sections ext)
      /\ Sorted diff_date (sections ext)
      /\ (forall s rest, sections ext = s :: rest ->
            Some (section_date s) <> current_date st).
Proof.
  induction l as [|rc l IH]; intros st st' Hp Hst Hs.
  - injection Hs as <-. exists (flushed (group st)).
    split; [reflexivity|].
    destruct (group st) as [|r g]; cbn [flushed leading_groups sections].
    + split; [congruence|]. split; [constructor|]. split; [constructor|].
      split; [constructor|]. discriminate.
    + split; [intros _; exists [], []; now rewrite app_nil_r|].
      split; [repeat constructor|]. split; [constructor|].
      split; [constructor|]. discriminate.
  - cbn [scan] in Hs. apply obind_some in Hs as (st1 & H1 & H2).
    destruct (datetime.strptime (timestamp rc)) as [ts|] eqn:Hts;
      [|now rewrite scan_step_none in H1].
    rewrite (scan_step_eq Heading emit_block flushed eq_refl st rc ts
               (flushes_block _) Hts) in H1.
    injection H1 as <-.
    pose proof (step_result_pending st rc ts Hts Hp) as Hp1.
    pose proof (step_result_started st rc ts) as Hne1.
    destruct (IH _ _ Hp1 (fun _ => Hne1) H2)
      as (ext1 & E & L & SK & F & SD & HD).
    specialize (L Hne1). destruct L as (tail & rest1 & L).
    clear IH H2 Hp1 Hne1. unfold step_result in *.
    destruct (opt_eqb (current_date st) (Some (datetime.strftime_Ymd ts)))
      eqn:Ed.
    + apply opt_eqb_eq in Ed.
      assert (Hg : group st <> []) by (apply Hst; congruence).
      destruct (opt_eqb (Some (user rc)) (last_user st)
                && opt_eqb (Some (title rc)) (last_page st)) eqn:Ek;
        cbn [group current_date output_lines] in *.
      * exists ext1. split; [exact E|].
        split; [intros _; exists ([rc] ++ tail), rest1;
                now rewrite L, <- app_assoc|].
        auto.
      * exists (flushed (group st) ++ ext1).
        rewrite <- app_assoc in E. split; [exact E|].
        destruct (group st) as [|r g] eqn:G; [congruence|].
        cbn [flushed app leading_groups sections].
        split; [intros _; exists [], (leading_groups ext1);
                now rewrite app_nil_r|].
        split.
        { constructor; [exact SK|]. rewrite L. constructor.
          unfold diff_key. cbn [group_key app]. intros [= Hu Ht].
          destruct (pending_key st r g Hp G) as [Hlu Hlp].
          rewrite Hlu, Hlp, <- Hu, <- Ht in Ek.
          cbn [opt_eqb] in Ek. now rewrite !String.eqb_refl in Ek. }
        auto.
    + cbn [group current_date output_lines] in *.
      set (d := datetime.strftime_Ymd ts) in *.
      set (w := datetime.strftime_A ts) in *.
      exists (flushed (group st) ++ Heading d w :: ext1).
      split; [now rewrite E, <- !app_assoc|].
      assert (S1 : sections (flushed (group st) ++ Heading d w :: ext1)
                   = mkSection d w (leading_groups ext1) :: sections ext1)
        by now rewrite sections_flushed.
      assert (L1 : leading_groups (flushed (group st) ++ Heading d w :: ext1)
                   = match group st with [] => [] | _ => [group st] end)
        by now destruct (group st).
      rewrite S1, L1. clear S1 L1.
      split; [intros Hg; destruct (group st) as [|r g]; [congruence|];
              exists [], []; now rewrite app_nil_r|].
      split; [destruct (group st); repeat constructor|].
      split.
      { constructor; [|exact F]. cbn [groups]. split; [|exact SK].
        rewrite L. discriminate. }
      split.
      { constructor; [exact SD|].
        destruct (sections ext1) as [|s1 rest] eqn:S; constructor.
        unfold diff_date. cbn [section_date].
        specialize (HD s1 rest eq_refl). congruence. }
      intros s rest [= <- _]. cbn [section_date].
      intros H. rewrite <- H, opt_eqb_refl in Ed. discriminate.
Qed.

Lemma blocks_of_shape (changes : list EditRecord) (bs : list block) :
  blocks_of changes = Some bs ->
  Forall (fun s => groups s <> [] /\ Sorted diff_key (groups s)) (sections bs)
  /\ Sorted diff_date (sections bs).
Proof.
  intros H. apply blocks_of_finish in H as (st & Hs & ->).
  assert (Hp : pending_ok (mkState (O := block) None None None [] [])).
  { split; [intros r []|reflexivity]. }
  assert (Hst : pending_started (mkState (O := block) None None None [] [])).
  { intros H. now destruct H. }
  destruct (scan_blocks_shape _ _ _ Hp Hst Hs) as (ext & E & _ & _ & F & SD & _).
  cbn [output_lines app] in E. rewrite E. auto.
Qed.

(** X3.  Every date section of the report holds at least one group, and a
    section never follows one of the same date: a heading is written only
    when the date changes, and edits follow it at once. *)
Theorem sections_distinct_and_filled (changes : list EditRecord)
    (bs : list block) :
  blocks_of changes = Some bs ->
  Forall (fun s => groups s <> []) (sections bs)
  /\ Sorted diff_date (sections bs).
Proof.
  intros H. destruct (blocks_of_shape _ _ H) as [F SD].
  split; [|exact SD].
  eapply Forall_impl; [|exact F]. now intros s [Hs _].
Qed.

Lemma sections_distinct_and_filled_witness :
  blocks_of [rcA0; rcA1; rcB; rcA2]
  = Some [Heading "2024-01-02" "Tuesday"; Group [rcA1; rcA2]; Group [rcB];
          Heading "2024-01-01" "Monday"; Group [rcA0]]
  /\ Forall (fun s => groups s <> [])
       (sections [Heading "2024-01-02" "Tuesday"; Group [rcA1; rcA2];
                  Group [rcB]; Heading "2024-01-01" "Monday"; Group [rcA0]])
  /\ Sorted diff_date
       (sections [Heading "2024-01-02" "Tuesday"; Group [rcA1; rcA2];
                  Group [rcB]; Heading "2024-01-01" "Monday"; Group [rcA0]]).
Proof.
  split; [vm_compute; reflexivity|].
  apply (sections_distinct_and_filled [rcA0; rcA1; rcB; rcA2]).
  vm_compute. reflexivity.
Defined.

(** X4.  Within a date section two neighbouring groups never have the same
    user and page: consecutive edits of one user to one page on one date
    are always merged into one group. *)
Theorem groups_are_maximal (changes : list EditRecord) (bs : list block) :
  blocks_of changes = Some bs ->
  Forall (fun s => Sorted diff_key (groups s)) (sections bs).
Proof.
  intros H. destruct (blocks_of_shape _ _ H) as [F _].
  eapply Forall_impl; [|exact F]. now intros s [_ Hs].
Qed.

Lemma groups_are_maximal_witness :
  blocks_of [rcA0; rcA1; rcB; rcA2]
  = Some [Heading "2024-01-02" "Tuesday"; Group [rcA1; rcA2]; Group [rcB];
          Heading "2024-01-01" "Monday"; Group [rcA0]]
  /\ Forall (fun s => Sorted diff_key (groups s))
       (sections [Heading "2024-01-02" "Tuesday"; Group [rcA1; rcA2];
                  Group [rcB]; Heading "2024-01-01" "Monday"; Group [rcA0]]).
Proof.
  split; [vm_compute; reflexivity|].
  apply (groups_are_maximal [rcA0; rcA1; rcB; rcA2]).
  vm_compute. reflexivity.
Defined.

(** ** The lines of the report *)

Lemma edit_entries_lines (base_url : string) (g : list EditRecord) :
  forall entries,
    edit_entries base_url g = Some entries ->
    length entries = length g
    /\ filter is_li entries = entries
    /\ filter is_h2 entries = []
    /\ filter is_group_header entries = [].
Proof.
  induction g as [|rc g IH]; intros entries H.
  - injection H as <-. auto.
  - cbn [edit_entries] in H.
    apply obind_some in H as (entry & He & H).
    apply obind_some in H as (rest & Hr & H). injection H as <-.
    destruct (IH rest Hr) as (Hl & Hli & Hh2 & Hgh).
    unfold edit_entry in He. apply obind_some in He as (ts & _ & He).
    injection He as <-.
    cbn [filter length is_li is_h2 is_group_header starts_with append
         Ascii.eqb Bool.eqb andb].
    rewrite Hli, Hh2, Hgh, Hl. auto.
Qed.

Lemma format_group_lines (base_url : string) (g : list EditRecord)
    (lines : list string) :
  format_group g base_url = Some lines ->
  length (filter is_li lines) = length g
  /\ filter is_h2 lines = []
  /\ length (filter is_group_header lines) = 1%nat
  /\ length lines = (length g + 3)%nat.
Proof.
  unfold format_group. intros H.
  apply obind_some in H as (first_edit & _ & H).
  apply obind_some in H as (last_edit & _ & H).
  apply obind_some in H as (header & Hh & H).
  apply obind_some in H as (entries & He & H). injection H as <-.
  destruct (edit_entries_lines _ _ _ He) as (Hl & Hli & Hh2 & Hgh).
  unfold group_header in Hh.
  apply obind_some in Hh as (first_ts & _ & Hh).
  apply obind_some in Hh as (last_ts & _ & Hh). injection Hh as <-.
  cbn [app filter is_li is_h2 is_group_header starts_with append
       Ascii.eqb Bool.eqb andb].
  rewrite !filter_app, Hli, Hh2, Hgh. cbn [filter is_li is_h2 is_group_header
       starts_with append Ascii.eqb Bool.eqb andb app length].
  rewrite !length_app, Hl. cbn [length]. repeat split; lia.
Qed.

Lemma group_ok_parses (d : string) (g : list EditRecord) :
  group_ok d g -> g <> [] /\ Forall parses g.
Proof.
  intros (Hne & u & p & Hall). split; [exact Hne|].
  apply Forall_forall. intros r Hr. destruct (Hall r Hr) as (Hd & _).
  unfold parses, date_of in *.
  destruct (datetime.strptime (timestamp r)); [discriminate|discriminate].
Qed.

Lemma render_blocks_lines (base_url : string) (bs : list block) :
  Forall (fun g => g <> [] /\ Forall parses g) (all_groups bs) ->
  let lines := flat_map (render_block base_url) bs in
  length (filter is_li lines) = length (concat (all_groups bs))
  /\ length (filter is_h2 lines) = length (sections bs)
  /\ length (filter is_group_header lines) = length (all_groups bs)
  /\ length lines
     = (length (sections bs) + 3 * length (all_groups bs)
        + length (concat (all_groups bs)))%nat.
Proof.
  induction bs as [|[d w|g] bs IH]; intros H; [now cbn|..].
  - specialize (IH H). cbv zeta in *. destruct IH as (I1 & I2 & I3 & I4).
    cbn [flat_map render_block app all_groups sections filter heading_line
         is_li is_h2 is_group_header starts_with append Ascii.eqb Bool.eqb
         andb length].
    rewrite I4. repeat split; auto; lia.
  - cbn [all_groups] in H. apply Forall_cons_iff in H as [[Hne Hg] H].
    specialize (IH H). cbv zeta in *. destruct IH as (I1 & I2 & I3 & I4).
    destruct (format_group_some base_url g Hne Hg) as [lines E].
    destruct (format_group_lines _ _ _ E) as (L1 & L2 & L3 & L4).
    cbn [flat_map render_block all_groups sections concat].
    rewrite E. cbn [get].
    rewrite !filter_app, !length_app, L1, L2, L3, L4, I1, I2, I3, I4.
    cbn [length app]. repeat split; auto; lia.
Qed.

(** X5.  The HTML is the join of lines among which there is exactly one
    list item per input record, one [<h2>] heading per date section and
    one header per group; with the two lines of the report header and the
    [<ul>], [</ul>] of each group these are all the lines. *)
Theorem report_lines_count (changes : list EditRecord) (base_url : string)
    (start_date end_date : datetime.t) (title html_output : string) :
  snd (format_changes changes base_url start_date end_date title)
  = Some html_output ->
  exists lines bs,
    blocks_of changes = Some bs
    /\ html_output = join newline lines
    /\ length (filter is_li lines) = length changes
    /\ length (filter is_h2 lines) = length (sections bs)
    /\ length (filter is_group_header lines) = length (all_groups bs)
    /\ length lines
       = (2 + length (sections bs) + 3 * length (all_groups bs)
          + length changes)%nat.
Proof.
  unfold format_changes. cbn [snd]. rewrite scan_all_lines.
  fold (blocks_of changes).
  destruct (blocks_of changes) as [bs|] eqn:Hb; [|discriminate].
  cbn [option_map obind]. intros E.
  exists (header_lines start_date end_date title
          ++ flat_map (render_block base_url) bs), bs.
  split; [reflexivity|]. split; [congruence|]. clear E.
  destruct (blocks_of_spec _ _ Hb) as (A & R & S).
  assert (G : Forall (fun g => g <> [] /\ Forall parses g) (all_groups bs)).
  { rewrite A. apply Forall_forall. intros g Hg.
    apply in_flat_map in Hg as (s & Hs & Hg).
    rewrite Forall_forall in S. specialize (S s Hs).
    unfold section_ok in S. rewrite Forall_forall in S.
    eapply group_ok_parses, S, Hg. }
  destruct (render_blocks_lines base_url bs G) as (L1 & L2 & L3 & L4).
  assert (Hlen : length (concat (all_groups bs)) = length changes).
  { rewrite A, <- report_records_concat, R.
    symmetry. apply Permutation_length, sort_changes_perm. }
  unfold header_lines. cbv zeta.
  rewrite !filter_app.
  cbn [filter is_li is_h2 is_group_header starts_with append Ascii.eqb
       Bool.eqb andb app].
  rewrite L1, L2, L3, Hlen. repeat split; try reflexivity.
  cbn [length]. rewrite L4, Hlen. lia.
Qed.

Lemma report_lines_count_witness :
  snd (format_changes [rcB; rcA1; rcA2] "https://w.example.org" jan06 dec31 "w")
  = Some (get (snd (format_changes [rcB; rcA1; rcA2] "https://w.example.org"
                      jan06 dec31 "w")) "")
  /\ exists lines bs,
       blocks_of [rcB; rcA1; rcA2] = Some bs
       /\ get (snd (format_changes [rcB; rcA1; rcA2] "https://w.example.org"
                      jan06 dec31 "w")) ""
          = join newline lines
       /\ length (filter is_li lines) = 3%nat
       /\ length (filter is_h2 lines) = length (sections bs)
       /\ length (filter is_group_header lines) = length (all_groups bs)
       /\ length lines
          = (2 + length (sections bs) + 3 * length (all_groups bs) + 3)%nat.
Proof.
  assert (H : snd (format_changes [rcB; rcA1; rcA2] "https://w.example.org"
                     jan06 dec31 "w")
              = Some (get (snd (format_changes [rcB; rcA1; rcA2]
                                  "https://w.example.org" jan06 dec31 "w")) ""))
    by (vm_compute; reflexivity).
  split; [exact H|].
  exact (report_lines_count _ _ _ _ _ _ H).
Defined.

(** ** The fetch and its pages *)

Lemma dict_get_set_same (d : dict) (k v : string) :
  dict_get (dict_set d k v) k = Some v.
Proof.
  induction d as [|[k' v'] d IH]; cbn [dict_set dict_get].
  - now rewrite String.eqb_refl.
  - destruct (String.eqb_spec k' k) as [->|Hne]; cbn [dict_get].
    + now rewrite String.eqb_refl.
    + apply String.eqb_neq in Hne. now rewrite Hne.
Qed.

Lemma dict_get_set_other (d : dict) (k v k0 : string) :
  k <> k0 -> dict_get (dict_set d k v) k0 = dict_get d k0.
Proof.
  intros Hne. induction d as [|[k' v'] d IH]; cbn [dict_set dict_get].
  - apply String.eqb_neq in Hne. now rewrite Hne.
  - destruct (String.eqb_spec k' k) as [->|Hk]; cbn [dict_get].
    + apply String.eqb_neq in Hne. now rewrite Hne.
    + now rewrite IH.
Qed.

Lemma dict_get_rev_none (c : dict) (k : string) :
  dict_get c k = None -> dict_get (rev c) k = None.
Proof.
  induction c as [|[k1 v1] c IH]; [reflexivity|]. cbn [dict_get rev].
  destruct (String.eqb k1 k) eqn:E; [discriminate|]. intros H.
  specialize (IH H). clear H.
  induction (rev c) as [|[k2 v2] l IHl]; cbn [app dict_get] in *.
  - now rewrite E.
  - destruct (String.eqb k2 k); [discriminate | now apply IHl].
Qed.

Lemma dict_get_update (d other : dict) (k : string) :
  dict_get (dict_update d other) k
  = match dict_get (rev other) k with
    | Some v => Some v
    | None => dict_get d k
    end.
Proof.
  unfold dict_update.
  induction other as [|[k1 v1] other IH] using rev_ind; [reflexivity|].
  rewrite fold_left_app, rev_app_distr. cbn [fold_left rev app dict_get fst snd].
  destruct (String.eqb_spec k1 k) as [->|Hne].
  - apply dict_get_set_same.
  - now rewrite dict_get_set_other.
Qed.

Lemma dict_get_update_none (d other : dict) (k : string) :
  dict_get other k = None ->
  dict_get (dict_update d other) k = dict_get d k.
Proof.
  intros H. rewrite dict_get_update. now rewrite (dict_get_rev_none _ _ H).
Qed.

Lemma length_params_seq (cs : list dict) :
  forall p, length (params_seq p cs) = S (length cs).
Proof.
  induction cs as [|c cs IH]; intros p; [reflexivity|].
  cbn [params_seq length]. now rewrite IH.
Qed.

(** X6.  [params.update(other)]: afterwards a key of [other] has the value
    [other] gives it (the last one, should the key occur twice) and every
    other key has the value it had; the keys of the result are those of
    both. *)
Theorem dict_update_lookup (d other : dict) (k : string) :
  dict_get (dict_update d other) k
  = match dict_get (rev other) k with
    | Some v => Some v
    | None => dict_get d k
    end
  /\ (dict_get (dict_update d other) k = None
      <-> dict_get d k = None /\ dict_get other k = None).
Proof.
  split; [apply dict_get_update|].
  rewrite dict_get_update.
  assert (R : dict_get (rev other) k = None <-> dict_get other k = None).
  { split; [|apply dict_get_rev_none].
    intros H. apply dict_get_rev_none in H. now rewrite rev_involutive in H. }
  destruct (dict_get (rev other) k) as [v|] eqn:E.
  - split; [discriminate|]. intros [_ H]. apply R in H. discriminate.
  - split; [intros H; split; [exact H | now apply R] | now intros [H _]].
Qed.

Lemma fetch_pages_ok (conts : list (list EditRecord * dict))
    (last : list EditRecord)
    (rest : list (option (list EditRecord * option dict))) :
  forall url params acc,
    fetch_pages (map cont_page conts ++ Some (last, None) :: rest)
                url params acc
    = (map (Get url) (params_seq params (map snd conts)),
       inr (acc ++ concat (map fst conts) ++ last)).
Proof.
  induction conts as [|[r c] conts IH]; intros url params acc.
  - reflexivity.
  - cbn [map app cont_page fst snd fetch_pages concat params_seq].
    cbn [bind emit]. rewrite IH. cbn [app]. now rewrite <- !app_assoc.
Qed.

Lemma fetch_pages_inr (pages : list (option (list EditRecord * option dict))) :
  forall url params acc changes,
    snd (fetch_pages pages url params acc) = inr changes ->
    exists conts last rest,
      pages = map cont_page conts ++ Some (last, None) :: rest
      /\ changes = acc ++ concat (map fst conts) ++ last.
Proof.
  induction pages as [|[[r [c|]]|] pages IH]; intros url params acc changes;
    cbn [fetch_pages]; rewrite snd_bind; cbn [emit snd sys_exit ret];
    try discriminate.
  - intros H. destruct (IH _ _ _ _ H) as (conts & last & rest & -> & ->).
    exists ((r, c) :: conts), last, rest. split; [reflexivity|].
    cbn [map fst concat]. now rewrite <- !app_assoc.
  - intros [= <-]. exists [], r, pages. split; reflexivity.
Qed.

Lemma fetch_pages_inl (pages : list (option (list EditRecord * option dict))) :
  forall url params acc o,
    snd (fetch_pages pages url params acc) = inl o ->
    exists conts rest,
      pages = map cont_page conts ++ rest
      /\ (rest = [] \/ exists rest', rest = None :: rest').
Proof.
  induction pages as [|[[r [c|]]|] pages IH]; intros url params acc o;
    cbn [fetch_pages]; rewrite snd_bind; cbn [emit snd sys_exit ret];
    try discriminate.
  - intros _. exists [], []. auto.
  - intros H. destruct (IH _ _ _ _ H) as (conts & rest & -> & Hr).
    exists ((r, c) :: conts), rest. auto.
  - intros _. exists [], (None :: pages). eauto.
Qed.

Lemma fetch_pages_stops (conts : list (list EditRecord * dict))
    (rest : list (option (list EditRecord * option dict))) :
  rest = [] \/ (exists rest', rest = None :: rest') ->
  forall url params acc,
    fetch_pages (map cont_page conts ++ rest) url params acc
    = (map (Get url) (params_seq params (map snd conts)), inl (Exit 1)).
Proof.
  intros Hr. induction conts as [|[r c] conts IH]; intros url params acc.
  - destruct Hr as [->|[rest' ->]]; reflexivity.
  - cbn [map app cont_page fst snd fetch_pages params_seq].
    cbn [bind emit]. now rewrite IH.
Qed.

(** X7.  The fetch returns exactly when the scripted pages are a run of
    pages with [continue] followed by one without; it then returns the
    records of these pages, in order, and nothing of what follows. *)
Theorem get_recent_changes_returns (w : world) (url : string)
    (start_date end_date : datetime.t) (changes : list EditRecord) :
  snd (get_recent_changes w url start_date end_date) = inr changes
  <-> exists conts last rest,
        pages w = map cont_page conts ++ Some (last, None) :: rest
        /\ changes = concat (map fst conts) ++ last.
Proof.
  unfold get_recent_changes. split.
  - intros H. apply fetch_pages_inr in H as (conts & last & rest & E & ->).
    now exists conts, last, rest.
  - intros (conts & last & rest & -> & ->). now rewrite fetch_pages_ok.
Qed.

(** X8.  The fetch fails exactly when a request fails, or the pages run
    out, before a page without [continue] has come; the run then ends with
    exit status 1 and the records fetched so far are dropped. *)
Theorem get_recent_changes_fails_iff (w : world) (url : string)
    (start_date end_date : datetime.t) (o : outcome) :
  snd (get_recent_changes w url start_date end_date) = inl o
  <-> o = Exit 1
      /\ exists conts rest,
           pages w = map cont_page conts ++ rest
           /\ (rest = [] \/ exists rest', rest = None :: rest').
Proof.
  unfold get_recent_changes. split.
  - intros H. split; [now apply fetch_pages_fails in H|].
    now apply fetch_pages_inl in H.
  - intros (-> & conts & rest & -> & Hr). now rewrite fetch_pages_stops.
Qed.

(** X9.  The requests of the fetch: one per page read, all to the same
    URL; the first asks for the window with [rcdir=older], and each
    [continue] is merged into the parameters of the request before it. *)
Theorem get_recent_changes_requests (w : world) (url : string)
    (start_date end_date : datetime.t)
    (conts : list (list EditRecord * dict)) (last : list EditRecord)
    (rest : list (option (list EditRecord * option dict))) :
  pages w = map cont_page conts ++ Some (last, None) :: rest ->
  trace (get_recent_changes w url start_date end_date)
  = map (Get url)
        (params_seq (first_params start_date end_date) (map snd conts))
  /\ length (trace (get_recent_changes w url start_date end_date))
     = S (length conts).
Proof.
  intros E. unfold get_recent_changes. rewrite E, fetch_pages_ok.
  cbn [trace fst]. split; [reflexivity|].
  now rewrite length_map, length_params_seq, length_map.
Qed.

Lemma fetch_pages_keeps (k : string)
    (pages : list (option (list EditRecord * option dict))) :
  Forall (fun c => dict_get c k = None) (continues_of pages) ->
  forall url params acc e,
    In e (trace (fetch_pages pages url params acc)) ->
    exists p, e = Get url p /\ dict_get p k = dict_get params k.
Proof.
  induction pages as [|[[r [c|]]|] pages IH]; intros Hc url params acc e;
    cbn [fetch_pages]; rewrite trace_bind; cbn [emit trace fst snd app].
  - intros [<-|[]]. eauto.
  - cbn [continues_of] in Hc. apply Forall_cons_iff in Hc as [Hk Hc].
    intros [<-|H]; [eauto|].
    destruct (IH Hc _ _ _ _ H) as (p & -> & Hp). exists p.
    split; [reflexivity|].
    now rewrite Hp, dict_get_update_none.
  - intros [<-|[]]. eauto.
  - intros [<-|[]]. eauto.
Qed.

(** X10.  A parameter that no [continue] of the server mentions, such as
    the bounds of the window, is sent unchanged with every request of the
    fetch, and every request goes to the same URL. *)
Theorem get_recent_changes_keeps (w : world) (url : string)
    (start_date end_date : datetime.t) (k : string) (e : event) :
  Forall (fun c => dict_get c k = None) (continues_of (pages w)) ->
  In e (trace (get_recent_changes w url start_date end_date)) ->
  exists p,
    e = Get url p
    /\ dict_get p k = dict_get (first_params start_date end_date) k.
Proof. intros Hc. apply fetch_pages_keeps, Hc. Qed.

Lemma get_recent_changes_keeps_witness :
  Forall (fun c => dict_get c "rcstart" = None)
         (continues_of (pages two_page_world))
  /\ In (Get "https://w.example.org/w/api.php"
             (dict_update (first_params jan06 dec31)
                [("rccontinue", "20240102093000|11"); ("continue", "-||")]))
        (trace (get_recent_changes two_page_world
                  "https://w.example.org/w/api.php" jan06 dec31))
  /\ exists p,
       Get "https://w.example.org/w/api.php"
           (dict_update (first_params jan06 dec31)
              [("rccontinue", "20240102093000|11"); ("continue", "-||")])
       = Get "https://w.example.org/w/api.php" p
       /\ dict_get p "rcstart" = dict_get (first_params jan06 dec31) "rcstart".
Proof.
  assert (H1 : Forall (fun c => dict_get c "rcstart" = None)
                      (continues_of (pages two_page_world)))
    by (repeat constructor).
  assert (H2 : In (Get "https://w.example.org/w/api.php"
                       (dict_update (first_params jan06 dec31)
                          [("rccontinue", "20240102093000|11");
                           ("continue", "-||")]))
                  (trace (get_recent_changes two_page_world
                            "https://w.example.org/w/api.php" jan06 dec31)))
    by (right; left; reflexivity).
  split; [exact H1|]. split; [exact H2|].
  exact (get_recent_changes_keeps _ _ _ _ _ _ H1 H2).
Defined.

Lemma get_recent_changes_requests_witness :
  pages two_page_world
  = map cont_page [([rcA1], [("rccontinue", "20240102093000|11");
                             ("continue", "-||")])]
    ++ Some ([rcA2; rcB], None) :: []
  /\ length (trace (get_recent_changes two_page_world
                      "https://w.example.org/w/api.php" jan06 dec31))
     = 2%nat.
Proof.
  assert (H : pages two_page_world
              = map cont_page [([rcA1], [("rccontinue", "20240102093000|11");
                                         ("continue", "-||")])]
                ++ Some ([rcA2; rcB], None) :: []) by reflexivity.
  split; [exact H|].
  exact (proj2 (get_recent_changes_requests two_page_world
                  "https://w.example.org/w/api.php" jan06 dec31 _ _ _ H)).
Defined.

(** ** The run: how it ends and what it sends *)

Lemma result_bind_pair {A : Type} (t : list event) (a : A)
    (f : A -> proc unit) :
  result (bind (t, inr a) f) = result (f a).
Proof. unfold result. now rewrite bind_pair. Qed.

Lemma truthy_absent (env : environ) (name : string) :
  ~ absent env name <-> exists v, truthy (getenv env name) = Some v.
Proof.
  unfold absent. destruct (truthy (getenv env name)) as [v|].
  - split; [eauto | discriminate].
  - split; [congruence | intros [v H]; discriminate].
Qed.

(** [report] on a change set that is not empty. *)
Lemma report_cons (env : environ) (w : world) (domain : string)
    (start_date end_date : datetime.t) (recipient_email : string)
    (rc : EditRecord) (rest : list EditRecord) :
  report env w (Some domain) start_date end_date recipient_email (rc :: rest)
  = match snd (format_changes (rc :: rest) ("https://" ++ domain) end_date
                 start_date (before_dot domain)) with
    | None => ([Call_format_changes], inl (Uncaught "ValueError"))
    | Some html_output =>
        let m :=
          send_email env w
            ("Weekly " ++ domain ++ " report: "
               ++ datetime.strftime_bd start_date ++ " - "
               ++ datetime.strftime_bd end_date)
            html_output recipient_email in
        (Call_format_changes :: trace m,
         match snd m with
         | inl o => inl o
         | inr status_code =>
             if status_code =? 200 then inr tt else inl (Exit 1)
         end)
    end.
Proof.
  unfold report. cbn [option_map lift fstr get bind ret emit app].
  destruct (snd (format_changes (rc :: rest) ("https://" ++ domain) end_date
                   start_date (before_dot domain))) as [html_output|];
    [|reflexivity].
  cbn [lift bind ret app]. cbv zeta.
  destruct (send_email env w _ html_output recipient_email)
    as [tm [o|status]]; cbn [bind trace fst snd app]; [reflexivity|].
  destruct (status =? 200); cbn [ret sys_exit]; now rewrite app_nil_r.
Qed.

Lemma send_email_present (env : environ) (w : world)
    (subject html_content recipient_email : string) :
  ~ absent env "MAILGUN_API_KEY" -> ~ absent env "MAILGUN_DOMAIN" ->
  ~ absent env "SENDER_EMAIL" ->
  exists url auth data,
    send_email env w subject html_content recipient_email
    = ([Post url (Some auth) data],
       match mail_reply w with
       | Some status_code => inr status_code
       | None => inl (Uncaught "RequestException")
       end)
    /\ dict_get data "to" = Some recipient_email
    /\ dict_get data "subject" = Some subject
    /\ dict_get data "html" = Some html_content.
Proof.
  intros (k & Hk)%truthy_absent (d & Hd)%truthy_absent (s & Hs)%truthy_absent.
  unfold send_email. rewrite Hk, Hd, Hs.
  eexists. eexists. eexists.
  split; [destruct (mail_reply w); reflexivity|].
  repeat split.
Qed.

Lemma absent_dec (env : environ) (name : string) :
  absent env name \/ ~ absent env name.
Proof.
  unfold absent. destruct (truthy (getenv env name)); [right|left];
    congruence.
Qed.

(** How [report] ends. *)
Lemma report_result (env : environ) (w : world) (sat sun : datetime.date)
    (recipient_email : string) (changes : list EditRecord) :
  result (report env w (getenv env "BASE_DOMAIN")
            (datetime.combine sun datetime.time_min)
            (datetime.combine sat datetime.time_max) recipient_email changes)
  = Exit 0
  <-> changes = []
      \/ (exists html_output, sendable env sat sun changes html_output)
         /\ mail_reply w = Some 200.
Proof.
  unfold sendable.
  destruct changes as [|rc rest].
  { split; [auto | reflexivity]. }
  destruct (getenv env "BASE_DOMAIN") as [domain|].
  2:{ split; [discriminate|].
      intros [H|[(html & d & H & _) _]]; discriminate. }
  rewrite report_cons.
  destruct (snd (format_changes (rc :: rest) ("https://" ++ domain)
                   (datetime.combine sat datetime.time_max)
                   (datetime.combine sun datetime.time_min)
                   (before_dot domain))) as [html_output|] eqn:Hh.
  2:{ split; [discriminate|].
      intros [H|[(html & d & [= <-] & H & _) _]]; [discriminate|].
      rewrite Hh in H. discriminate. }
  cbv zeta.
  destruct (absent_dec env "MAILGUN_API_KEY") as [Hk|Hk];
    [|destruct (absent_dec env "MAILGUN_DOMAIN") as [Hd|Hd];
      [|destruct (absent_dec env "SENDER_EMAIL") as [Hs|Hs]]].
  1-3: rewrite send_email_absent by auto; split; [discriminate|];
       intros [H|[(html & d & _ & _ & H1 & H2 & H3) _]];
       [discriminate | contradiction..].
  destruct (send_email_present env w
              ("Weekly " ++ domain ++ " report: "
                 ++ datetime.strftime_bd
                      (datetime.combine sun datetime.time_min)
                 ++ " - "
                 ++ datetime.strftime_bd
                      (datetime.combine sat datetime.time_max))
              html_output recipient_email Hk Hd Hs)
    as (url & auth & data & -> & _).
  cbn [trace fst snd result].
  destruct (mail_reply w) as [status|].
  - destruct (Z.eqb_spec status 200) as [->|Hne]; cbn [result snd].
    + split; [intros _; right|reflexivity].
      split; [|reflexivity]. exists html_output, domain. auto.
    + split; [discriminate|].
      intros [H|[_ [= H]]]; [discriminate | contradiction].
  - split; [discriminate|]. intros [H|[_ H]]; discriminate.
Qed.

(** X11.  The run ends with exit status 0 exactly when it has logged in and
    fetched and either there was no change, or the report could be
    formatted and sent and the mail provider answered 200. *)
Theorem main_succeeds_iff (env : environ) (today : datetime.date)
    (w : world) :
  result (main env today w) = Exit 0
  <-> exists sat sun recipient_email changes,
        fetched env today w sat sun recipient_email changes
        /\ (changes = []
            \/ (exists html_output, sendable env sat sun changes html_output)
               /\ mail_reply w = Some 200).
Proof.
  split.
  - destruct (main_cases env today w)
      as [(sat & sun & r & changes & t & Hf & _ & ->)
         |(t & o & -> & _ & Ho & _)].
    + rewrite result_bind_pair. intros H. apply report_result in H.
      now exists sat, sun, r, changes.
    + unfold result. cbn [snd]. congruence.
  - intros (sat & sun & r & changes & Hf & H).
    destruct (main_fetched _ _ _ _ _ _ _ Hf) as (t & _ & ->).
    rewrite result_bind_pair. now apply report_result.
Qed.

(** What [report] adds to the events. *)
Lemma report_trace (env : environ) (w : world) (sat sun : datetime.date)
    (recipient_email : string) (changes : list EditRecord) :
  let r := report env w (getenv env "BASE_DOMAIN")
             (datetime.combine sun datetime.time_min)
             (datetime.combine sat datetime.time_max) recipient_email
             changes in
  (trace r = [] \/ trace r = [Call_format_changes])
  /\ (forall html_output, ~ (changes <> []
                             /\ sendable env sat sun changes html_output))
  \/ exists html_output url auth data,
       changes <> [] /\ sendable env sat sun changes html_output
       /\ trace r = [Call_format_changes; Post url (Some auth) data]
       /\ dict_get data "to" = Some recipient_email
       /\ dict_get data "html" = Some html_output.
Proof.
  cbv zeta. unfold sendable.
  destruct changes as [|rc rest].
  { left. split; [now left|]. now intros html [H _]. }
  destruct (getenv env "BASE_DOMAIN") as [domain|].
  2:{ left. split; [now left|]. intros html [_ (d & H & _)]. discriminate. }
  rewrite report_cons.
  destruct (snd (format_changes (rc :: rest) ("https://" ++ domain)
                   (datetime.combine sat datetime.time_max)
                   (datetime.combine sun datetime.time_min)
                   (before_dot domain))) as [html_output|] eqn:Hh.
  2:{ left. split; [now right|].
      intros html [_ (d & [= <-] & H & _)]. rewrite Hh in H. discriminate. }
  cbv zeta.
  destruct (absent_dec env "MAILGUN_API_KEY") as [Hk|Hk];
    [|destruct (absent_dec env "MAILGUN_DOMAIN") as [Hd|Hd];
      [|destruct (absent_dec env "SENDER_EMAIL") as [Hs|Hs]]].
  1-3: left; rewrite send_email_absent by auto;
       split; [now right|];
       intros html [_ (d & _ & _ & H1 & H2 & H3)]; contradiction.
  right.
  destruct (send_email_present env w
              ("Weekly " ++ domain ++ " report: "
                 ++ datetime.strftime_bd
                      (datetime.combine sun datetime.time_min)
                 ++ " - "
                 ++ datetime.strftime_bd
                      (datetime.combine sat datetime.time_max))
              html_output recipient_email Hk Hd Hs)
    as (url & auth & data & -> & Hto & _ & Hhtml).
  exists html_output, url, auth, data.
  split; [discriminate|]. split; [exists domain; auto|].
  cbn [trace fst]. auto.
Qed.

(** X12.  The events of a run are wiki requests, then at most one call of
    [format_changes], then at most one post to the mail provider, which
    comes last and only after the call of [format_changes]. *)
Theorem main_trace_shape (env : environ) (today : datetime.date) (w : world) :
  exists t,
    quiet t
    /\ (trace (main env today w) = t
        \/ trace (main env today w) = t ++ [Call_format_changes]
        \/ exists url auth data,
             trace (main env today w)
             = t ++ [Call_format_changes; Post url (Some auth) data]).
Proof.
  destruct (main_cases env today w)
    as [(sat & sun & r & changes & t & Hf & Hq & ->)
       |(t & o & -> & Hq & _ & _)].
  - exists t. split; [exact Hq|]. rewrite bind_pair. cbn [trace fst].
    destruct (report_trace env w sat sun r changes)
      as [[[E|E] _]|(html & url & auth & data & _ & _ & E & _)];
      cbv zeta in E; rewrite E.
    + left. apply app_nil_r.
    + right. now left.
    + right. right. eauto.
  - exists t. split; [exact Hq|]. now left.
Qed.


(** X14.  The wiki is called in a fixed order: first the token request,
    then the login with the configured user, password and the token
    received, and anything further only after the login has answered
    [Success].  A run without events is one that lacks the user name, the
    password or the recipient. *)
Theorem wiki_requests_in_order (env : environ) (today : datetime.date)
    (w : world) :
  match trace (main env today w) with
  | [] =>
      absent env "MW_USERNAME" \/ absent env "MW_PASSWORD"
      \/ absent env "RECIPIENT_EMAIL"
  | e1 :: rest1 =>
      e1 = Get (api_url env) token_params
      /\ match rest1 with
         | [] => token_reply w = None
         | e2 :: rest2 =>
             exists username password login_token,
               e2 = Post (api_url env) None
                         (login_params username password login_token)
               /\ truthy (getenv env "MW_USERNAME") = Some username
               /\ truthy (getenv env "MW_PASSWORD") = Some password
               /\ token_reply w = Some login_token
               /\ (rest2 <> [] -> login_reply w = Some "Success")
         end
  end.
Proof.
  unfold main, absent.
  destruct (truthy (getenv env "MW_USERNAME")) as [username|]; [|now left].
  destruct (truthy (getenv env "MW_PASSWORD")) as [password|];
    [|right; now left].
  destruct (truthy (getenv env "RECIPIENT_EMAIL")) as [recipient|];
    [|right; now right].
  rewrite trace_bind. unfold get_login_token at 1 2.
  rewrite trace_bind, snd_bind. cbn [emit trace fst snd app].
  split; [reflexivity|].
  destruct (token_reply w) as [token|]; [|reflexivity].
  cbn [ret trace fst snd app]. rewrite trace_bind. unfold login at 1 2.
  rewrite trace_bind, snd_bind. cbn [emit trace fst snd app].
  exists username, password, token.
  repeat (split; [reflexivity|]).
  destruct (login_reply w) as [r|]; [|now intros H].
  destruct (String.eqb_spec r "Success") as [->|Hne]; [reflexivity|].
  cbn [negb sys_exit trace fst snd app]. now intros H.
Qed.

(** ** The window on every day *)

(** X15.  On every date from 0001-01-15 on the window exists and is a
    completed Sunday-to-Saturday week: its end is a Saturday before today
    and at most eight days back, its start the Sunday six days earlier;
    from Monday to Saturday it is the most recently completed week. *)
Theorem window_is_completed_week (today : datetime.date) :
  15 <= today <= datetime.MAXORDINAL ->
  exists sat sun,
    last_saturday today = Some sat
    /\ last_sunday today = Some sun
    /\ datetime.weekday sat = 5
    /\ datetime.weekday sun = 6
    /\ sun = sat - 6
    /\ today - 8 <= sat < today
    /\ (datetime.weekday today <> 6 -> completed_saturday today sat).
Proof.
  intros Ht. unfold datetime.MAXORDINAL in Ht.
  assert (Hw : 0 <= datetime.weekday today < 7)
    by (apply Z.mod_pos_bound; lia).
  assert (Hsat : last_saturday today
                 = Some (today - (datetime.weekday today + 2))).
  { unfold last_saturday, datetime.date_sub, datetime.MAXORDINAL.
    destruct (_ && _) eqn:E; [reflexivity|].
    apply andb_false_iff in E as [E|E]; apply Z.leb_gt in E; lia. }
  assert (Hsun : last_sunday today
                 = Some (today - (datetime.weekday today + 2) - 6)).
  { unfold last_sunday. rewrite Hsat. cbn [obind].
    unfold datetime.date_sub, datetime.MAXORDINAL.
    destruct (_ && _) eqn:E; [reflexivity|].
    apply andb_false_iff in E as [E|E]; apply Z.leb_gt in E; lia. }
  eexists. eexists. split; [exact Hsat|]. split; [exact Hsun|].
  destruct (window_weekdays _ _ _ Hsat Hsun) as (W1 & _ & W2).
  split; [exact W1|]. split; [exact W2|]. split; [reflexivity|].
  split; [lia|].
  intros Hne. now apply window_monday_to_saturday.
Qed.

Lemma window_is_completed_week_witness :
  15 <= wed_2024_01_10 <= datetime.MAXORDINAL
  /\ exists sat sun,
       last_saturday wed_2024_01_10 = Some sat
       /\ last_sunday wed_2024_01_10 = Some sun
       /\ datetime.weekday sat = 5
       /\ datetime.weekday sun = 6
       /\ sun = sat - 6
       /\ wed_2024_01_10 - 8 <= sat < wed_2024_01_10
       /\ (datetime.weekday wed_2024_01_10 <> 6 ->
           completed_saturday wed_2024_01_10 sat).
Proof.
  assert (H : 15 <= wed_2024_01_10 <= datetime.MAXORDINAL)
    by (unfold wed_2024_01_10, datetime.MAXORDINAL; lia).
  split; [exact H|]. exact (window_is_completed_week _ H).
Defined.

(** ** Timestamps in the wiki's format *)

Lemma p_bind_first {A B : Type} (p : datetime.parser A)
    (f : A -> datetime.parser B) (s r : string) (a : A)
    (l : list (A * string)) (x : B * string) :
  p s = (a, r) :: l ->
  hd_error (f a r) = Some x ->
  hd_error (datetime.p_bind p f s) = Some x.
Proof.
  intros Hp Hf. unfold datetime.p_bind. rewrite Hp. cbn [flat_map fst snd].
  destruct (f a r); [discriminate|exact Hf].
Qed.

(** Run a proof for every integer of a range. *)
Lemma below_ind (P : Z -> Prop) (n : nat) :
  (forall k : nat, (k < n)%nat -> P (Z.of_nat k)) ->
  forall z, 0 <= z < Z.of_nat n -> P z.
Proof.
  intros H z Hz. rewrite <- (Z2Nat.id z) by lia. apply H. lia.
Qed.

Ltac each_nat k :=
  first [ exfalso; lia
        | destruct k as [|k];
          [ intros; first [ exfalso; lia | vm_compute; reflexivity ]
          | each_nat k ] ].

Ltac each_below n :=
  let z := fresh "z" in
  let Hz := fresh "Hz" in
  let k := fresh "k" in
  let Hk := fresh "Hk" in
  intros z Hz; pattern z;
  match goal with
  | |- ?P z => refine (below_ind P n _ z Hz); clear z Hz; intros k Hk;
               each_nat k
  end.

Lemma is_digit_digit (d : Z) : is_digit (digit d) = true.
Proof.
  unfold digit.
  assert (H : 0 <= d mod 10 < 10) by (apply Z.mod_pos_bound; lia).
  revert H. generalize (d mod 10). intros z Hz. revert z Hz.
  each_below 10%nat.
Qed.

Lemma digit_val_digit (d : Z) : digit_val (digit d) = d mod 10.
Proof.
  unfold digit.
  assert (H : 0 <= d mod 10 < 10) by (apply Z.mod_pos_bound; lia).
  revert H. generalize (d mod 10). intros z Hz. revert z Hz.
  each_below 10%nat.
Qed.

Lemma p_bind_hd {A B : Type} (p : datetime.parser A)
    (f : A -> datetime.parser B) (s r : string) (a : A) (x : B * string) :
  hd_error (p s) = Some (a, r) ->
  hd_error (f a r) = Some x ->
  hd_error (datetime.p_bind p f s) = Some x.
Proof.
  intros Hp. destruct (p s) as [|[a' r'] l] eqn:E; [discriminate|].
  injection Hp as -> ->. now apply (p_bind_first p f s r a l).
Qed.

Lemma int_pad2 (n : Z) : 0 <= n < 100 -> int (pad2 n) = n.
Proof. revert n. each_below 100%nat. Qed.

Lemma int_pad4 (y : Z) : 0 <= y < 10000 -> int (pad4 y) = y.
Proof.
  intros Hy. unfold int, pad4, pad2. cbn [int_digits].
  rewrite !is_digit_digit, !digit_val_digit.
  Z.div_mod_to_equations. lia.
Qed.

Lemma re_Y_pad4 (y : Z) (rest : string) :
  hd_error (datetime.re_Y (pad4 y ++ rest)%string) = Some (pad4 y, rest).
Proof.
  unfold datetime.re_Y, datetime.p_two, datetime.p_bind, datetime.p_char,
    datetime.p_ret, pad4, pad2.
  cbn [append].
  repeat (rewrite is_digit_digit; cbn [flat_map fst snd app append]).
  reflexivity.
Qed.

Lemma re_m_pad2 (n : Z) (rest : string) :
  1 <= n <= 12 ->
  hd_error (datetime.re_m (pad2 n ++ rest)%string) = Some (pad2 n, rest).
Proof.
  intros H. assert (B : 0 <= n < 13) by lia. revert H. revert n B.
  each_below 13%nat.
Qed.

Lemma re_d_pad2 (n : Z) (rest : string) :
  1 <= n <= 31 ->
  hd_error (datetime.re_d (pad2 n ++ rest)%string) = Some (pad2 n, rest).
Proof.
  intros H. assert (B : 0 <= n < 32) by lia. revert H. revert n B.
  each_below 32%nat.
Qed.

Lemma re_H_pad2 (n : Z) (rest : string) :
  0 <= n <= 23 ->
  hd_error (datetime.re_H (pad2 n ++ rest)%string) = Some (pad2 n, rest).
Proof.
  intros H. assert (B : 0 <= n < 24) by lia. revert H. revert n B.
  each_below 24%nat.
Qed.

Lemma re_M_pad2 (n : Z) (rest : string) :
  0 <= n <= 59 ->
  hd_error (datetime.re_M (pad2 n ++ rest)%string) = Some (pad2 n, rest).
Proof.
  intros H. assert (B : 0 <= n < 60) by lia. revert H. revert n B.
  each_below 60%nat.
Qed.

Lemma re_S_pad2 (n : Z) (rest : string) :
  0 <= n <= 59 ->
  hd_error (datetime.re_S (pad2 n ++ rest)%string) = Some (pad2 n, rest).
Proof.
  intros H. assert (B : 0 <= n < 60) by lia. revert H. revert n B.
  each_below 60%nat.
Qed.

Lemma days_in_month_le (y m : Z) : datetime.days_in_month y m <= 31.
Proof.
  unfold datetime.days_in_month, datetime.DAYS_IN_MONTH.
  destruct (_ && _); [lia|].
  destruct m as [|p|p]; try lia.
  do 4 (destruct p as [p|p|]; try lia).
Qed.

Lemma format_regex_iso (dt : datetime.t) :
  valid_datetime dt ->
  hd_error (datetime.format_regex (datetime.strftime_iso dt))
  = Some (seconds_only dt, EmptyString).
Proof.
  intros (Hy & Hm & Hd & HH & HM & HS).
  pose proof (days_in_month_le (datetime.year dt) (datetime.month dt)) as Hd31.
  unfold datetime.strftime_iso, datetime.strftime_Ymd, datetime.strftime_HM,
    datetime.format_regex.
  rewrite !append_assoc.
  eapply p_bind_hd; [apply re_Y_pad4|].
  eapply p_bind_hd; [reflexivity|].
  eapply p_bind_hd; [apply re_m_pad2; lia|].
  eapply p_bind_hd; [reflexivity|].
  eapply p_bind_hd; [apply re_d_pad2; lia|].
  eapply p_bind_hd; [reflexivity|].
  eapply p_bind_hd; [apply re_H_pad2; lia|].
  eapply p_bind_hd; [reflexivity|].
  eapply p_bind_hd; [apply re_M_pad2; lia|].
  eapply p_bind_hd; [reflexivity|].
  eapply p_bind_hd; [apply re_S_pad2; lia|].
  eapply p_bind_hd; [reflexivity|].
  unfold datetime.p_ret, seconds_only. cbn [hd_error].
  rewrite int_pad4, !int_pad2 by lia. reflexivity.
Qed.

Lemma strptime_iso (dt : datetime.t) :
  valid_datetime dt ->
  datetime.strptime (datetime.strftime_iso dt) = Some (seconds_only dt).
Proof.
  intros Hv. pose proof (format_regex_iso dt Hv) as F.
  destruct Hv as (Hy & Hm & Hd & HH & HM & HS).
  unfold datetime.strptime.
  destruct (datetime.format_regex (datetime.strftime_iso dt))
    as [|[dt' rest'] l]; [discriminate|].
  injection F as -> ->. cbn [String.eqb negb seconds_only datetime.year
    datetime.month datetime.day datetime.second].
  replace (1 <=? datetime.year dt) with true by (symmetry; apply Z.leb_le; lia).
  replace (datetime.day dt
           <=? datetime.days_in_month (datetime.year dt) (datetime.month dt))
    with true by (symmetry; apply Z.leb_le; lia).
  replace (datetime.second dt <=? 59) with true
    by (symmetry; apply Z.leb_le; lia).
  reflexivity.
Qed.

(** *** The order of the keys is the order of time *)

Lemma code_digit (d : Z) : code (digit d) = 48 + d mod 10.
Proof.
  unfold digit.
  assert (H : 0 <= d mod 10 < 10) by (apply Z.mod_pos_bound; lia).
  revert H. generalize (d mod 10). each_below 10%nat.
Qed.

Lemma ascii_compare_code (c1 c2 : ascii) :
  Ascii.compare c1 c2 = (code c1 ?= code c2).
Proof. unfold Ascii.compare, code. now rewrite N2Z.inj_compare. Qed.

Lemma compare_digit (a b : Z) :
  Ascii.compare (digit a) (digit b) = (a mod 10 ?= b mod 10).
Proof.
  rewrite ascii_compare_code, !code_digit. apply Z.add_compare_mono_l.
Qed.

Lemma compare_pad2 (m n : Z) (s t : string) :
  0 <= m < 100 -> 0 <= n < 100 ->
  String.compare (pad2 m ++ s) (pad2 n ++ t)
  = match m ?= n with
    | Eq => String.compare s t
    | c => c
    end.
Proof.
  intros Hm Hn. unfold pad2. cbn [append String.compare].
  rewrite !compare_digit.
  destruct (Z.compare_spec ((m / 10) mod 10) ((n / 10) mod 10)) as [E1|L1|G1];
    [destruct (Z.compare_spec (m mod 10) (n mod 10)) as [E2|L2|G2]|..];
    destruct (Z.compare_spec m n) as [E|L|G]; try reflexivity;
    exfalso; Z.div_mod_to_equations; lia.
Qed.

Lemma compare_pad4 (m n : Z) (s t : string) :
  0 <= m < 10000 -> 0 <= n < 10000 ->
  String.compare (pad4 m ++ s) (pad4 n ++ t)
  = match m ?= n with
    | Eq => String.compare s t
    | c => c
    end.
Proof.
  intros Hm Hn. unfold pad4, pad2. cbn [append String.compare].
  rewrite !compare_digit.
  destruct (Z.compare_spec ((m / 1000) mod 10) ((n / 1000) mod 10))
    as [E1|L1|G1];
    [destruct (Z.compare_spec ((m / 100) mod 10) ((n / 100) mod 10))
       as [E2|L2|G2];
     [destruct (Z.compare_spec ((m / 10) mod 10) ((n / 10) mod 10))
        as [E3|L3|G3];
      [destruct (Z.compare_spec (m mod 10) (n mod 10)) as [E4|L4|G4]|..]|..]
    |..];
    destruct (Z.compare_spec m n) as [E|L|G]; try reflexivity;
    exfalso; Z.div_mod_to_equations; lia.
Qed.

Lemma days_before_year_succ (y : Z) :
  datetime.days_before_year (y + 1)
  = datetime.days_before_year y + 365
    + (if datetime.is_leap y then 1 else 0).
Proof.
  unfold datetime.days_before_year, datetime.is_leap. cbv zeta.
  replace (y + 1 - 1) with y by lia.
  destruct (Z.eqb_spec (y mod 4) 0) as [E4|E4];
    destruct (Z.eqb_spec (y mod 100) 0) as [E100|E100];
    destruct (Z.eqb_spec (y mod 400) 0) as [E400|E400];
    cbn [negb andb orb]; Z.div_mod_to_equations; lia.
Qed.

Lemma days_before_year_mono (y1 y2 : Z) :
  y1 <= y2 -> datetime.days_before_year y1 <= datetime.days_before_year y2.
Proof.
  intros H. unfold datetime.days_before_year. cbv zeta.
  Z.div_mod_to_equations. lia.
Qed.

Ltac month_cases m :=
  let E := fresh "E" in
  assert (E : m = 1 \/ m = 2 \/ m = 3 \/ m = 4 \/ m = 5 \/ m = 6 \/ m = 7
              \/ m = 8 \/ m = 9 \/ m = 10 \/ m = 11 \/ m = 12) by lia;
  destruct E as [E|[E|[E|[E|[E|[E|[E|[E|[E|[E|[E|E]]]]]]]]]]]; subst m.

(** The day of the year of a date of the calendar. *)
Lemma day_of_year_bounds (y m d : Z) :
  1 <= m <= 12 -> 1 <= d <= datetime.days_in_month y m ->
  1 <= datetime.days_before_month y m + d
    <= 365 + (if datetime.is_leap y then 1 else 0).
Proof.
  intros Hm. unfold datetime.days_before_month, datetime.days_in_month.
  month_cases m; destruct (datetime.is_leap y); cbn -[Z.add]; lia.
Qed.

Lemma day_of_year_mono (y m1 d1 m2 d2 : Z) :
  1 <= m1 <= 12 -> 1 <= m2 <= 12 ->
  1 <= d1 <= datetime.days_in_month y m1 ->
  1 <= d2 <= datetime.days_in_month y m2 ->
  m1 < m2 ->
  datetime.days_before_month y m1 + d1 < datetime.days_before_month y m2 + d2.
Proof.
  intros H1 H2. unfold datetime.days_before_month, datetime.days_in_month.
  month_cases m1; month_cases m2; intros D1 D2 Hlt; try (exfalso; lia);
    destruct (datetime.is_leap y); cbn -[Z.add] in *; lia.
Qed.

(** The ordinal grows with the date. *)
Lemma ymd2ord_lt (y1 m1 d1 y2 m2 d2 : Z) :
  1 <= m1 <= 12 -> 1 <= m2 <= 12 ->
  1 <= d1 <= datetime.days_in_month y1 m1 ->
  1 <= d2 <= datetime.days_in_month y2 m2 ->
  y1 < y2 \/ y1 = y2 /\ (m1 < m2 \/ m1 = m2 /\ d1 < d2) ->
  datetime.ymd2ord y1 m1 d1 < datetime.ymd2ord y2 m2 d2.
Proof.
  intros H1 H2 D1 D2 H. unfold datetime.ymd2ord.
  destruct H as [Hy|[-> [Hm|[-> Hd]]]].
  - pose proof (day_of_year_bounds y1 m1 d1 H1 D1) as B1.
    pose proof (day_of_year_bounds y2 m2 d2 H2 D2) as B2.
    pose proof (days_before_year_succ y1) as S.
    pose proof (days_before_year_mono (y1 + 1) y2 ltac:(lia)) as M.
    lia.
  - pose proof (day_of_year_mono y2 m1 d1 m2 d2 H1 H2 D1 D2 Hm). lia.
  - lia.
Qed.

(** The order of two date-times by their fields, from the year down. *)
Lemma epoch_compare (a b : datetime.t) :
  valid_datetime a -> valid_datetime b ->
  (epoch a ?= epoch b)
  = match datetime.year a ?= datetime.year b with
    | Eq =>
      match datetime.month a ?= datetime.month b with
      | Eq =>
        match datetime.day a ?= datetime.day b with
        | Eq =>
          match datetime.hour a ?= datetime.hour b with
          | Eq =>
            match datetime.minute a ?= datetime.minute b with
            | Eq => datetime.second a ?= datetime.second b
            | c => c
            end
          | c => c
          end
        | c => c
        end
      | c => c
      end
    | c => c
    end.
Proof.
  intros (Ya & Ma & Da & Ha & Mia & Sa) (Yb & Mb & Db & Hb & Mib & Sb).
  unfold epoch, datetime.toordinal.
  destruct a as [ya ma da ha mia sa ua], b as [yb mb db hb mib sb ub].
  cbn [datetime.year datetime.month datetime.day datetime.hour
       datetime.minute datetime.second] in *.
  pose proof (ymd2ord_lt ya ma da yb mb db Ma Mb Da Db) as Lab.
  pose proof (ymd2ord_lt yb mb db ya ma da Mb Ma Db Da) as Lba.
  destruct (Z.compare_spec ya yb) as [Ey|Ly|Gy];
    [destruct (Z.compare_spec ma mb) as [Em|Lm|Gm];
     [destruct (Z.compare_spec da db) as [Ed|Ld|Gd];
      [destruct (Z.compare_spec ha hb) as [Eh|Lh|Gh];
       [destruct (Z.compare_spec mia mib) as [Ei|Li|Gi];
        [destruct (Z.compare_spec sa sb) as [Es|Ls|Gs]|..]|..]|..]|..]|..];
    first [ apply Z.compare_eq_iff | apply Z.compare_lt_iff
          | apply Z.compare_gt_iff ];
    subst;
    try (assert (O : datetime.ymd2ord ya ma da < datetime.ymd2ord yb mb db)
           by (apply Lab; lia));
    try (assert (O : datetime.ymd2ord yb mb db < datetime.ymd2ord ya ma da)
           by (apply Lba; lia));
    lia.
Qed.

Lemma compare_lit (c : ascii) (s t : string) :
  String.compare (String c s) (String c t) = String.compare s t.
Proof.
  cbn [String.compare]. unfold Ascii.compare. now rewrite N.compare_refl.
Qed.

Lemma compare_iso (a b : datetime.t) :
  valid_datetime a -> valid_datetime b ->
  String.compare (datetime.strftime_iso a) (datetime.strftime_iso b)
  = (epoch a ?= epoch b).
Proof.
  intros Ha Hb. rewrite (epoch_compare a b Ha Hb).
  destruct Ha as (Ya & Ma & Da & Ha & Mia & Sa).
  destruct Hb as (Yb & Mb & Db & Hb & Mib & Sb).
  pose proof (days_in_month_le (datetime.year a) (datetime.month a)).
  pose proof (days_in_month_le (datetime.year b) (datetime.month b)).
  unfold datetime.strftime_iso, datetime.strftime_Ymd, datetime.strftime_HM.
  rewrite !append_assoc.
  rewrite compare_pad4 by lia.
  destruct (datetime.year a ?= datetime.year b); try reflexivity.
  cbn [append]. rewrite compare_lit, compare_pad2 by lia.
  destruct (datetime.month a ?= datetime.month b); try reflexivity.
  cbn [append]. rewrite compare_lit, compare_pad2 by lia.
  destruct (datetime.day a ?= datetime.day b); try reflexivity.
  cbn [append]. rewrite compare_lit, compare_pad2 by lia.
  destruct (datetime.hour a ?= datetime.hour b); try reflexivity.
  cbn [append]. rewrite compare_lit, compare_pad2 by lia.
  destruct (datetime.minute a ?= datetime.minute b); try reflexivity.
  cbn [append]. rewrite compare_lit, compare_pad2 by lia.
  now destruct (datetime.second a ?= datetime.second b).
Qed.


Lemma valid_jan06 : valid_datetime jan06.
Proof. vm_compute. intuition discriminate. Qed.


Lemma string_compare_refl (s : string) : String.compare s s = Eq.
Proof.
  induction s as [|c s IH]; [reflexivity|]. now rewrite compare_lit.
Qed.

(** X17.  For timestamps in the format of the wiki the sort key orders as
    time does: one key is below another exactly when its instant is
    earlier, and two keys are equal exactly when the instants are. *)
Theorem key_order_is_time_order (a b : datetime.t) :
  valid_datetime a -> valid_datetime b ->
  (String.ltb (datetime.strftime_iso a) (datetime.strftime_iso b) = true
   <-> epoch a < epoch b)
  /\ (datetime.strftime_iso a = datetime.strftime_iso b
      <-> epoch a = epoch b).
Proof.
  intros Ha Hb. pose proof (compare_iso a b Ha Hb) as C.
  unfold String.ltb. split.
  - rewrite C. destruct (Z.compare_spec (epoch a) (epoch b));
      split; intros; try lia; try discriminate; reflexivity.
  - split.
    + intros E. rewrite E, string_compare_refl in C.
      symmetry in C. now apply Z.compare_eq_iff in C.
    + intros E. apply String.compare_eq_iff. rewrite C.
      now apply Z.compare_eq_iff.
Qed.

Lemma valid_dec31 : valid_datetime dec31.
Proof. vm_compute. intuition discriminate. Qed.

Lemma key_order_is_time_order_witness :
  valid_datetime dec31 /\ valid_datetime jan06
  /\ (String.ltb (datetime.strftime_iso dec31) (datetime.strftime_iso jan06)
      = true
      <-> epoch dec31 < epoch jan06).
Proof.
  split; [exact valid_dec31|]. split; [exact valid_jan06|].
  exact (proj1 (key_order_is_time_order _ _ valid_dec31 valid_jan06)).
Defined.

Lemma epoch_seconds_only (dt : datetime.t) : epoch (seconds_only dt) = epoch dt.
Proof. reflexivity. Qed.

Lemma canonical_epoch (rc : EditRecord) (dt : datetime.t) :
  valid_datetime dt -> timestamp rc = datetime.strftime_iso dt ->
  epoch_of rc = epoch dt /\ parses rc.
Proof.
  intros Hv E. unfold epoch_of, parses. rewrite E, strptime_iso by exact Hv.
  split; [apply epoch_seconds_only | discriminate].
Qed.

Lemma canonical_parses (rc : EditRecord) : canonical rc -> parses rc.
Proof. intros (dt & Hv & E). now apply (canonical_epoch rc dt). Qed.

Lemma canonical_desc (r1 r2 : EditRecord) :
  canonical r1 -> canonical r2 -> desc r1 r2 ->
  epoch_of r2 <= epoch_of r1.
Proof.
  intros (a & Ha & Ea) (b & Hb & Eb) D.
  destruct (canonical_epoch r1 a Ha Ea) as [-> _].
  destruct (canonical_epoch r2 b Hb Eb) as [-> _].
  unfold desc, key in D. rewrite Ea, Eb in D.
  unfold String.ltb in D. rewrite compare_iso in D by assumption.
  destruct (Z.compare_spec (epoch a) (epoch b)); try discriminate; lia.
Qed.

Lemma sorted_descending (l : list EditRecord) :
  Forall canonical l -> Sorted desc l -> descending l.
Proof.
  unfold descending. intros Hc Hs.
  induction Hs as [|r l Hs IH Hd]; [constructor|].
  apply Forall_cons_iff in Hc as [Hr Hc].
  constructor; [now apply IH|].
  destruct Hd as [|r' l' Hd]; constructor.
  apply Forall_cons_iff in Hc as [Hr' _]. now apply canonical_desc.
Qed.

Lemma descending_app (l1 l2 : list EditRecord) :
  descending (l1 ++ l2) -> descending l1 /\ descending l2.
Proof.
  unfold descending. induction l1 as [|r l1 IH]; intros H.
  - split; [constructor | exact H].
  - cbn [app] in H. apply Sorted_inv in H as [H Hd].
    destruct (IH H) as [H1 H2]. split; [|exact H2].
    constructor; [exact H1|].
    destruct l1 as [|r' l1]; constructor.
    now apply HdRel_inv in Hd.
Qed.

Lemma descending_concat (gs : list (list EditRecord)) :
  descending (concat gs) -> Forall descending gs.
Proof.
  induction gs as [|g gs IH]; intros H; [constructor|].
  cbn [concat] in H. apply descending_app in H as [H1 H2].
  constructor; auto.
Qed.

(** X18.  When every timestamp is in the format of the wiki,
    [format_changes] returns a report, the records of the report run from
    the latest to the earliest, and so do the records of every group: the
    time range of a group, written last member first, runs from its
    earliest to its latest edit. *)
Theorem canonical_report_is_chronological (changes : list EditRecord)
    (base_url : string) (start_date end_date : datetime.t) (title : string) :
  Forall canonical changes ->
  exists html_output bs,
    snd (format_changes changes base_url start_date end_date title)
    = Some html_output
    /\ blocks_of changes = Some bs
    /\ descending (report_records (sections bs))
    /\ Forall descending (all_groups bs)
    /\ forall first_edit others rc,
         In (first_edit :: others) (all_groups bs) ->
         In rc (first_edit :: others) ->
         epoch_of (last others first_edit) <= epoch_of rc
           <= epoch_of first_edit.
Proof.
  intros Hc.
  assert (Hcs : Forall canonical (sort_changes changes)).
  { apply Forall_forall. intros rc Hin. rewrite Forall_forall in Hc.
    apply Hc. apply Permutation_in with (l := sort_changes changes);
      [symmetry; apply sort_changes_perm | exact Hin]. }
  assert (Hp : Forall parses (sort_changes changes)).
  { eapply Forall_impl; [|exact Hcs]. apply canonical_parses. }
  destruct (scan_blocks_some _ Hp (mkState None None None [] []))
    as [st Hs].
  assert (Hb : blocks_of changes = Some (finish st)).
  { unfold blocks_of, scan_all. rewrite Hs. cbn [obind].
    now rewrite (flush_eq emit_block flushed st (flushes_block _)). }
  destruct (blocks_of_spec _ _ Hb) as (A & R & _).
  assert (D : descending (report_records (sections (finish st)))).
  { rewrite R. apply sorted_descending; [exact Hcs|].
    apply sort_changes_sorted. }
  assert (G : Forall descending (all_groups (finish st))).
  { apply descending_concat. now rewrite A, <- report_records_concat. }
  eexists. exists (finish st).
  split.
  { unfold format_changes. cbn [snd]. rewrite scan_all_lines.
    fold (blocks_of changes). rewrite Hb. reflexivity. }
  split; [exact Hb|]. split; [exact D|]. split; [exact G|].
  intros first_edit others rc Hg Hrc.
  rewrite Forall_forall in G. apply descending_bounds; auto.
Qed.

Lemma canonical_scenario : Forall canonical [rcB; rcA1; rcA2].
Proof.
  repeat constructor.
  - exists (datetime.mk 2024 1 2 9 0 0 0).
    split; [vm_compute; intuition discriminate | reflexivity].
  - exists (datetime.mk 2024 1 2 10 0 0 0).
    split; [vm_compute; intuition discriminate | reflexivity].
  - exists (datetime.mk 2024 1 2 9 30 0 0).
    split; [vm_compute; intuition discriminate | reflexivity].
Qed.

Lemma canonical_report_is_chronological_witness :
  Forall canonical [rcB; rcA1; rcA2]
  /\ exists html_output bs,
       snd (format_changes [rcB; rcA1; rcA2] "https://w.example.org"
              jan06 dec31 "w")
       = Some html_output
       /\ blocks_of [rcB; rcA1; rcA2] = Some bs
       /\ descending (report_records (sections bs))
       /\ Forall descending (all_groups bs)
       /\ forall first_edit others rc,
            In (first_edit :: others) (all_groups bs) ->
            In rc (first_edit :: others) ->
            epoch_of (last others first_edit) <= epoch_of rc
              <= epoch_of first_edit.
Proof.
  split; [exact canonical_scenario|].
  exact (canonical_report_is_chronological _ _ _ _ _ canonical_scenario).
Defined.

(** *** What [strptime] accepts *)

Lemma in_p_bind {A B : Type} (p : datetime.parser A)
    (f : A -> datetime.parser B) (s : string) (x : B * string) :
  In x (datetime.p_bind p f s) ->
  exists a r, In (a, r) (p s) /\ In x (f a r).
Proof.
  unfold datetime.p_bind. intros H.
  apply in_flat_map in H as ([a r] & Hin & Hx). now exists a, r.
Qed.

Lemma in_p_char (ok : ascii -> bool) (s v r : string) :
  In (v, r) (datetime.p_char ok s) ->
  exists c, ok c = true /\ v = String c EmptyString.
Proof.
  unfold datetime.p_char. destruct s as [|c s]; [intros []|].
  destruct (ok c) eqn:E; [|intros []].
  intros [[= <- <-]|[]]. now exists c.
Qed.

Lemma in_p_two (ok1 ok2 : ascii -> bool) (s v r : string) :
  In (v, r) (datetime.p_two ok1 ok2 s) ->
  exists c1 c2,
    ok1 c1 = true /\ ok2 c2 = true
    /\ v = String c1 (String c2 EmptyString).
Proof.
  unfold datetime.p_two. intros H.
  apply in_p_bind in H as (a & r1 & Ha & H).
  apply in_p_bind in H as (b & r2 & Hb & H).
  apply in_p_char in Ha as (c1 & H1 & ->).
  apply in_p_char in Hb as (c2 & H2 & ->).
  destruct H as [[= <- <-]|[]]. now exists c1, c2.
Qed.

Lemma in_range_code (lo hi c : ascii) :
  in_range lo hi c = true -> code lo <= code c <= code hi.
Proof.
  unfold in_range. intros [H1 H2]%andb_true_iff.
  apply Z.leb_le in H1, H2. lia.
Qed.

Lemma only_code (x c : ascii) : datetime.only x c = true -> code c = code x.
Proof. unfold datetime.only. now intros ->%Ascii.eqb_eq. Qed.

Lemma is_digit_code (c : ascii) : is_digit c = true -> 48 <= code c <= 57.
Proof.
  unfold is_digit. intros [H1 H2]%andb_true_iff.
  apply Z.leb_le in H1, H2. lia.
Qed.

Lemma is_digit_true (c : ascii) : 48 <= code c <= 57 -> is_digit c = true.
Proof.
  intros H. unfold is_digit. apply andb_true_iff.
  split; apply Z.leb_le; lia.
Qed.

Lemma is_digit_false (c : ascii) : code c < 48 -> is_digit c = false.
Proof.
  intros H. unfold is_digit. apply andb_false_iff. left.
  apply Z.leb_gt. lia.
Qed.

(** Turn what is known of the characters of a field into bounds on their
    codes, and compute the number the field stands for. *)
Ltac char_bounds :=
  repeat match goal with
         | H : datetime.only _ _ = true |- _ => apply only_code in H
         | H : in_range _ _ _ = true |- _ => apply in_range_code in H
         | H : is_digit _ = true |- _ => apply is_digit_code in H
         end;
  repeat match goal with
         | H : context [code (Ascii ?a ?b ?c ?d ?e ?f ?g ?h)] |- _ =>
             let v := eval vm_compute in (code (Ascii a b c d e f g h)) in
             change (code (Ascii a b c d e f g h)) with v in H
         end.

Ltac field_value :=
  char_bounds; unfold int; cbn [append int_digits];
  repeat first [ rewrite is_digit_true by lia
               | rewrite is_digit_false by lia ];
  unfold digit_val; lia.

Lemma re_Y_value (s v r : string) :
  In (v, r) (datetime.re_Y s) -> 0 <= int v <= 9999.
Proof.
  unfold datetime.re_Y. intros H.
  apply in_p_bind in H as (a & r1 & Ha & H).
  apply in_p_bind in H as (b & r2 & Hb & H).
  apply in_p_two in Ha as (c1 & c2 & H1 & H2 & ->).
  apply in_p_two in Hb as (c3 & c4 & H3 & H4 & ->).
  destruct H as [[= <- <-]|[]]. field_value.
Qed.

Ltac field_cases H :=
  unfold datetime.p_alt in H;
  repeat (apply in_app_or in H as [H|H]);
  first [ apply in_p_two in H as (? & ? & ? & ? & ->)
        | apply in_p_char in H as (? & ? & ->) ];
  field_value.

Lemma re_m_value (s v r : string) :
  In (v, r) (datetime.re_m s) -> 1 <= int v <= 12.
Proof. unfold datetime.re_m. intros H. field_cases H. Qed.

Lemma re_d_value (s v r : string) :
  In (v, r) (datetime.re_d s) -> 1 <= int v <= 31.
Proof. unfold datetime.re_d. intros H. field_cases H. Qed.

Lemma re_H_value (s v r : string) :
  In (v, r) (datetime.re_H s) -> 0 <= int v <= 23.
Proof. unfold datetime.re_H. intros H. field_cases H. Qed.

Lemma re_M_value (s v r : string) :
  In (v, r) (datetime.re_M s) -> 0 <= int v <= 59.
Proof. unfold datetime.re_M. intros H. field_cases H. Qed.

Lemma re_S_value (s v r : string) :
  In (v, r) (datetime.re_S s) -> 0 <= int v <= 61.
Proof. unfold datetime.re_S. intros H. field_cases H. Qed.

Lemma format_regex_fields (s rest : string) (dt : datetime.t) :
  In (dt, rest) (datetime.format_regex s) ->
  0 <= datetime.year dt <= 9999
  /\ 1 <= datetime.month dt <= 12
  /\ 1 <= datetime.day dt <= 31
  /\ 0 <= datetime.hour dt <= 23
  /\ 0 <= datetime.minute dt <= 59
  /\ 0 <= datetime.second dt <= 61
  /\ datetime.microsecond dt = 0.
Proof.
  unfold datetime.format_regex. intros H.
  apply in_p_bind in H as (Y & r1 & HY & H).
  apply in_p_bind in H as (x1 & r2 & _ & H).
  apply in_p_bind in H as (m & r3 & Hm & H).
  apply in_p_bind in H as (x2 & r4 & _ & H).
  apply in_p_bind in H as (d & r5 & Hd & H).
  apply in_p_bind in H as (x3 & r6 & _ & H).
  apply in_p_bind in H as (hh & r7 & HH & H).
  apply in_p_bind in H as (x4 & r8 & _ & H).
  apply in_p_bind in H as (mi & r9 & HM & H).
  apply in_p_bind in H as (x5 & r10 & _ & H).
  apply in_p_bind in H as (ss & r11 & HS & H).
  apply in_p_bind in H as (x6 & r12 & _ & H).
  destruct H as [[= <- <-]|[]].
  cbn [datetime.year datetime.month datetime.day datetime.hour
       datetime.minute datetime.second datetime.microsecond].
  apply re_Y_value in HY. apply re_m_value in Hm. apply re_d_value in Hd.
  apply re_H_value in HH. apply re_M_value in HM. apply re_S_value in HS.
  auto 10.
Qed.

(** X19.  What [strptime] accepts is a date and a time of the calendar: a
    year from 1 to 9999, a month, a day that the month has, an hour below
    24, minutes and seconds below 60, and no microseconds. *)
Theorem strptime_valid (s : string) (dt : datetime.t) :
  datetime.strptime s = Some dt ->
  valid_datetime dt /\ datetime.microsecond dt = 0.
Proof.
  unfold datetime.strptime.
  destruct (datetime.format_regex s) as [|[dt' rest] l] eqn:E; [discriminate|].
  assert (Hin : In (dt', rest) (datetime.format_regex s))
    by (rewrite E; now left).
  apply format_regex_fields in Hin as (Hy & Hm & Hd & HH & HM & HS & Hu).
  destruct (negb (rest =? "")%string); [discriminate|].
  destruct (_ && _) eqn:C; [|discriminate]. intros [= <-].
  apply andb_true_iff in C as [C C3]. apply andb_true_iff in C as [C1 C2].
  apply Z.leb_le in C1, C2, C3.
  unfold valid_datetime. repeat split; first [lia | exact Hu].
Qed.

Lemma strptime_valid_witness :
  datetime.strptime "2024-1-2t9:3:0z"
  = Some (datetime.mk 2024 1 2 9 3 0 0)
  /\ valid_datetime (datetime.mk 2024 1 2 9 3 0 0)
  /\ datetime.microsecond (datetime.mk 2024 1 2 9 3 0 0) = 0.
Proof.
  assert (H : datetime.strptime "2024-1-2t9:3:0z"
              = Some (datetime.mk 2024 1 2 9 3 0 0))
    by (vm_compute; reflexivity).
  split; [exact H|]. exact (strptime_valid _ _ H).
Defined.
